(** * Electrolux status integration: capability-to-entity mapping

    A shallow embedding of [custom_components/electrolux_status/api.py]
    (classes [ElectroluxLibraryEntity] and [Appliance]) and of the part of
    [entity.py] they rely on, together with the properties of the mapping
    that the design notes state.

    Python values are dynamically typed: they are embedded as the type
    [pyval] of JSON-like values, dictionaries keep their insertion order
    (association lists), and an operation that raises in Python returns
    [Raise] with the exception class. *)

From Stdlib Require Import String Ascii List ZArith Bool Lia.
Import ListNotations.

Set Implicit Arguments.

(* ================================================================== *)
(** ** Python values, exceptions and dictionaries *)

Module Py.

(** The exception classes the modelled code can raise; all of them derive
    from [Exception]. *)
Inductive exn : Type :=
| AttributeError
| KeyError
| IndexError
| TypeError
| UnboundLocalError.

Inductive result (A : Type) : Type :=
| Ok (a : A)
| Raise (e : exn).

Arguments Ok {A} a.
Arguments Raise {A} e.

Definition bind {A B} (m : result A) (k : A -> result B) : result B :=
  match m with
  | Ok a => k a
  | Raise e => Raise e
  end.

(** JSON-like values.  A float keeps a mantissa and an exponent; only its
    being zero or not matters to the code below. *)
#[warnings="-register-all"]
Inductive pyval : Type :=
| VNone
| VBool (b : bool)
| VInt (z : Z)
| VFloat (mantissa exponent : Z)
| VStr (s : string)
| VList (l : list pyval)
| VDict (d : list (string * pyval)).

(** A [dict] with string keys, in insertion order. *)
Definition dict (V : Type) : Type := list (string * V).

(** [bool(v)]: the truth value Python gives [v] in [if v] and [not v]. *)
Definition truthy (v : pyval) : bool :=
  match v with
  | VNone => false
  | VBool b => b
  | VInt z => negb (z =? 0)%Z
  | VFloat m _ => negb (m =? 0)%Z
  | VStr s => negb (String.eqb s "")
  | VList l => match l with [] => false | _ => true end
  | VDict d => match d with [] => false | _ => true end
  end.

(** [v is None] *)
Definition is_none (v : pyval) : bool :=
  match v with VNone => true | _ => false end.

(** [isinstance(v, dict)] *)
Definition is_dict (v : pyval) : bool :=
  match v with VDict _ => true | _ => false end.

(** [v == "lit"]: a string equals only a string with the same text. *)
Definition eq_str (v : pyval) (lit : string) : bool :=
  match v with VStr s => String.eqb s lit | _ => false end.

(** [v in [lit1, lit2, ...]] for a list of string literals. *)
Definition in_strs (v : pyval) (lits : list string) : bool :=
  existsb (eq_str v) lits.

Section Dict.
Variable V : Type.

Fixpoint lookup (d : dict V) (k : string) : option V :=
  match d with
  | [] => None
  | (k', v) :: d' => if String.eqb k' k then Some v else lookup d' k
  end.

(** [d.get(k, default)] *)
Definition get (d : dict V) (k : string) (default : V) : V :=
  match lookup d k with Some v => v | None => default end.

(** [d[k]] *)
Definition getitem (d : dict V) (k : string) : result V :=
  match lookup d k with Some v => Ok v | None => Raise KeyError end.

(** [d[k] = v]: an existing key keeps its position, a new key goes last. *)
Fixpoint set (d : dict V) (k : string) (v : V) : dict V :=
  match d with
  | [] => [(k, v)]
  | (k', v') :: d' =>
      if String.eqb k' k then (k', v) :: d' else (k', v') :: set d' k v
  end.

(** [d.update(other)] *)
Definition update (d other : dict V) : dict V :=
  fold_left (fun acc kv => set acc (fst kv) (snd kv)) other d.

(** [list(d.keys())] *)
Definition keys (d : dict V) : list string := map fst d.

(** [k in d] *)
Definition mem (d : dict V) (k : string) : bool :=
  match lookup d k with Some _ => true | None => false end.
End Dict.

(** [v.get(k, None)] on an arbitrary value: only a [dict] has [get]. *)
Definition vget (v : pyval) (k : string) : result pyval :=
  match v with
  | VDict d => Ok (get d k VNone)
  | _ => Raise AttributeError
  end.

End Py.

Import Py.

Declare Scope py_scope.
Delimit Scope py_scope with py.
Notation "x <- m ;; k" := (Py.bind m (fun x => k))
  (at level 61, m at next level, right associativity) : py_scope.
Local Open Scope py_scope.
Local Open Scope string_scope.
Local Open Scope list_scope.

(* ================================================================== *)
(** ** Entity kinds ([const.py]) *)

(** The platform constants imported from [const.py].  Only their being
    pairwise different matters to [api.py]. *)
Inductive entity_kind : Type :=
| BINARY_SENSOR
| BUTTON
| NUMBER
| SELECT
| SENSOR
| SWITCH.

(* ================================================================== *)
(** ** [ElectroluxLibraryEntity] *)

(** The attributes of [ElectroluxLibraryEntity].  [capabilities] is [None]
    when the server sent no capability metadata.  [reported_state], which
    only [get_value] reads, is left out. *)
Record ElectroluxLibraryEntity : Type := {
  name : string;
  status : string;
  state : pyval;
  appliance_info : pyval;
  capabilities : option (dict pyval)
}.

(** [get_name] *)
Definition get_name (self : ElectroluxLibraryEntity) : string := name self.

(** [self.capabilities.get(attr_name, None)] *)
Definition capability_lookup (self : ElectroluxLibraryEntity)
    (attr_name : string) : result pyval :=
  match capabilities self with
  | Some caps => Ok (get caps attr_name VNone)
  | None => Raise AttributeError
  end.

Module EntityType.

(** The guard of the "Exception (Electrolux bug)" branch. *)
Definition switch_exception (type_object access : pyval)
    (capability_def : dict pyval) : bool :=
  eq_str type_object "boolean"
  && eq_str access "readwrite"
  && negb (is_none (get capability_def "values" VNone)).

(** The guard of the "List of values" branch, outer [if]. *)
Definition has_value_list (access : pyval) (capability_def : dict pyval)
  : bool :=
  let values := get capability_def "values" VNone in
  truthy values
  && eq_str access "readwrite"
  && is_dict values
  && match values with VDict d => (0 <? length d)%nat | _ => false end.

(** The inner [if] of the "List of values" branch. *)
Definition select_allowed (type_object : pyval)
    (capability_def : dict pyval) : bool :=
  negb (eq_str type_object "number")
  || is_none (get capability_def "min" VNone).

Definition select_rule (type_object access : pyval)
    (capability_def : dict pyval) : bool :=
  has_value_list access capability_def
  && select_allowed type_object capability_def.

(** The [match type_object] statement; falling out of it returns [None]. *)
Definition match_type (type_object access : pyval) : option entity_kind :=
  if eq_str type_object "boolean" then
    if eq_str access "read" then Some BINARY_SENSOR
    else if eq_str access "readwrite" then Some SWITCH
    else None
  else if eq_str type_object "temperature" then
    if eq_str access "read" then Some SENSOR
    else if eq_str access "readwrite" then Some NUMBER
    else None
  else
    if eq_str access "read"
       && in_strs type_object ["number"; "int"; "boolean"; "string"]
    then Some SENSOR
    else if in_strs type_object ["int"; "number"] then Some NUMBER
    else None.

(** The body of [get_entity_type] once [capability_def] is known to be a
    non-empty dictionary. *)
Definition entity_type_of_def (capability_def : dict pyval)
  : option entity_kind :=
  let type_object := get capability_def "type" VNone in
  if negb (truthy type_object) then None else
  let access := get capability_def "access" VNone in
  if negb (truthy access) then None else
  if switch_exception type_object access capability_def then Some SWITCH else
  if select_rule type_object access capability_def then Some SELECT else
  match_type type_object access.

Definition get_entity_type (self : ElectroluxLibraryEntity)
    (attr_name : string) : result (option entity_kind) :=
  capability_def <- capability_lookup self attr_name ;;
  if negb (truthy capability_def) then Ok None else
  match capability_def with
  | VDict d => Ok (entity_type_of_def d)
  | _ => Raise AttributeError
  end.

End EntityType.

Import EntityType.

(* ================================================================== *)
(** ** Text

    Attribute identifiers are ASCII text.  A character outside ASCII has
    no case and is no digit in this model, where Python's [str] methods
    follow Unicode: the model is the code on ASCII text only ([is_ascii]),
    and a statement about case or digits is a statement about such text. *)

Module Text.

Definition chars : Type := list ascii.

Definition code (c : ascii) : nat := nat_of_ascii c.

(** [s.isascii()]: every character is below 128. *)
Definition is_ascii (s : chars) : bool :=
  forallb (fun c => (code c <? 128)%nat) s.

(** [c.isupper()], [c.islower()], [c.isdigit()] for one character. *)
Definition isupper (c : ascii) : bool := (65 <=? code c)%nat && (code c <=? 90)%nat.
Definition islower (c : ascii) : bool := (97 <=? code c)%nat && (code c <=? 122)%nat.
Definition isdigit (c : ascii) : bool := (48 <=? code c)%nat && (code c <=? 57)%nat.

(** [c.upper()] and [c.lower()] for one character. *)
Definition upper_char (c : ascii) : ascii :=
  if islower c then ascii_of_nat (code c - 32) else c.
Definition lower_char (c : ascii) : ascii :=
  if isupper c then ascii_of_nat (code c + 32) else c.

(** [s.lower()] *)
Definition lower (s : chars) : chars := map lower_char s.

(** [s.replace(a, b)] for single characters [a] and [b]. *)
Definition replace (a b : ascii) (s : chars) : chars :=
  map (fun c => if Ascii.eqb c a then b else c) s.

(** [sep.join(words)] for a single character [sep]. *)
Fixpoint join (sep : ascii) (words : list chars) : chars :=
  match words with
  | [] => []
  | [w] => w
  | w :: ws => w ++ sep :: join sep ws
  end.

(** [s[i]] with Python's negative indices. *)
Definition index (s : chars) (i : Z) : result ascii :=
  let n := Z.of_nat (length s) in
  let j := if (i <? 0)%Z then (n + i)%Z else i in
  if ((0 <=? j) && (j <? n))%Z then
    match nth_error s (Z.to_nat j) with
    | Some c => Ok c
    | None => Raise IndexError
    end
  else Raise IndexError.

(** The last ["/"] of [s]: the text before it and the text after it. *)
Fixpoint rsplit_slash (s : chars) : option (chars * chars) :=
  match s with
  | [] => None
  | c :: s' =>
      match rsplit_slash s' with
      | Some (h, t) => Some (c :: h, t)
      | None => if Ascii.eqb c "/" then Some ([], s') else None
      end
  end.

(** [s.rpartition("/")] *)
Definition rpartition (s : chars) : chars * chars * chars :=
  match rsplit_slash s with
  | Some (h, t) => (h, ["/"%char], t)
  | None => ([], [], s)
  end.

(** [s.startswith(prefix)] *)
Fixpoint startswith (s prefix : chars) : bool :=
  match prefix, s with
  | [], _ => true
  | p :: prefix', c :: s' => Ascii.eqb c p && startswith s' prefix'
  | _ :: _, [] => false
  end.

(** [re.match("^[A-Z0-9]+$", s)]: one or more capitals or digits; [$] also
    matches just before a final line feed. *)
Definition caps_or_digit (c : ascii) : bool := isupper c || isdigit c.

Definition all_caps (s : chars) : bool :=
  match s with
  | [] => false
  | _ => forallb caps_or_digit s
  end.

Definition re_match_caps (s : chars) : bool :=
  all_caps s
  || match rev s with
     | c :: r => Ascii.eqb c "010" && all_caps (rev r)
     | [] => false
     end.

End Text.

Import Text.

Notation "'str' s" := (list_ascii_of_string s) (at level 9, only parsing).

(* ================================================================== *)
(** ** Names: [get_sensor_name], [get_category], [get_entity_name] *)

Module SensorName.

(** The two local variables the loop of [get_sensor_name] updates. *)
Record loop_state : Type := {
  group : chars;
  words : list chars
}.

(** What both [words.append] sites that look at the group do with it. *)
Definition normalize (g : chars) : chars :=
  if re_match_caps g then g else lower g.

(** The first condition of the inner [if]; [s[i - 1]] and [s[i + 1]] are
    read only when Python's [and]/[or] reach them. *)
Definition inside_caps_run (s : chars) (i : nat) (char : ascii) : result bool :=
  if isupper char || isdigit char then
    prev <- index s (Z.of_nat i - 1) ;;
    if isupper prev || isdigit prev then
      if (Z.of_nat i =? Z.of_nat (length s) - 1)%Z then Ok true
      else
        next <- index s (Z.of_nat i + 1) ;;
        Ok (isupper next || isdigit next)
    else Ok false
  else Ok false.

(** The condition of the [elif]. *)
Definition starts_word (s : chars) (i : nat) (char : ascii) : result bool :=
  if isupper char || isdigit char then
    prev <- index s (Z.of_nat i - 1) ;;
    Ok (islower prev)
  else Ok false.

(** One iteration of [for i in range(len(s))]. *)
Definition loop_body (s : chars) (st : loop_state) (i : nat) : result loop_state :=
  char <- index s (Z.of_nat i) ;;
  match group st with
  | [] => Ok {| group := [char]; words := words st |}
  | _ :: _ =>
      if Ascii.eqb char " " && (0 <? length (group st))%nat then
        Ok {| group := []; words := words st ++ [group st] |}
      else
        b1 <- inside_caps_run s i char ;;
        if b1 then Ok {| group := group st ++ [char]; words := words st |}
        else
          b2 <- starts_word s i char ;;
          if b2 then
            Ok {| group := [char]; words := words st ++ [normalize (group st)] |}
          else
            Ok {| group := group st ++ [char]; words := words st |}
  end.

Fixpoint loop (s : chars) (st : loop_state) (range : list nat) : result loop_state :=
  match range with
  | [] => Ok st
  | i :: range' => st' <- loop_body s st i ;; loop s st' range'
  end.

(** [attr_name.rpartition("/")[-1] or attr_name] *)
Definition last_part (attr_name : chars) : chars :=
  match snd (rpartition attr_name) with
  | [] => attr_name
  | t => t
  end.

Definition get_sensor_name_chars (attr_name : chars) : result chars :=
  let attr_name := last_part attr_name in
  c0 <- index attr_name 0 ;;
  let attr_name := upper_char c0 :: skipn 1 attr_name in
  let attr_name := replace "_" " " attr_name in
  let s := attr_name in
  st <- loop s {| group := []; words := [] |} (seq 0 (length s)) ;;
  let words :=
    if (0 <? length (group st))%nat then words st ++ [normalize (group st)]
    else words st in
  Ok (join " " words).

(** [get_sensor_name(attr_name, container)]; the body never reads
    [container]. *)
Definition get_sensor_name (attr_name : string) : result string :=
  r <- get_sensor_name_chars (str attr_name) ;;
  Ok (string_of_list_ascii r).

(** [get_category]: [attr_name.rpartition("/")[0]] *)
Definition get_category (attr_name : string) : string :=
  string_of_list_ascii (fst (fst (rpartition (str attr_name)))).

(** [get_entity_name]: [attr_name.rpartition("/")[-1] or attr_name] *)
Definition get_entity_name (attr_name : string) : string :=
  string_of_list_ascii (last_part (str attr_name)).

End SensorName.

Import SensorName.

(** [get_entity_unit] and [get_entity_device_class].  The two constants stand
    for [UnitOfTemperature.CELSIUS] and [SensorDeviceClass.TEMPERATURE] of
    the host framework. *)
Definition CELSIUS : pyval := VStr "celsius".
Definition TEMPERATURE : pyval := VStr "temperature".

Definition temperature_or_none (self : ElectroluxLibraryEntity)
    (attr_name : string) (constant : pyval) : result pyval :=
  capability_def <- capability_lookup self attr_name ;;
  if negb (truthy capability_def) then Ok VNone else
  type_units <- vget capability_def "type" ;;
  if negb (truthy type_units) then Ok VNone else
  if eq_str type_units "temperature" then Ok constant else Ok VNone.

Definition get_entity_unit (self : ElectroluxLibraryEntity)
    (attr_name : string) : result pyval :=
  temperature_or_none self attr_name CELSIUS.

Definition get_entity_device_class (self : ElectroluxLibraryEntity)
    (attr_name : string) : result pyval :=
  temperature_or_none self attr_name TEMPERATURE.

(** [sources_list]: [None] is Python's [None]. *)
Definition care_prefix : string := "applianceCareAndMaintenance".

Definition key_startswith (key prefix : string) : bool :=
  startswith (str key) (str prefix).

Definition sources_list (self : ElectroluxLibraryEntity)
  : option (list string) :=
  match capabilities self with
  | None => None
  | Some caps =>
      Some (filter (fun key => negb (key_startswith key care_prefix))
                   (keys caps))
  end.

Definition set_capabilities (self : ElectroluxLibraryEntity)
    (caps : option (dict pyval)) : ElectroluxLibraryEntity :=
  {| name := name self; status := status self; state := state self;
     appliance_info := appliance_info self; capabilities := caps |}.

(* ================================================================== *)
(** ** The catalog ([const.py], [model.py]) *)

(** An entry of the static catalog: the attributes of [ElectroluxDevice]
    that [api.py] reads.  [category] is a string or [None]. *)
Module ElectroluxDevice.
Record t : Type := {
  category : option string;
  capability_info : pyval;
  device_class : pyval;
  unit : pyval;
  entity_category : pyval;
  entity_icon : pyval
}.
End ElectroluxDevice.

(** [api.py] reads a value of [Catalog] as one [ElectroluxDevice] in [setup]
    and [get_entity] and iterates over it as a list of them in
    [update_missing_entities]; [const.py] is not part of the sources, so a
    value may be either.  Reading an attribute of a list raises
    [AttributeError], iterating over a device raises [TypeError]. *)
Inductive catalog_value : Type :=
| One (item : ElectroluxDevice.t)
| Many (items : list ElectroluxDevice.t).

Definition catalog_truthy (v : option catalog_value) : bool :=
  match v with
  | None => false
  | Some (One _) => true
  | Some (Many items) => match items with [] => false | _ => true end
  end.

(** [v.attr] for a catalog value [v]. *)
Definition device_attr {A} (v : catalog_value) (attr : ElectroluxDevice.t -> A)
  : result A :=
  match v with
  | One item => Ok (attr item)
  | Many _ => Raise AttributeError
  end.

(** [for item in v] *)
Definition device_iter (v : catalog_value) : result (list ElectroluxDevice.t) :=
  match v with
  | One _ => Raise TypeError
  | Many items => Ok items
  end.

(** [if category] *)
Definition category_truthy (category : option string) : bool :=
  match category with
  | Some c => negb (String.eqb c "")
  | None => false
  end.

(** The test both scans of the catalog apply to the reported state:
    [(category and reported.get(category, None)
       and reported.get(category, None).get(key))
     or (not category and reported.get(key, None))].
    [reported] is truthy where the test is made; only a dictionary has
    [get]. *)
Definition reported_has (reported : pyval) (category : option string)
    (key : string) : result bool :=
  match reported with
  | VDict r =>
      if category_truthy category then
        let container := get r (match category with Some c => c | None => "" end) VNone in
        if truthy container then
          v <- vget container key ;; Ok (truthy v)
        else Ok false
      else Ok (truthy (get r key VNone))
  | _ => Raise AttributeError
  end.

(* ================================================================== *)
(** ** Entities ([entity.py]) *)

(** What [api.py] passes to the constructors of the entity classes, and the
    two attributes [setup] and [update] of [ElectroluxEntity] assign.  The
    class of the entity is the one of its [entity_type]; the constructors,
    which belong to the platform modules, are taken to return.
    [appliance_status] holds the state as it was when [update] was called. *)
Module ElectroluxEntity.
Record t : Type := {
  name : string;
  entity_type : entity_kind;
  entity_attr : string;
  entity_source : string;
  pnc_id : string;
  capability : pyval;
  unit : pyval;
  entity_category : pyval;
  device_class : pyval;
  icon : pyval;
  val_to_send : option string;
  data_bound : bool;
  appliance_status : option pyval
}.

(** [setup(self, data)]: [self.data = data] *)
Definition setup (self : t) : t :=
  {| name := name self; entity_type := entity_type self;
     entity_attr := entity_attr self; entity_source := entity_source self;
     pnc_id := pnc_id self; capability := capability self; unit := unit self;
     entity_category := entity_category self;
     device_class := device_class self; icon := icon self;
     val_to_send := val_to_send self; data_bound := true;
     appliance_status := appliance_status self |}.

(** [update(self, appliance_status)] *)
Definition update (self : t) (status : pyval) : t :=
  {| name := name self; entity_type := entity_type self;
     entity_attr := entity_attr self; entity_source := entity_source self;
     pnc_id := pnc_id self; capability := capability self; unit := unit self;
     entity_category := entity_category self;
     device_class := device_class self; icon := icon self;
     val_to_send := val_to_send self; data_bound := data_bound self;
     appliance_status := Some status |}.
End ElectroluxEntity.

(* ================================================================== *)
(** ** [Appliance] *)

Module Appliance.

(** The attributes of [Appliance] that the modelled methods read or write.
    [data] is [None] until [setup] binds it; [entities] is only a class
    annotation until [setup] assigns it ([None] here: reading it raises
    [AttributeError]); an element of [entities] may be Python's [None].
    The capability dictionary that [self.data] and the [data] argument of
    [setup] share is the one stored in [data]; the catalog is a constant. *)
Record t : Type := {
  own_capabilties : bool;
  data : option ElectroluxLibraryEntity;
  name : string;
  pnc_id : string;
  brand : string;
  model : string;
  state : pyval;
  entities : option (list (option ElectroluxEntity.t))
}.

(** [Appliance.__init__] *)
Definition init (name pnc_id brand model : string) (state : pyval) : t :=
  {| own_capabilties := false; data := None; name := name; pnc_id := pnc_id;
     brand := brand; model := model; state := state; entities := None |}.

Definition with_data (self : t) (d : option ElectroluxLibraryEntity) : t :=
  {| own_capabilties := own_capabilties self; data := d; name := name self;
     pnc_id := pnc_id self; brand := brand self; model := model self;
     state := state self; entities := entities self |}.

Definition with_state (self : t) (st : pyval) : t :=
  {| own_capabilties := own_capabilties self; data := data self;
     name := name self; pnc_id := pnc_id self; brand := brand self;
     model := model self; state := st; entities := entities self |}.

Definition with_entities (self : t)
    (es : option (list (option ElectroluxEntity.t))) : t :=
  {| own_capabilties := own_capabilties self; data := data self;
     name := name self; pnc_id := pnc_id self; brand := brand self;
     model := model self; state := state self; entities := es |}.

(** *** Methods that mutate the appliance: state and exceptions

    A method is a function from the appliance before the call to the
    appliance after it and either the returned value or the exception
    raised; what was assigned before an exception stays assigned. *)
Definition M (A : Type) : Type := t -> t * result A.

Definition ret {A} (a : A) : M A := fun self => (self, Ok a).

Definition raise {A} (e : exn) : M A := fun self => (self, Raise e).

Definition bindM {A B} (m : M A) (k : A -> M B) : M B :=
  fun self =>
    match m self with
    | (self', Ok a) => k a self'
    | (self', Raise e) => (self', Raise e)
    end.

Definition lift {A} (r : result A) : M A := fun self => (self, r).

Definition write (f : t -> t) : M unit := fun self => (f self, Ok tt).

(** [try: body except Exception as ex: _LOGGER.debug(...)]: every class of
    [exn] derives from [Exception], and the handler only logs. *)
Definition try_except (body : M unit) : M unit :=
  fun self =>
    match body self with
    | (self', Ok _) => (self', Ok tt)
    | (self', Raise _) => (self', Ok tt)
    end.

(** [m] leaves the attribute read by [f] as it was. *)
Definition keeps {A X : Type} (f : t -> X) (m : M A) : Prop :=
  forall self, f (fst (m self)) = f self.

End Appliance.

Notation "x <<- m ;; k" := (Appliance.bindM m (fun x => k))
  (at level 61, m at next level, right associativity) : py_scope.
Notation "m ;;; k" := (Appliance.bindM m (fun _ => k))
  (at level 61, right associativity) : py_scope.

Module Methods.
Import Appliance.

Section WithCatalog.

(** The constants of [const.py] that [api.py] imports. *)
Variable Catalog : dict catalog_value.
Variable COMMON_ATTRIBUTES : list string.
Variable icon_mapping : dict string.

(** [self.data] where an attribute of it is read. *)
Definition bound_data (self : t) : result ElectroluxLibraryEntity :=
  match data self with
  | Some d => Ok d
  | None => Raise AttributeError
  end.

(** [self.data.capabilities] where it is subscripted. *)
Definition subscriptable (caps : option (dict pyval)) : result (dict pyval) :=
  match caps with
  | Some c => Ok c
  | None => Raise TypeError
  end.

(** [self.data.capabilities[path] = info] *)
Definition set_capability (path : string) (info : pyval) : M unit :=
  fun self =>
    match data self with
    | None => (self, Raise AttributeError)
    | Some d =>
        match capabilities d with
        | None => (self, Raise TypeError)
        | Some caps =>
            (with_data self (Some (set_capabilities d (Some (set caps path info)))),
             Ok tt)
        end
    end.

(** The keyword arguments of the five constructor calls of [get_entity]. *)
Definition make_entity (self : t) (label : string) (kind : entity_kind)
    (entity_name category_name : string)
    (capability_info unit entity_category device_class icon : pyval)
    (val_to_send : option string) : ElectroluxEntity.t :=
  {| ElectroluxEntity.name := label;
     ElectroluxEntity.entity_type := kind;
     ElectroluxEntity.entity_attr := entity_name;
     ElectroluxEntity.entity_source := category_name;
     ElectroluxEntity.pnc_id := pnc_id self;
     ElectroluxEntity.capability := capability_info;
     ElectroluxEntity.unit := unit;
     ElectroluxEntity.entity_category := entity_category;
     ElectroluxEntity.device_class := device_class;
     ElectroluxEntity.icon := icon;
     ElectroluxEntity.val_to_send := val_to_send;
     ElectroluxEntity.data_bound := false;
     ElectroluxEntity.appliance_status := None |}.

(** The local variables of [get_entity] that the catalog item overrides. *)
Record entity_meta : Type := {
  m_capability_info : pyval;
  m_device_class : pyval;
  m_unit : pyval;
  m_entity_category : pyval;
  m_entity_icon : pyval
}.

Definition catalog_meta (catalog_item : option catalog_value)
    (capability_info device_class unit : pyval) : result entity_meta :=
  match catalog_item with
  | Some v =>
      if catalog_truthy catalog_item then
        info <- (if is_none capability_info
                 then device_attr v ElectroluxDevice.capability_info
                 else Ok capability_info) ;;
        dc <- device_attr v ElectroluxDevice.device_class ;;
        u <- device_attr v ElectroluxDevice.unit ;;
        ec <- device_attr v ElectroluxDevice.entity_category ;;
        ic <- device_attr v ElectroluxDevice.entity_icon ;;
        Ok {| m_capability_info := info; m_device_class := dc; m_unit := u;
              m_entity_category := ec; m_entity_icon := ic |}
      else
        Ok {| m_capability_info := capability_info;
              m_device_class := device_class; m_unit := unit;
              m_entity_category := VNone; m_entity_icon := VNone |}
  | None =>
      Ok {| m_capability_info := capability_info;
            m_device_class := device_class; m_unit := unit;
            m_entity_category := VNone; m_entity_icon := VNone |}
  end.

(** [f"{self.data.get_name()} {self.data.get_sensor_name(attr, capability)}"] *)
Definition entity_label (d : ElectroluxLibraryEntity) (attr : string)
  : result string :=
  label <- get_sensor_name attr ;;
  Ok (get_name d ++ " " ++ label)%string.

Definition get_entity (self : t) (capability : string)
  : result (option ElectroluxEntity.t) :=
  d <- bound_data self ;;
  entity_type <- get_entity_type d capability ;;
  let entity_name := get_entity_name capability in
  let category := get_category capability in
  caps <- subscriptable (capabilities d) ;;
  capability_info <- getitem caps capability ;;
  device_class <- get_entity_device_class d capability ;;
  unit <- get_entity_unit d capability ;;
  meta <- catalog_meta (lookup Catalog capability) capability_info
            device_class unit ;;
  match entity_type with
  | None => Ok None
  | Some BUTTON => Ok None
  | Some kind =>
      label <- entity_label d entity_name ;;
      Ok (Some (make_entity self label kind entity_name category
                  (m_capability_info meta) (m_unit meta)
                  (m_entity_category meta) (m_device_class meta)
                  (m_entity_icon meta) None))
  end.

(** [self.get_entity(capability)] inside a method. *)
Definition call_get_entity (capability : string)
  : M (option ElectroluxEntity.t) :=
  fun self => (self, get_entity self capability).

(** *** [setup] *)

(** The path under which a catalog entry is rebuilt:
    [f"{category}/{key}" if category else key]. *)
Definition rebuilt_path (category : option string) (key : string) : string :=
  match category with
  | Some c => if category_truthy category then (c ++ "/" ++ key)%string else key
  | None => key
  end.

(** One iteration of [for key, item in Catalog.items()] in [setup]; the
    accumulator is the pair of locals [capabilities], [capabilities_names]. *)
Definition rebuild_step (reported : pyval)
    (acc : dict pyval * list string) (entry : string * catalog_value)
  : result (dict pyval * list string) :=
  let (key, item) := entry in
  category <- device_attr item ElectroluxDevice.category ;;
  present <- reported_has reported category key ;;
  if present || String.eqb key "executeCommand" then
    info <- device_attr item ElectroluxDevice.capability_info ;;
    let path := rebuilt_path category key in
    Ok (set (fst acc) path info, snd acc ++ [path])
  else Ok acc.

Fixpoint rebuild_loop (reported : pyval) (acc : dict pyval * list string)
    (entries : list (string * catalog_value))
  : result (dict pyval * list string) :=
  match entries with
  | [] => Ok acc
  | entry :: entries' =>
      acc' <- rebuild_step reported acc entry ;;
      rebuild_loop reported acc' entries'
  end.

(** [self.state.get("properties", {}).get("reported")] *)
Definition last_reported (state : pyval) : result pyval :=
  match state with
  | VDict st => vget (get st "properties" (VDict [])) "reported"
  | _ => Raise AttributeError
  end.

(** The block "No capabilities returned (unstable API)": it yields the local
    [capabilities_names] ([None] is Python's [None]). *)
Definition setup_rebuild (capabilities_names : option (list string))
  : M (option (list string)) :=
  fun self =>
    match capabilities_names with
    | Some _ => (self, Ok capabilities_names)
    | None =>
        if truthy (state self) then
          match last_reported (state self) with
          | Raise e => (self, Raise e)
          | Ok reported =>
              if truthy reported then
                match rebuild_loop reported ([], []) Catalog with
                | Raise e => (self, Raise e)
                | Ok (capabilities, names) =>
                    match data self with
                    | None => (self, Raise AttributeError)
                    | Some d =>
                        (with_data self
                           (Some (set_capabilities d (Some capabilities))),
                         Ok (Some names))
                    end
                end
              else (self, Ok (Some []))
          end
        else (self, Ok None)
    end.

(** The locals that outlive the loop over [COMMON_ATTRIBUTES]: the list
    [entities], and [catalog_item], which is unbound ([None]) until the loop
    assigns it. *)
Record locals : Type := {
  l_entities : list (option ElectroluxEntity.t);
  l_catalog_item : option (option catalog_value)
}.

(** The inner loop "Check if not reported in capabilities", with its
    [break]. *)
Definition reported_in_capabilities (capabilities_names : list string)
    (entity_name category : string) : bool :=
  existsb (fun capability =>
             String.eqb (get_entity_name capability) entity_name
             && String.eqb (get_category capability) category)
          capabilities_names.

Definition iterable {A} (xs : option (list A)) : result (list A) :=
  match xs with
  | Some l => Ok l
  | None => Raise TypeError
  end.

(** One iteration of [for common_attribute in COMMON_ATTRIBUTES]. *)
Definition common_step (capabilities_names : option (list string))
    (loc : locals) (common_attribute : string) : M locals :=
  let entity_name := get_entity_name common_attribute in
  let category := get_category common_attribute in
  names <<- lift (iterable capabilities_names) ;;
  if reported_in_capabilities names entity_name category then ret loc
  else
    let catalog_item := lookup Catalog entity_name in
    match catalog_item with
    | Some v =>
        if catalog_truthy catalog_item then
          info <<- lift (device_attr v ElectroluxDevice.capability_info) ;;
          set_capability common_attribute info ;;;
          entity <<- call_get_entity common_attribute ;;
          ret {| l_entities := l_entities loc ++ [entity];
                 l_catalog_item := Some catalog_item |}
        else ret {| l_entities := l_entities loc;
                    l_catalog_item := Some catalog_item |}
    | None => ret {| l_entities := l_entities loc;
                     l_catalog_item := Some catalog_item |}
    end.

(** [for x in xs] with locals carried from one iteration to the next. *)
Fixpoint fold_M {A L} (body : L -> A -> M L) (loc : L) (xs : list A) : M L :=
  match xs with
  | [] => ret loc
  | x :: xs' => loc' <<- body loc x ;; fold_M body loc' xs'
  end.

(** The merge "capabilities defined in catalog are richer than provided one
    from server": [capability_info[key] = item] for each key of the catalog
    item for which [capability_info.get(key, None) is None]. *)
Definition merge_info (capability_info catalog_info : dict pyval)
  : dict pyval :=
  fold_left (fun ci kv =>
               if is_none (get ci (fst kv) VNone)
               then set ci (fst kv) (snd kv) else ci)
            catalog_info capability_info.

(** [if catalog_item: ...] in the loop over [capabilities_names]: it yields
    the locals [capability_info] and [device_class].  The merge assigns into
    the dictionary that [data.capabilities[capability]] holds. *)
Definition enrich (capability : string) (capability_info : pyval)
    (catalog_item : option catalog_value) : M (pyval * pyval) :=
  match catalog_item with
  | Some v =>
      if catalog_truthy catalog_item then
        if is_none capability_info then
          info <<- lift (device_attr v ElectroluxDevice.capability_info) ;;
          dc <<- lift (device_attr v ElectroluxDevice.device_class) ;;
          ret (info, dc)
        else
          cinfo <<- lift (device_attr v ElectroluxDevice.capability_info) ;;
          merged <<-
            (if truthy cinfo then
               match cinfo, capability_info with
               | VDict [], _ => ret capability_info
               | VDict items, VDict ci =>
                   let ci' := VDict (merge_info ci items) in
                   set_capability capability ci' ;;; ret ci'
               | _, _ => raise AttributeError
               end
             else ret capability_info) ;;
          dc <<- lift (device_attr v ElectroluxDevice.device_class) ;;
          ret (merged, dc)
      else ret (capability_info, VNone)
  | None => ret (capability_info, VNone)
  end.

(** [capability_info["values"]] followed by [list(commands.keys())] *)
Definition command_keys (capability_info : pyval) : result (list string) :=
  match capability_info with
  | VDict ci =>
      commands <- getitem ci "values" ;;
      match commands with
      | VDict c => Ok (keys c)
      | _ => Raise AttributeError
      end
  | _ => Raise TypeError
  end.

(** One [ElectroluxButtonEntity(...)] of the generator. *)
Definition make_button (self : t) (d : ElectroluxLibraryEntity)
    (entity_name category : string) (capability_info device_class : pyval)
    (command : string) : result (option ElectroluxEntity.t) :=
  label <- entity_label d command ;;
  Ok (Some (make_entity self label BUTTON entity_name category capability_info
              VNone VNone device_class
              (VStr (get icon_mapping command "mdi:gesture-tap-button"))
              (Some command))).

Fixpoint map_result {A B} (f : A -> result B) (xs : list A) : result (list B) :=
  match xs with
  | [] => Ok []
  | x :: xs' => y <- f x ;; ys <- map_result f xs' ;; Ok (y :: ys)
  end.

(** One iteration of [for capability in capabilities_names]; the
    accumulator is the local list [entities]. *)
Definition capability_step (catalog_item : option (option catalog_value))
    (entities : list (option ElectroluxEntity.t)) (capability : string)
  : M (list (option ElectroluxEntity.t)) :=
  d <<- (fun self => (self, bound_data self)) ;;
  caps <<- lift (subscriptable (capabilities d)) ;;
  capability_info <<- lift (getitem caps capability) ;;
  let entity_name := get_entity_name capability in
  let category := get_category capability in
  item <<- lift (match catalog_item with
                 | Some v => Ok v
                 | None => Raise UnboundLocalError
                 end) ;;
  enriched <<- enrich capability capability_info item ;;
  if String.eqb capability "executeCommand" then
    commands_keys <<- lift (command_keys (fst enriched)) ;;
    buttons <<- (fun self =>
                   (self, map_result
                            (make_button self d entity_name category
                               (fst enriched) (snd enriched))
                            commands_keys)) ;;
    ret (entities ++ buttons)
  else
    entity <<- call_get_entity capability ;;
    match entity with
    | Some _ => ret (entities ++ [entity])
    | None => ret entities
    end.

(** [for entity in entities: entity.setup(data)]: the entities before a
    [None] are set up, the [None] raises. *)
Fixpoint setup_entities (entities : list (option ElectroluxEntity.t))
  : list (option ElectroluxEntity.t) * result unit :=
  match entities with
  | [] => ([], Ok tt)
  | Some e :: rest =>
      let (rest', r) := setup_entities rest in
      (Some (ElectroluxEntity.setup e) :: rest', r)
  | None :: rest => (None :: rest, Raise AttributeError)
  end.

Definition setup_common (capabilities_names : option (list string)) : M locals :=
  fold_M (common_step capabilities_names)
    {| l_entities := []; l_catalog_item := None |} COMMON_ATTRIBUTES.

Definition setup_capabilities (capabilities_names : option (list string))
    (loc : locals) : M (list (option ElectroluxEntity.t)) :=
  names <<- lift (iterable capabilities_names) ;;
  fold_M (capability_step (l_catalog_item loc)) (l_entities loc) names.

Definition setup (d : ElectroluxLibraryEntity) : M unit :=
  write (fun self => with_entities (with_data self (Some d)) (Some [])) ;;;
  capabilities_names <<- setup_rebuild (sources_list d) ;;
  loc <<- setup_common capabilities_names ;;
  entities <<- setup_capabilities capabilities_names loc ;;
  fun self =>
    let (entities', r) := setup_entities entities in
    (with_entities self (Some entities'), r).

(** *** [update_missing_entities] *)

(** [self.entities] where it is read. *)
Definition entities_attr (self : t)
  : result (list (option ElectroluxEntity.t)) :=
  match entities self with
  | Some es => Ok es
  | None => Raise AttributeError
  end.

(** [entity.entity_source == category]: a string never equals [None]. *)
Definition source_is (entity_source : string) (category : option string)
  : bool :=
  match category with
  | Some c => String.eqb entity_source c
  | None => false
  end.

(** [for entity in self.entities] up to its [break]: is there an entity with
    this attribute and category? *)
Fixpoint find_entity (es : list (option ElectroluxEntity.t)) (key : string)
    (category : option string) : result bool :=
  match es with
  | [] => Ok false
  | None :: _ => Raise AttributeError
  | Some entity :: es' =>
      if String.eqb (ElectroluxEntity.entity_attr entity) key
         && source_is (ElectroluxEntity.entity_source entity) category
      then Ok true
      else find_entity es' key category
  end.

(** [key if category is None else category + "/" + key] *)
Definition found_path (category : option string) (key : string) : string :=
  match category with
  | None => key
  | Some c => (c ++ "/" ++ key)%string
  end.

(** [self.entities.append(entity)] *)
Definition append_entity (entity : ElectroluxEntity.t) : M unit :=
  fun self =>
    match entities self with
    | Some es => (with_entities self (Some (es ++ [Some entity])), Ok tt)
    | None => (self, Raise AttributeError)
    end.

(** One iteration of [for item in items]; the local [capability] is carried
    from one iteration to the next, and is assigned only where an entity was
    found. *)
Definition missing_step (reported : pyval) (key : string)
    (capability : string) (item : ElectroluxDevice.t) : M string :=
  let category := ElectroluxDevice.category item in
  present <<- lift (reported_has reported category key) ;;
  if present then
    es <<- (fun self => (self, entities_attr self)) ;;
    found <<- lift (find_entity es key category) ;;
    if found then
      let capability' := found_path category key in
      set_capability capability' (ElectroluxDevice.capability_info item) ;;;
      ret capability'
    else
      entity <<- call_get_entity capability ;;
      match entity with
      | Some e => append_entity e ;;; ret capability
      | None => ret capability
      end
  else ret capability.

(** One iteration of [for key, items in Catalog.items()]. *)
Definition missing_key (reported : pyval) (capability : string)
    (entry : string * catalog_value) : M string :=
  items <<- lift (device_iter (snd entry)) ;;
  fold_M (missing_step reported (fst entry)) capability items.

Definition update_missing_entities : M unit :=
  fun self =>
    if negb (own_capabilties self) then (self, Ok tt)
    else
      match state self with
      | VDict st =>
          let properties := get st "properties" VNone in
          if truthy properties then
            match vget properties "reported" with
            | Raise e => (self, Raise e)
            | Ok reported =>
                if truthy reported then
                  match fold_M (missing_key reported) "" Catalog self with
                  | (self', Ok _) => (self', Ok tt)
                  | (self', Raise e) => (self', Raise e)
                  end
                else (self, Ok tt)
            end
          else (self, Ok tt)
      | _ => (self, Raise AttributeError)
      end.

(** *** [update_reported_data] and [update] *)

(** [for entity in self.entities: entity.update(self.state)] *)
Fixpoint update_entities (status : pyval)
    (es : list (option ElectroluxEntity.t))
  : list (option ElectroluxEntity.t) * result unit :=
  match es with
  | [] => ([], Ok tt)
  | Some e :: rest =>
      let (rest', r) := update_entities status rest in
      (Some (ElectroluxEntity.update e status) :: rest', r)
  | None :: rest => (None :: rest, Raise AttributeError)
  end.

Definition update_all_entities : M unit :=
  fun self =>
    match entities self with
    | None => (self, Raise AttributeError)
    | Some es =>
        let (es', r) := update_entities (state self) es in
        (with_entities self (Some es'), r)
    end.

(** [self.state.get("properties", None).get("reported", None)] followed by
    [local_reported_data.update(reported_data)]: the dictionary stored under
    ["reported"] is updated in place. *)
Definition merge_reported (reported_data : dict pyval) : M unit :=
  fun self =>
    match state self with
    | VDict st =>
        match get st "properties" VNone with
        | VDict properties =>
            match get properties "reported" VNone with
            | VDict local_reported_data =>
                let merged := VDict (update local_reported_data reported_data) in
                (with_state self
                   (VDict (set st "properties"
                             (VDict (set properties "reported" merged)))),
                 Ok tt)
            | _ => (self, Raise AttributeError)
            end
        | _ => (self, Raise AttributeError)
        end
    | _ => (self, Raise AttributeError)
    end.

Definition update_reported_data (reported_data : dict pyval) : M unit :=
  try_except
    (merge_reported reported_data ;;;
     update_missing_entities ;;;
     update_all_entities).

Definition update (appliance_status : pyval) : M unit :=
  write (fun self => with_state self appliance_status) ;;;
  update_missing_entities ;;;
  update_all_entities.

End WithCatalog.
End Methods.

Import Methods.

(* ================================================================== *)
(** ** The rules as the design notes word them *)

(** The decision table of the design notes, below its two rows for value
    lists.  Rows are tried from the top; the first row that matches
    decides. *)
Module Table.

Inductive column : Type :=
| Whatever
| Yes
| No.

Record row : Type := {
  types : list string;
  access : string;
  values_present : column;
  kind : entity_kind
}.

Definition decision_table : list row :=
  [ {| types := ["boolean"]; access := "read";
       values_present := Whatever; kind := BINARY_SENSOR |};
    {| types := ["boolean"]; access := "readwrite";
       values_present := No; kind := SWITCH |};
    {| types := ["temperature"]; access := "read";
       values_present := Whatever; kind := SENSOR |};
    {| types := ["temperature"]; access := "readwrite";
       values_present := Whatever; kind := NUMBER |};
    {| types := ["number"; "int"; "boolean"; "string"]; access := "read";
       values_present := Whatever; kind := SENSOR |};
    {| types := ["int"; "number"]; access := "readwrite";
       values_present := No; kind := NUMBER |} ].

Definition column_matches (c : column) (present : bool) : bool :=
  match c with
  | Whatever => true
  | Yes => present
  | No => negb present
  end.

Definition row_matches (ty acc : string) (present : bool) (r : row) : bool :=
  existsb (String.eqb ty) (types r)
  && String.eqb acc (access r)
  && column_matches (values_present r) present.

Definition decide (ty acc : string) (present : bool) : option entity_kind :=
  option_map kind (find (row_matches ty acc present) decision_table).

End Table.

(** The name rule of the design notes. *)
Module NameSpec.

Fixpoint until_slash (s : chars) : chars :=
  match s with
  | [] => []
  | c :: s' => if Ascii.eqb c "/" then [] else c :: until_slash s'
  end.

(** Drop everything up to and including the last ["/"]. *)
Definition after_last_slash (s : chars) : chars :=
  rev (until_slash (rev s)).

(** A group ends at a lower-case letter that a capital or a digit follows. *)
Definition boundary (c next : ascii) : bool :=
  islower c && (isupper next || isdigit next).

Fixpoint split_groups (s : chars) : list chars :=
  match s with
  | [] => []
  | c :: rest =>
      match rest with
      | [] => [[c]]
      | next :: _ =>
          if boundary c next then [c] :: split_groups rest
          else
            match split_groups rest with
            | g :: gs => (c :: g) :: gs
            | [] => [[c]]
            end
      end
  end.

(** A group of capitals and digits only is kept, any other is lower-cased. *)
Definition normalize_group (g : chars) : chars :=
  if forallb caps_or_digit g then g else lower g.

(** The rule as the notes word it. *)
Definition spec_sensor_name (attr_name : chars) : chars :=
  join " " (map normalize_group (split_groups (after_last_slash attr_name))).

(** The part of the identifier the label is made from: what follows the last
    ["/"], or the whole identifier when nothing follows it. *)
Definition segment (attr_name : chars) : chars :=
  match after_last_slash attr_name with
  | [] => attr_name
  | t => t
  end.

Definition capitalize (s : chars) : chars :=
  match s with
  | [] => []
  | c :: rest => upper_char c :: rest
  end.

(** The rule with the first character of the segment turned into a capital
    before the groups are formed. *)
Definition amended_sensor_name (attr_name : chars) : chars :=
  join " " (map normalize_group (split_groups (capitalize (segment attr_name)))).

(** No underscore, no space and no line feed. *)
Definition plain_char (c : ascii) : bool :=
  negb (Ascii.eqb c "_") && negb (Ascii.eqb c " ") && negb (Ascii.eqb c "010").

Definition not_space (c : ascii) : bool := negb (Ascii.eqb c " ").
Definition not_newline (c : ascii) : bool := negb (Ascii.eqb c "010").
Definition not_slash (c : ascii) : bool := negb (Ascii.eqb c "/").

(** Put [g] in front of the first group. *)
Definition glue (g : chars) (groups : list chars) : list chars :=
  match groups with
  | first :: others => (g ++ first) :: others
  | [] => [g]
  end.

(** The text the groups are formed from: the segment with its first
    character turned into a capital and every underscore read as a space. *)
Definition prepared (attr_name : chars) : chars :=
  replace "_" " " (capitalize (segment attr_name)).

(** The text cut at its spaces, which are dropped. *)
Fixpoint split_spaces (s : chars) : list chars :=
  match s with
  | [] => [[]]
  | c :: rest =>
      if Ascii.eqb c " " then [] :: split_spaces rest
      else
        match split_spaces rest with
        | piece :: pieces => (c :: piece) :: pieces
        | [] => [[c]]
        end
  end.

(** The rule with separators: the prepared text is cut at its spaces, every
    piece is split into groups, and the groups are normalized and joined. *)
Definition separated_sensor_name (attr_name : chars) : chars :=
  join " " (map normalize_group
              (flat_map split_groups (split_spaces (prepared attr_name)))).

(** A group that lower-casing would leave as it is: capitals and digits
    only, or no capital at all. *)
Definition settled (g : chars) : bool :=
  forallb caps_or_digit g || forallb (fun c => negb (isupper c)) g.

(** A piece that a separator ends: it is not empty and its last group is
    settled. *)
Definition piece_ok (piece : chars) : bool :=
  match piece with
  | [] => false
  | _ :: _ => settled (last (split_groups piece) [])
  end.

(** Every separator directly follows a settled group: none opens the text,
    none follows another one. *)
Definition separators_ok (s : chars) : bool :=
  forallb piece_ok (removelast (split_spaces s)).

Definition space_free (s : chars) : bool := forallb not_space s.

End NameSpec.

(** The reconstruction of capabilities as a selection from the catalog. *)
Module RebuildSpec.

(** [key] is a key of the reported state: under [category], or at top level
    when the category is empty. *)
Definition key_present (reported : dict pyval) (category : option string)
    (key : string) : bool :=
  if category_truthy category then
    match get reported (match category with Some c => c | None => "" end) VNone with
    | VDict container => mem container key
    | _ => false
    end
  else mem reported key.

(** [key] holds a truthy value in the reported state. *)
Definition key_truthy (reported : dict pyval) (category : option string)
    (key : string) : bool :=
  if category_truthy category then
    match get reported (match category with Some c => c | None => "" end) VNone with
    | VDict container => truthy (get container key VNone)
    | _ => false
    end
  else truthy (get reported key VNone).

Definition entry : Type := (string * ElectroluxDevice.t)%type.

Definition path_of (e : entry) : string :=
  rebuilt_path (ElectroluxDevice.category (snd e)) (fst e).

(** [acc[path] = capability_info] for one entry. *)
Definition assign (acc : dict pyval) (e : entry) : dict pyval :=
  set acc (path_of e) (ElectroluxDevice.capability_info (snd e)).

(** The dictionary that assigns each selected entry's path the entry's
    [capability_info], in catalog order. *)
Definition build (selected : list entry) : dict pyval :=
  fold_left assign selected [].

(** The entries the notes select: their key is present. *)
Definition select_present (reported : dict pyval) (catalog : list entry)
  : list entry :=
  filter (fun e => key_present reported (ElectroluxDevice.category (snd e)) (fst e))
         catalog.

(** The entries the code selects: their key holds a truthy value, or is
    ["executeCommand"]. *)
Definition chosen (reported : dict pyval) (e : entry) : bool :=
  key_truthy reported (ElectroluxDevice.category (snd e)) (fst e)
  || String.eqb (fst e) "executeCommand".

Definition select_rebuilt (reported : dict pyval) (catalog : list entry)
  : list entry :=
  filter (chosen reported) catalog.

(** The entries the rebuilding is about: their key is present, or is
    ["executeCommand"]. *)
Definition wanted (reported : dict pyval) (e : entry) : bool :=
  key_present reported (ElectroluxDevice.category (snd e)) (fst e)
  || String.eqb (fst e) "executeCommand".

Definition select_wanted (reported : dict pyval) (catalog : list entry)
  : list entry :=
  filter (wanted reported) catalog.

(** No key of the catalog is present with a falsy value. *)
Definition present_truthy (reported : dict pyval) (e : entry) : bool :=
  implb (key_present reported (ElectroluxDevice.category (snd e)) (fst e))
        (key_truthy reported (ElectroluxDevice.category (snd e)) (fst e)).

Definition values_truthy (reported : dict pyval) (catalog : list entry)
  : bool :=
  forallb (present_truthy reported) catalog.

(** A catalog whose values are single devices, as [setup] reads them. *)
Definition as_catalog (catalog : list entry) : dict catalog_value :=
  map (fun e => (fst e, One (snd e))) catalog.

(** The value under a category is a dictionary wherever it is truthy. *)
Definition container_ok (reported : dict pyval) (e : entry) : bool :=
  match ElectroluxDevice.category (snd e) with
  | Some c =>
      let v := get reported c VNone in
      negb (category_truthy (Some c)) || negb (truthy v) || is_dict v
  | None => true
  end.

Definition containers_ok (reported : dict pyval) (catalog : list entry) : bool :=
  forallb (container_ok reported) catalog.

End RebuildSpec.

(** What [setup] and the re-scan leave in the appliance. *)
(** The attributes of the entities of an appliance, in order. *)
Definition entity_attrs (self : Appliance.t) : list string :=
  match Appliance.entities self with
  | Some es =>
      flat_map (fun e => match e with
                         | Some e => [ElectroluxEntity.entity_attr e]
                         | None => []
                         end) es
  | None => []
  end.

(** The body of [update_reported_data] up to the re-scan. *)
Definition merge_and_rescan (Catalog : dict catalog_value)
    (reported_data : dict pyval) : Appliance.M unit :=
  merge_reported reported_data ;;; update_missing_entities Catalog.

Module SetupSpec.

(** The entity carries the attribute and the category of [capability]. *)
Definition entity_of (capability : string) (e : ElectroluxEntity.t) : Prop :=
  ElectroluxEntity.entity_attr e = get_entity_name capability
  /\ ElectroluxEntity.entity_source e = get_category capability.

(** What the loop over [COMMON_ATTRIBUTES] appends: [None], or an entity of
    a common attribute. *)
Definition from_common (COMMON_ATTRIBUTES : list string)
    (oe : option ElectroluxEntity.t) : Prop :=
  match oe with
  | None => True
  | Some e => exists ca, In ca COMMON_ATTRIBUTES /\ entity_of ca e
  end.

(** What the loop over the capabilities appends: an entity of a key of the
    capabilities dictionary that does not start with
    ["applianceCareAndMaintenance"]. *)
Definition from_capability (caps : dict pyval)
    (oe : option ElectroluxEntity.t) : Prop :=
  exists e c,
    oe = Some e
    /\ In c (keys caps)
    /\ key_startswith c care_prefix = false
    /\ entity_of c e.

(** Two entities, or two [None], with the same attribute and category. *)
Definition same_origin (a b : option ElectroluxEntity.t) : Prop :=
  match a, b with
  | None, None => True
  | Some x, Some y =>
      ElectroluxEntity.entity_attr y = ElectroluxEntity.entity_attr x
      /\ ElectroluxEntity.entity_source y = ElectroluxEntity.entity_source x
  | _, _ => False
  end.

End SetupSpec.

(* ================================================================== *)
(** ** Sample inputs *)

Module Samples.

Definition library (caps : option (dict pyval)) : ElectroluxLibraryEntity :=
  {| name := "Washer"; status := "enabled"; state := VNone;
     appliance_info := VNone; capabilities := caps |}.

Definition device (category : option string) (info : pyval)
  : ElectroluxDevice.t :=
  {| ElectroluxDevice.category := category;
     ElectroluxDevice.capability_info := info;
     ElectroluxDevice.device_class := VNone;
     ElectroluxDevice.unit := VNone;
     ElectroluxDevice.entity_category := VNone;
     ElectroluxDevice.entity_icon := VNone |}.

Definition state_of (reported : dict pyval) : pyval :=
  VDict [("properties", VDict [("reported", VDict reported)])].

(** A boolean capability that also lists its values. *)
Definition bool_with_values : dict pyval :=
  [("access", VStr "readwrite"); ("type", VStr "boolean");
   ("values", VDict [("OFF", VDict []); ("ON", VDict [])])].

(** A string capability with a value list and a ["min"]. *)
Definition string_with_min : dict pyval :=
  [("access", VStr "readwrite"); ("type", VStr "string");
   ("values", VDict [("LOW", VDict []); ("HIGH", VDict [])]);
   ("min", VInt 0)].

(** A number capability with a value list and a ["min"]. *)
Definition number_with_min : dict pyval :=
  [("access", VStr "readwrite"); ("type", VStr "number");
   ("values", VDict [("1", VDict []); ("2", VDict [])]);
   ("min", VInt 1)].

Definition int_write : dict pyval :=
  [("access", VStr "write"); ("type", VStr "int")].

Definition door_info : pyval :=
  VDict [("access", VStr "read"); ("type", VStr "string")].

Definition lock_info : pyval :=
  VDict [("access", VStr "readwrite"); ("type", VStr "boolean")].

Definition command_info : pyval :=
  VDict [("access", VStr "write"); ("type", VStr "string");
         ("values", VDict [("START", VDict []); ("STOPRESET", VDict [])])].

Definition sample_catalog : list RebuildSpec.entry :=
  [("uiLockMode", device None lock_info);
   ("executeCommand", device None command_info);
   ("doorState", device (Some "") door_info);
   ("linkQualityIndicator", device (Some "networkInterface") door_info)].

Definition sample_reported : dict pyval :=
  [("uiLockMode", VBool false);
   ("doorState", VStr "OPEN");
   ("networkInterface", VDict [("linkQualityIndicator", VStr "GOOD")])].

Definition sample_appliance : Appliance.t :=
  Appliance.with_data
    (Appliance.init "Washer" "914550001" "AEG" "L7FEE" (state_of sample_reported))
    (Some (library None)).

(** A reported state in which every key holds a truthy value. *)
Definition open_reported : dict pyval :=
  [("doorState", VStr "OPEN");
   ("networkInterface", VDict [("linkQualityIndicator", VStr "GOOD")])].

Definition open_appliance : Appliance.t :=
  Appliance.with_data
    (Appliance.init "Washer" "914550001" "AEG" "L7FEE" (state_of open_reported))
    (Some (library None)).

(** A catalog with an entry under ["applianceCareAndMaintenance0"], and an
    appliance that reports a value for it. *)
Definition care_catalog : dict catalog_value :=
  [("unit", One (device (Some "applianceCareAndMaintenance0") door_info))].

Definition care_appliance : Appliance.t :=
  Appliance.init "Washer" "914550001" "AEG" "L7FEE"
    (state_of [("applianceCareAndMaintenance0",
                VDict [("unit", VStr "hours")])]).

Definition state_entity : ElectroluxEntity.t :=
  {| ElectroluxEntity.name := "Washer appliance state";
     ElectroluxEntity.entity_type := SENSOR;
     ElectroluxEntity.entity_attr := "applianceState";
     ElectroluxEntity.entity_source := "";
     ElectroluxEntity.pnc_id := "914550001";
     ElectroluxEntity.capability := door_info;
     ElectroluxEntity.unit := VNone;
     ElectroluxEntity.entity_category := VNone;
     ElectroluxEntity.device_class := VNone;
     ElectroluxEntity.icon := VNone;
     ElectroluxEntity.val_to_send := None;
     ElectroluxEntity.data_bound := true;
     ElectroluxEntity.appliance_status := None |}.

(** An entity of the same attribute under the category
    ["userSelections"]. *)
Definition selected_entity : ElectroluxEntity.t :=
  {| ElectroluxEntity.name := "Washer appliance state";
     ElectroluxEntity.entity_type := SENSOR;
     ElectroluxEntity.entity_attr := "applianceState";
     ElectroluxEntity.entity_source := "userSelections";
     ElectroluxEntity.pnc_id := "914550001";
     ElectroluxEntity.capability := door_info;
     ElectroluxEntity.unit := VNone;
     ElectroluxEntity.entity_category := VNone;
     ElectroluxEntity.device_class := VNone;
     ElectroluxEntity.icon := VNone;
     ElectroluxEntity.val_to_send := None;
     ElectroluxEntity.data_bound := true;
     ElectroluxEntity.appliance_status := None |}.

(** An appliance whose capabilities were rebuilt, with one entity, and a
    catalog that knows a second attribute. *)
Definition discovery_catalog (category : option string) : dict catalog_value :=
  [("applianceState", Many [device category door_info]);
   ("doorState", Many [device category door_info])].

Definition discovery_appliance (own : bool) : Appliance.t :=
  {| Appliance.own_capabilties := own;
     Appliance.data := Some (library (Some [("applianceState", door_info)]));
     Appliance.name := "Washer"; Appliance.pnc_id := "914550001";
     Appliance.brand := "AEG"; Appliance.model := "L7FEE";
     Appliance.state := state_of [("applianceState", VStr "RUNNING")];
     Appliance.entities := Some [Some state_entity] |}.

(** A temperature capability for which the catalog gives another unit and
    no device class. *)
Definition fahrenheit_catalog : dict catalog_value :=
  [("targetTemperatureC",
    One {| ElectroluxDevice.category := None;
           ElectroluxDevice.capability_info := VNone;
           ElectroluxDevice.device_class := VNone;
           ElectroluxDevice.unit := VStr "fahrenheit";
           ElectroluxDevice.entity_category := VNone;
           ElectroluxDevice.entity_icon := VNone |})].

Definition temperature_appliance : Appliance.t :=
  Appliance.with_data
    (Appliance.init "Oven" "944188001" "AEG" "BSE" (state_of []))
    (Some (library (Some [("targetTemperatureC",
                           VDict [("access", VStr "read");
                                  ("type", VStr "temperature")])]))).

(** The same catalog with single devices as values. *)
Definition discovery_catalog_single : dict catalog_value :=
  [("applianceState", One (device None door_info));
   ("doorState", One (device None door_info))].

Definition door_opened : dict pyval := [("doorState", VStr "OPEN")].

End Samples.

Import Samples.


(* ================================================================== *)
(** ** Further methods of [api.py] and [entity.py] *)

Module Further.

(** [self.reported_state], which [ElectroluxLibraryEntity.__init__] assigns
    from [self.state["properties"]["reported"]]; a record for which this
    raises is one that [__init__] does not build. *)
Definition subscript (v : pyval) (k : string) : result pyval :=
  match v with
  | VDict d => getitem d k
  | _ => Raise TypeError
  end.

Definition reported_state (self : ElectroluxLibraryEntity) : result pyval :=
  properties <- subscript (state self) "properties" ;;
  subscript properties "reported".

(** [get_value(attr_name, source)]; [source] is a string or [None]. *)
Definition get_value (self : ElectroluxLibraryEntity) (attr_name : string)
    (source : option string) : result pyval :=
  reported <- reported_state self ;;
  if category_truthy source then
    container <- vget reported (match source with Some c => c | None => "" end) ;;
    if is_none container then Ok VNone else vget container attr_name
  else vget reported attr_name.

(** [ElectroluxEntity.__init__] sets [self.root_attribute = "reported"]. *)
Definition root_attribute : string := "reported".

(** [ElectroluxEntity.extract_value]; [appliance_status] is only a class
    annotation until [update] assigns it. *)
Definition extract_value (self : ElectroluxEntity.t) : result pyval :=
  match ElectroluxEntity.appliance_status self with
  | None => Raise AttributeError
  | Some appliance_status =>
      if truthy appliance_status then
        properties <- vget appliance_status "properties" ;;
        if truthy properties then
          root <- (if truthy (VStr root_attribute)
                   then vget properties root_attribute
                   else Ok properties) ;;
          if truthy root then
            if truthy (VStr (ElectroluxEntity.entity_source self)) then
              category <- vget root (ElectroluxEntity.entity_source self) ;;
              if truthy category
              then vget category (ElectroluxEntity.entity_attr self)
              else Ok VNone
            else vget root (ElectroluxEntity.entity_attr self)
          else Ok VNone
        else Ok VNone
      else Ok VNone
  end.

(** [unique_id]:
    [f"{self.config_entry.entry_id}-{self.entity_attr}-{self.entity_source}-{self.pnc_id}"];
    the identifier of the configuration entry is the host's. *)
Definition unique_id (entry_id : string) (self : ElectroluxEntity.t) : string :=
  (entry_id ++ "-" ++ ElectroluxEntity.entity_attr self ++ "-"
   ++ ElectroluxEntity.entity_source self ++ "-"
   ++ ElectroluxEntity.pnc_id self)%string.

(** [re.findall("[A-Z][^A-Z]*", s)]: every capital starts a match that runs
    up to the next capital; what precedes the first capital is in no match.
    [scan_caps] gives the text before the first capital and the matches. *)
Fixpoint scan_caps (s : chars) : chars * list chars :=
  match s with
  | [] => ([], [])
  | c :: rest =>
      let (run, found) := scan_caps rest in
      if isupper c then ([], (c :: run) :: found) else (c :: run, found)
  end.

Definition findall_caps (s : chars) : list chars := snd (scan_caps s).

(** [s.capitalize()] *)
Definition py_capitalize (s : chars) : chars :=
  match s with
  | [] => []
  | c :: rest => upper_char c :: lower rest
  end.

Definition get_sensor_name_old_chars (attr_name : chars) : result chars :=
  let attr_name := last_part attr_name in
  c0 <- index attr_name 0 ;;
  let attr_name := upper_char c0 :: skipn 1 attr_name in
  let attr_name := join " " (findall_caps attr_name) in
  Ok (py_capitalize attr_name).

(** [get_sensor_name_old(attr_name, container)] *)
Definition get_sensor_name_old (attr_name : string) : result string :=
  r <- get_sensor_name_old_chars (str attr_name) ;;
  Ok (string_of_list_ascii r).

(** [Appliances]: a dictionary from the appliance identifier to the
    appliance. *)
Record Appliances : Type := {
  appliances : dict Appliance.t
}.

(** [get_appliance]: [self.appliances.get(pnc_id, None)] *)
Definition get_appliance (self : Appliances) (pnc_id : string)
  : option Appliance.t :=
  lookup (appliances self) pnc_id.

(** [get_appliances] *)
Definition get_appliances (self : Appliances) : dict Appliance.t :=
  appliances self.

(** [get_appliance_ids]: [list(self.appliances)] *)
Definition get_appliance_ids (self : Appliances) : list string :=
  keys (appliances self).

End Further.

(** Notions the further properties are stated with. *)
Module FurtherSpec.

(** A dictionary as Python builds it: no key twice. *)
Definition well_formed {V : Type} (d : dict V) : Prop := NoDup (keys d).

(** The text without its spaces. *)
Definition without_spaces (s : chars) : chars :=
  filter (fun c => negb (Ascii.eqb c " ")) s.

(** The text up to case and spaces, and the text a state of the loop of
    [get_sensor_name] holds, up to case and spaces. *)
Definition lw (s : chars) : chars := lower (without_spaces s).

Definition sig (st : loop_state) : chars :=
  lw (concat (words st) ++ group st).

(** No ["/"] in the text. *)
Definition no_slash (s : string) : bool :=
  forallb NameSpec.not_slash (str s).

(** No ["-"] in the text. *)
Definition not_dash (c : ascii) : bool := negb (Ascii.eqb c "-").

Definition no_dash (s : string) : bool := forallb not_dash (str s).

(** Letters only, and no capital directly after a capital. *)
Fixpoint camel (s : chars) : bool :=
  match s with
  | [] => true
  | c :: rest =>
      (if isupper c
       then match rest with
            | next :: _ => islower next
            | [] => true
            end
       else islower c)
      && camel rest
  end.

(** The list of entities only grew: what was there is still there, in
    place, and the new ones follow. *)
Definition entities_extended (before after : Appliance.t) : Prop :=
  match Appliance.entities before with
  | Some es =>
      exists added, Appliance.entities after = Some (es ++ added)
  | None => Appliance.entities after = None
  end.

(** What [setup] has no business with: the state, the flag and the
    identity of the appliance, and the name of the data it is given. *)
Definition setup_frame (self : Appliance.t)
  : pyval * bool * string * string * string * string * option string :=
  (Appliance.state self, Appliance.own_capabilties self,
   Appliance.name self, Appliance.pnc_id self, Appliance.brand self,
   Appliance.model self, option_map get_name (Appliance.data self)).

(** The state [update_reported_data] leaves. *)
Definition merged_state (st properties local reported_data : dict pyval)
  : pyval :=
  VDict (set st "properties"
           (VDict (set properties "reported"
                     (VDict (Py.update local reported_data))))).

(** Every element is an entity, not [None]. *)
Definition all_present (es : list (option ElectroluxEntity.t)) : Prop :=
  Forall (fun oe => oe <> None) es.

(** Every entity is there and bound to the data. *)
Definition all_bound (es : list (option ElectroluxEntity.t)) : Prop :=
  Forall (fun oe => exists e,
              oe = Some e /\ ElectroluxEntity.data_bound e = true) es.

(** A button is an entity of ["executeCommand"] that carries a command, and
    no other entity carries one. *)
Definition button_shape (oe : option ElectroluxEntity.t) : Prop :=
  match oe with
  | None => True
  | Some e =>
      match ElectroluxEntity.entity_type e with
      | BUTTON =>
          ElectroluxEntity.entity_attr e = "executeCommand"
          /\ ElectroluxEntity.entity_source e = ""
          /\ ElectroluxEntity.val_to_send e <> None
      | _ => ElectroluxEntity.val_to_send e = None
      end
  end.

End FurtherSpec.

Import Further.

(* ================================================================== *)
(** * Properties *)

Unset Implicit Arguments.

(** ** Dictionaries *)

Section DictFacts.
Context {V : Type}.

Lemma lookup_set_same (d : dict V) (k : string) (v : V) :
  lookup (set d k v) k = Some v.
Proof.
  induction d as [|[k' v'] d IH]; simpl.
  - now rewrite String.eqb_refl.
  - destruct (String.eqb k' k) eqn:E; simpl; rewrite E; auto.
Qed.

Lemma lookup_set_other (d : dict V) (k k0 : string) (v : V) :
  k0 <> k -> lookup (set d k v) k0 = lookup d k0.
Proof.
  intros Hne.
  induction d as [|[k' v'] d IH]; simpl.
  - destruct (String.eqb k k0) eqn:E; auto.
    apply String.eqb_eq in E. congruence.
  - destruct (String.eqb k' k) eqn:E; simpl.
    + apply String.eqb_eq in E. subst k'.
      destruct (String.eqb k k0) eqn:E0; auto.
      apply String.eqb_eq in E0. congruence.
    + now rewrite IH.
Qed.

Lemma lookup_in_keys (d : dict V) (k : string) (v : V) :
  lookup d k = Some v -> In k (keys d).
Proof.
  induction d as [|[k' v'] d IH]; simpl; [discriminate|].
  destruct (String.eqb k' k) eqn:E.
  - apply String.eqb_eq in E. auto.
  - auto.
Qed.

Lemma lookup_not_in_keys (d : dict V) (k : string) :
  ~ In k (keys d) -> lookup d k = None.
Proof.
  induction d as [|[k' v'] d IH]; simpl; auto.
  intros Hn. destruct (String.eqb k' k) eqn:E.
  - apply String.eqb_eq in E. tauto.
  - tauto.
Qed.

End DictFacts.

(** ** [get_entity_type] *)

Lemma get_entity_type_dict (self : ElectroluxLibraryEntity) (attr_name : string)
    (caps d : dict pyval) :
  capabilities self = Some caps ->
  lookup caps attr_name = Some (VDict d) ->
  d <> [] ->
  get_entity_type self attr_name = Ok (entity_type_of_def d).
Proof.
  intros Hc Hl Hd.
  unfold get_entity_type, capability_lookup, get. rewrite Hc. simpl. rewrite Hl.
  destruct d; [congruence | reflexivity].
Qed.

Lemma lookup_nonempty (d : dict pyval) (k : string) (v : pyval) :
  lookup d k = Some v -> d <> [].
Proof. destruct d; [discriminate | congruence]. Qed.

Lemma get_of_lookup (d : dict pyval) (k : string) (v : pyval) :
  lookup d k = Some v -> get d k VNone = v.
Proof. intros H. unfold get. now rewrite H. Qed.

(** C1.  A capability definition of type ["boolean"] and access
    ["readwrite"] whose ["values"] field is present (not [None]) maps to the
    switch kind, whatever the ["values"] field holds: the exception is tried
    before the rule for value lists. *)
Theorem boolean_readwrite_values_is_switch
    (self : ElectroluxLibraryEntity) (attr_name : string)
    (caps d : dict pyval) (values : pyval) :
  capabilities self = Some caps ->
  lookup caps attr_name = Some (VDict d) ->
  lookup d "type" = Some (VStr "boolean") ->
  lookup d "access" = Some (VStr "readwrite") ->
  lookup d "values" = Some values ->
  values <> VNone ->
  get_entity_type self attr_name = Ok (Some SWITCH).
Proof.
  intros Hc Hl Ht Ha Hv Hn.
  rewrite (get_entity_type_dict self attr_name caps d Hc Hl
             (lookup_nonempty _ _ _ Ht)).
  unfold entity_type_of_def, switch_exception.
  rewrite (get_of_lookup _ _ _ Ht), (get_of_lookup _ _ _ Ha),
    (get_of_lookup _ _ _ Hv).
  destruct values; simpl; congruence.
Qed.

(** The exception wins where the rule for value lists applies as well. *)
Lemma boolean_readwrite_values_is_switch_witness :
  select_rule (VStr "boolean") (VStr "readwrite") bool_with_values = true
  /\ get_entity_type (library (Some [("cavityLight", VDict bool_with_values)]))
       "cavityLight" = Ok (Some SWITCH).
Proof.
  split; [reflexivity|].
  apply (boolean_readwrite_values_is_switch
           (library (Some [("cavityLight", VDict bool_with_values)]))
           "cavityLight" [("cavityLight", VDict bool_with_values)]
           bool_with_values
           (VDict [("OFF", VDict []); ("ON", VDict [])]));
    try reflexivity; discriminate.
Defined.

Ltac string_case x lit :=
  let E := fresh "E" in
  destruct (String.eqb x lit) eqn:E;
  [ apply String.eqb_eq in E; subst x; simpl in *; try discriminate
  | simpl in * ].

(** C2, as the code has it.  For a capability definition with access
    ["readwrite"], a type other than ["boolean"] and a non-empty dictionary
    under ["values"], the kind is select unless the type is ["number"] and
    ["min"] is present (not [None]); in that one case it is number. *)
Theorem value_list_is_select_unless_number_with_min
    (self : ElectroluxLibraryEntity) (attr_name : string)
    (caps d : dict pyval) (ty : pyval) (vs : dict pyval) :
  capabilities self = Some caps ->
  lookup caps attr_name = Some (VDict d) ->
  lookup d "type" = Some ty ->
  truthy ty = true ->
  eq_str ty "boolean" = false ->
  lookup d "access" = Some (VStr "readwrite") ->
  lookup d "values" = Some (VDict vs) ->
  vs <> [] ->
  get_entity_type self attr_name =
    Ok (Some (if eq_str ty "number" && negb (is_none (get d "min" VNone))
              then NUMBER else SELECT)).
Proof.
  intros Hc Hl Ht Htt Hb Ha Hv Hvs.
  rewrite (get_entity_type_dict self attr_name caps d Hc Hl
             (lookup_nonempty _ _ _ Ht)).
  unfold entity_type_of_def, switch_exception, select_rule, has_value_list,
    select_allowed.
  rewrite (get_of_lookup _ _ _ Ht), (get_of_lookup _ _ _ Ha),
    (get_of_lookup _ _ _ Hv).
  rewrite Htt, Hb. simpl.
  destruct vs as [|kv vs]; [congruence|]. simpl.
  destruct (eq_str ty "number") eqn:En; simpl.
  - destruct (is_none (get d "min" VNone)); simpl; [reflexivity|].
    unfold match_type. rewrite Hb.
    destruct ty; simpl in En; try discriminate.
    apply String.eqb_eq in En. subst s. reflexivity.
  - reflexivity.
Qed.

Lemma value_list_is_select_unless_number_with_min_witness :
  get_entity_type (library (Some [("fanSpeed", VDict number_with_min)]))
    "fanSpeed" = Ok (Some NUMBER).
Proof.
  apply (value_list_is_select_unless_number_with_min
           (library (Some [("fanSpeed", VDict number_with_min)])) "fanSpeed"
           [("fanSpeed", VDict number_with_min)] number_with_min
           (VStr "number") [("1", VDict []); ("2", VDict [])]);
    try reflexivity; discriminate.
Defined.

(** C2 as worded fails: a definition of type ["string"] with access
    ["readwrite"], a non-empty value list and a ["min"] field maps to
    select. *)
Lemma select_with_min_present :
  lookup string_with_min "access" = Some (VStr "readwrite")
  /\ lookup string_with_min "values"
     = Some (VDict [("LOW", VDict []); ("HIGH", VDict [])])
  /\ switch_exception (VStr "string") (VStr "readwrite") string_with_min = false
  /\ lookup string_with_min "min" = Some (VInt 0)
  /\ get_entity_type (library (Some [("mode", VDict string_with_min)])) "mode"
     = Ok (Some SELECT).
Proof. repeat split. Qed.

(** C3.  For a capability definition with a type and an access that neither
    the switch exception nor the rule for value lists matches, the kind is
    the one the decision table gives, rows tried from the top: boolean/read
    is binary sensor, boolean/readwrite is switch, temperature/read is
    sensor, temperature/readwrite is number, number, int or string with read
    is sensor (boolean/read being decided by the first row), int or number
    with readwrite and no value list is number. *)
Theorem entity_type_follows_decision_table
    (self : ElectroluxLibraryEntity) (attr_name : string)
    (caps d : dict pyval) (ty acc : string) (k : entity_kind) :
  capabilities self = Some caps ->
  lookup caps attr_name = Some (VDict d) ->
  lookup d "type" = Some (VStr ty) ->
  lookup d "access" = Some (VStr acc) ->
  switch_exception (VStr ty) (VStr acc) d = false ->
  select_rule (VStr ty) (VStr acc) d = false ->
  Table.decide ty acc (negb (is_none (get d "values" VNone))) = Some k ->
  get_entity_type self attr_name = Ok (Some k).
Proof.
  intros Hc Hl Ht Ha Hsw Hsel Hrow.
  rewrite (get_entity_type_dict self attr_name caps d Hc Hl
             (lookup_nonempty _ _ _ Ht)).
  unfold entity_type_of_def.
  rewrite (get_of_lookup _ _ _ Ht), (get_of_lookup _ _ _ Ha), Hsw, Hsel.
  unfold switch_exception in Hsw.
  unfold Table.decide, Table.row_matches in Hrow.
  unfold match_type, in_strs.
  destruct (is_none (get d "values" VNone)) eqn:Hv; simpl in Hrow, Hsw;
    string_case ty "boolean"; try string_case acc "read";
    try string_case acc "readwrite";
    try string_case ty "temperature"; try string_case acc "read";
    try string_case acc "readwrite";
    try string_case ty "number"; try string_case acc "read";
    try string_case acc "readwrite";
    try string_case ty "int"; try string_case acc "read";
    try string_case acc "readwrite";
    try string_case ty "string"; try string_case acc "read";
    try string_case acc "readwrite";
    try discriminate; try congruence.
Qed.

Lemma entity_type_follows_decision_table_witness :
  get_entity_type (library (Some [("doorLock", VDict [("access", VStr "read");
                                                      ("type", VStr "boolean")])]))
    "doorLock" = Ok (Some BINARY_SENSOR)
  /\ get_entity_type (library (Some [("targetTemperatureC",
                                      VDict [("access", VStr "readwrite");
                                             ("type", VStr "temperature")])]))
       "targetTemperatureC" = Ok (Some NUMBER).
Proof.
  split.
  - apply (entity_type_follows_decision_table
             (library (Some [("doorLock", VDict [("access", VStr "read");
                                                 ("type", VStr "boolean")])]))
             "doorLock"
             [("doorLock", VDict [("access", VStr "read");
                                  ("type", VStr "boolean")])]
             [("access", VStr "read"); ("type", VStr "boolean")]
             "boolean" "read" BINARY_SENSOR); reflexivity.
  - apply (entity_type_follows_decision_table
             (library (Some [("targetTemperatureC",
                              VDict [("access", VStr "readwrite");
                                     ("type", VStr "temperature")])]))
             "targetTemperatureC"
             [("targetTemperatureC", VDict [("access", VStr "readwrite");
                                            ("type", VStr "temperature")])]
             [("access", VStr "readwrite"); ("type", VStr "temperature")]
             "temperature" "readwrite" NUMBER); reflexivity.
Defined.

(** Where [get_entity_type] does return [None]: the attribute is not a
    capability, the definition has no (truthy) type or access, or the type is
    none of boolean, temperature, int, number and the access is not read. *)
Lemma get_entity_type_none (self : ElectroluxLibraryEntity)
    (attr_name : string) (caps : dict pyval) :
  capabilities self = Some caps ->
  (lookup caps attr_name = None -> get_entity_type self attr_name = Ok None)
  /\ (forall d, lookup caps attr_name = Some (VDict d) ->
        truthy (get d "type" VNone) = false ->
        get_entity_type self attr_name = Ok None)
  /\ (forall d, lookup caps attr_name = Some (VDict d) ->
        truthy (get d "access" VNone) = false ->
        get_entity_type self attr_name = Ok None)
  /\ (forall d ty acc, lookup caps attr_name = Some (VDict d) ->
        lookup d "type" = Some (VStr ty) ->
        lookup d "access" = Some (VStr acc) ->
        select_rule (VStr ty) (VStr acc) d = false ->
        in_strs (VStr ty) ["boolean"; "temperature"; "int"; "number"] = false ->
        acc <> "read" ->
        get_entity_type self attr_name = Ok None).
Proof.
  intros Hc. repeat split.
  - intros Hl. unfold get_entity_type, capability_lookup, get.
    now rewrite Hc, Hl.
  - intros d Hl Ht. unfold get_entity_type, capability_lookup, get at 1.
    rewrite Hc, Hl. simpl. destruct d; [reflexivity|].
    simpl. unfold entity_type_of_def. now rewrite Ht.
  - intros d Hl Ha. unfold get_entity_type, capability_lookup, get at 1.
    rewrite Hc, Hl. simpl. destruct d; [reflexivity|].
    simpl. unfold entity_type_of_def. rewrite Ha.
    now destruct (truthy (get (p :: d) "type" VNone)).
  - intros d ty acc Hl Ht Ha Hsel Hty Hacc.
    rewrite (get_entity_type_dict self attr_name caps d Hc Hl
               (lookup_nonempty _ _ _ Ht)).
    unfold entity_type_of_def.
    rewrite (get_of_lookup _ _ _ Ht), (get_of_lookup _ _ _ Ha), Hsel.
    unfold switch_exception, match_type, in_strs in *. simpl in *.
    apply orb_false_iff in Hty. destruct Hty as [Hb Hty].
    apply orb_false_iff in Hty. destruct Hty as [Ht' Hty].
    apply orb_false_iff in Hty. destruct Hty as [Hi Hty].
    apply orb_false_iff in Hty. destruct Hty as [Hn _].
    rewrite Hb, Ht', Hi, Hn. simpl.
    assert (Hr : String.eqb acc "read" = false)
      by (apply String.eqb_neq; exact Hacc).
    rewrite Hr. simpl.
    destruct (negb (String.eqb ty "")); [|reflexivity].
    now destruct (negb (String.eqb acc "")).
Qed.

(** C9 at a definition of type ["int"] with access ["write"]: the pair is in
    no row of the decision table, and the kind is number, not [None]. *)
Theorem int_write_is_number :
  Table.decide "int" "write" false = None
  /\ get_entity_type (library (Some [("defrostRoutine", VDict int_write)]))
       "defrostRoutine" = Ok (Some NUMBER).
Proof. split; reflexivity. Qed.

(** ** Text *)

Lemma index_middle (a b : chars) (x : ascii) :
  index (a ++ x :: b) (Z.of_nat (length a)) = Ok x.
Proof.
  unfold index.
  assert (Hlt : (Z.of_nat (length a) <? 0)%Z = false) by (apply Z.ltb_ge; lia).
  rewrite Hlt, length_app. simpl length.
  assert (Hb : ((0 <=? Z.of_nat (length a))
                && (Z.of_nat (length a) <? Z.of_nat (length a + S (length b))))%Z
               = true).
  { apply andb_true_iff. split; [apply Z.leb_le | apply Z.ltb_lt]; lia. }
  rewrite Hb, Nat2Z.id, nth_error_app2 by lia.
  now rewrite Nat.sub_diag.
Qed.

Lemma lower_not_caps (c : ascii) : islower c = true -> caps_or_digit c = false.
Proof.
  unfold islower, caps_or_digit, isupper, isdigit. intros H.
  apply andb_true_iff in H. destruct H as [H1 H2].
  apply Nat.leb_le in H1. apply Nat.leb_le in H2.
  apply orb_false_iff. split; apply andb_false_iff.
  - right. apply Nat.leb_gt. lia.
  - right. apply Nat.leb_gt. lia.
Qed.

(** ** [get_sensor_name] *)

Module NameFacts.
Import NameSpec.

Lemma split_groups_cons (c : ascii) (s : chars) :
  exists g gs, split_groups (c :: s) = (c :: g) :: gs.
Proof.
  revert c. induction s as [|d s IH]; intros c.
  - now exists [], [].
  - change (split_groups (c :: d :: s))
      with (if boundary c d then [c] :: split_groups (d :: s)
            else match split_groups (d :: s) with
                 | g :: gs => (c :: g) :: gs
                 | [] => [[c]]
                 end).
    destruct (boundary c d).
    + now exists [], (split_groups (d :: s)).
    + destruct (IH d) as (g & gs & E). rewrite E. now exists (d :: g), gs.
Qed.

Lemma split_groups_step (c d : ascii) (s : chars) :
  split_groups (c :: d :: s) =
    if boundary c d then [c] :: split_groups (d :: s)
    else glue [c] (split_groups (d :: s)).
Proof.
  change (split_groups (c :: d :: s))
    with (if boundary c d then [c] :: split_groups (d :: s)
          else match split_groups (d :: s) with
               | g :: gs => (c :: g) :: gs
               | [] => [[c]]
               end).
  destruct (boundary c d); [reflexivity|].
  destruct (split_groups_cons d s) as (g & gs & E). now rewrite E.
Qed.

Lemma glue_glue (g : chars) (c : ascii) (groups : list chars) :
  groups <> [] -> glue g (glue [c] groups) = glue (g ++ [c]) groups.
Proof.
  destruct groups as [|first others]; [congruence|]. intros _. simpl.
  now rewrite <- app_assoc.
Qed.

(** The iterations after the one that put [c] at the end of the group. *)
Lemma loop_from (post : chars) :
  forall (pre : chars) (c : ascii) (g : chars) (w : list chars) (n : nat),
    n = length pre ->
    forallb not_space post = true ->
    exists st,
      loop (pre ++ c :: post) {| group := g ++ [c]; words := w |}
           (seq (S n) (length post)) = Ok st
      /\ group st <> []
      /\ words st ++ [normalize (group st)]
         = w ++ map normalize (glue g (split_groups (c :: post))).
Proof.
  induction post as [|d post IH]; intros pre c g w n Hn Hsp.
  - exists {| group := g ++ [c]; words := w |}. simpl. repeat split.
    now destruct g.
  - simpl in Hsp. apply andb_true_iff in Hsp. destruct Hsp as [Hd Hsp].
    cbn [length seq loop].
    assert (Hs : pre ++ c :: d :: post = (pre ++ [c]) ++ d :: post)
      by now rewrite <- app_assoc.
    assert (Hlen : S n = length (pre ++ [c]))
      by (rewrite length_app; simpl; lia).
    assert (Hchar : index (pre ++ c :: d :: post) (Z.of_nat (S n)) = Ok d)
      by (rewrite Hs, Hlen; apply index_middle).
    assert (Hprev : index (pre ++ c :: d :: post) (Z.of_nat (S n) - 1) = Ok c).
    { replace (Z.of_nat (S n) - 1)%Z with (Z.of_nat (length pre)) by lia.
      apply index_middle. }
    unfold loop_body at 1. rewrite Hchar. cbn [bind group words].
    destruct (g ++ [c]) as [|g0 gr] eqn:Eg; [now destruct g|].
    rewrite <- Eg.
    unfold not_space in Hd. apply negb_true_iff in Hd. rewrite Hd.
    cbn [andb].
    rewrite split_groups_step.
    destruct (boundary c d) eqn:Hb.
    + (* a new word starts at [d] *)
      unfold boundary in Hb. apply andb_true_iff in Hb.
      destruct Hb as [Hlow Hcaps].
      unfold inside_caps_run, starts_word. rewrite Hcaps, Hprev.
      cbn [bind]. fold (caps_or_digit c). rewrite (lower_not_caps c Hlow), Hlow.
      cbn [bind].
      destruct (IH (pre ++ [c]) d [] (w ++ [normalize (g ++ [c])]) (S n)
                  Hlen Hsp) as (st & Hl & Hg & Hw).
      exists st. rewrite <- Hs in Hl. simpl app in Hl. rewrite Hl.
      repeat split; [exact Hg|].
      rewrite Hw, <- app_assoc.
      destruct (split_groups_cons d post) as (g1 & gs & E). rewrite E.
      reflexivity.
    + (* [d] goes on with the group *)
      assert (Hstep :
        (b1 <- inside_caps_run (pre ++ c :: d :: post) (S n) d ;;
         if b1 then Ok {| group := (g ++ [c]) ++ [d]; words := w |}
         else
           b2 <- starts_word (pre ++ c :: d :: post) (S n) d ;;
           if b2 then
             Ok {| group := [d]; words := w ++ [normalize (g ++ [c])] |}
           else Ok {| group := (g ++ [c]) ++ [d]; words := w |})
        = Ok {| group := (g ++ [c]) ++ [d]; words := w |}).
      { unfold inside_caps_run, starts_word. rewrite Hprev. cbn [bind].
        unfold boundary in Hb.
        destruct (isupper d || isdigit d) eqn:Hcaps.
        - rewrite andb_true_r in Hb. rewrite Hb.
          destruct (isupper c || isdigit c); cbn [bind]; [|reflexivity].
          destruct (Z.of_nat (S n) =? Z.of_nat (length (pre ++ c :: d :: post)) - 1)%Z
            eqn:Hlast; [reflexivity|].
          destruct post as [|e post'].
          + apply Z.eqb_neq in Hlast. rewrite length_app in Hlast.
            simpl in Hlast. lia.
          + assert (Hnext : index (pre ++ c :: d :: e :: post')
                              (Z.of_nat (S n) + 1) = Ok e).
            { replace (pre ++ c :: d :: e :: post')
                with ((pre ++ [c; d]) ++ e :: post')
                by now rewrite <- app_assoc.
              replace (Z.of_nat (S n) + 1)%Z
                with (Z.of_nat (length (pre ++ [c; d])))
                by (rewrite length_app; simpl; lia).
              apply index_middle. }
            rewrite Hnext. cbn [bind].
            now destruct (isupper e || isdigit e).
        - reflexivity. }
      rewrite Hstep. cbn [bind].
      destruct (IH (pre ++ [c]) d (g ++ [c]) w (S n) Hlen Hsp)
        as (st & Hl & Hg & Hw).
      exists st. rewrite <- Hs in Hl. rewrite Hl.
      repeat split; [exact Hg|].
      rewrite Hw. f_equal. f_equal. symmetry. apply glue_glue.
      destruct (split_groups_cons d post) as (g1 & gs & E). rewrite E.
      discriminate.
Qed.

Lemma split_groups_concat (s : chars) :
  concat (split_groups s) = s /\ Forall (fun g => g <> []) (split_groups s).
Proof.
  destruct s as [|c s]; [split; [reflexivity | constructor]|].
  revert c. induction s as [|d s IH]; intros c.
  - split; [reflexivity|]. repeat constructor. discriminate.
  - rewrite split_groups_step. destruct (IH d) as [Hc Hf].
    destruct (boundary c d).
    + split; [cbn [concat app]; now rewrite Hc|].
      constructor; [discriminate | exact Hf].
    + destruct (split_groups_cons d s) as (g & gs & E). rewrite E in *.
      split.
      * cbn [glue concat app] in *. now rewrite Hc.
      * inversion Hf; subst. constructor; [discriminate | assumption].
Qed.

Lemma re_match_caps_plain (g : chars) :
  g <> [] -> forallb not_newline g = true ->
  re_match_caps g = forallb caps_or_digit g.
Proof.
  intros Hne Hnl. unfold re_match_caps.
  assert (Hall : all_caps g = forallb caps_or_digit g)
    by (destruct g; [congruence | reflexivity]).
  rewrite Hall. destruct (rev g) as [|c r] eqn:Er; [apply orb_false_r|].
  assert (Hin : In c g) by (apply in_rev; rewrite Er; now left).
  rewrite forallb_forall in Hnl. specialize (Hnl c Hin).
  unfold not_newline in Hnl. apply negb_true_iff in Hnl. rewrite Hnl.
  apply orb_false_r.
Qed.

Lemma normalize_groups (s : chars) :
  forallb not_newline s = true ->
  map normalize (split_groups s) = map normalize_group (split_groups s).
Proof.
  intros Hnl. destruct (split_groups_concat s) as [Hc Hf].
  apply map_ext_in. intros g Hg.
  unfold normalize, normalize_group. rewrite re_match_caps_plain; auto.
  - rewrite Forall_forall in Hf. now apply Hf.
  - apply forallb_forall. intros c Hcg.
    rewrite forallb_forall in Hnl. apply Hnl. rewrite <- Hc.
    apply in_concat. now exists g.
Qed.

(** The whole loop, for text without a space. *)
Lemma loop_groups (c : ascii) (post : chars) :
  forallb not_space post = true ->
  exists st,
    loop (c :: post) {| group := []; words := [] |}
         (seq 0 (length (c :: post))) = Ok st
    /\ group st <> []
    /\ words st ++ [normalize (group st)]
       = map normalize (split_groups (c :: post)).
Proof.
  intros Hsp.
  destruct (loop_from post [] c [] [] 0 eq_refl Hsp) as (st & Hl & Hg & Hw).
  exists st. repeat split; [|exact Hg|].
  - cbn [length seq loop]. unfold loop_body at 1.
    change (index (c :: post) (Z.of_nat 0)) with (Ok c : result ascii).
    cbn [bind group words]. exact Hl.
  - rewrite Hw. destruct (split_groups_cons c post) as (g1 & gs & E).
    now rewrite E.
Qed.

Lemma rsplit_slash_spec (s : chars) :
  match rsplit_slash s with
  | Some (h, t) => s = h ++ "/"%char :: t /\ forallb not_slash t = true
  | None => forallb not_slash s = true
  end.
Proof.
  induction s as [|c s IH]; [reflexivity|]. simpl.
  destruct (rsplit_slash s) as [[h t]|].
  - destruct IH as [E Ht]. split; [now rewrite E | exact Ht].
  - destruct (Ascii.eqb c "/") eqn:Ec.
    + apply Ascii.eqb_eq in Ec. subst c. now split.
    + unfold not_slash at 1. rewrite Ec. exact IH.
Qed.

Lemma until_slash_stops (a b : chars) :
  forallb not_slash a = true -> until_slash (a ++ "/"%char :: b) = a.
Proof.
  induction a as [|c a IH]; simpl; [reflexivity|]. intros H.
  apply andb_true_iff in H. destruct H as [Hc Ha].
  unfold not_slash in Hc. apply negb_true_iff in Hc. rewrite Hc.
  now rewrite IH.
Qed.

Lemma until_slash_all (a : chars) :
  forallb not_slash a = true -> until_slash a = a.
Proof.
  induction a as [|c a IH]; simpl; [reflexivity|]. intros H.
  apply andb_true_iff in H. destruct H as [Hc Ha].
  unfold not_slash in Hc. apply negb_true_iff in Hc. rewrite Hc.
  now rewrite IH.
Qed.

Lemma forallb_rev (f : ascii -> bool) (l : chars) :
  forallb f l = true -> forallb f (rev l) = true.
Proof.
  rewrite !forallb_forall. intros H x Hx. apply H. now apply in_rev.
Qed.

Lemma rpartition_after_last_slash (s : chars) :
  snd (rpartition s) = after_last_slash s.
Proof.
  unfold rpartition, after_last_slash.
  pose proof (rsplit_slash_spec s) as H.
  destruct (rsplit_slash s) as [[h t]|]; simpl.
  - destruct H as [E Ht]. subst s.
    rewrite rev_app_distr. simpl. rewrite <- app_assoc. simpl.
    rewrite until_slash_stops by now apply forallb_rev.
    now rewrite rev_involutive.
  - rewrite until_slash_all by now apply forallb_rev.
    now rewrite rev_involutive.
Qed.

Lemma last_part_segment (s : chars) : last_part s = segment s.
Proof. unfold last_part, segment. now rewrite rpartition_after_last_slash. Qed.

Lemma until_slash_incl (s : chars) (c : ascii) :
  In c (until_slash s) -> In c s.
Proof.
  induction s as [|d s IH]; simpl; [tauto|].
  destruct (Ascii.eqb d "/"); simpl; [tauto|]. intros [H|H]; auto.
Qed.

Lemma segment_incl (s : chars) (c : ascii) : In c (segment s) -> In c s.
Proof.
  unfold segment, after_last_slash.
  destruct (rev (until_slash (rev s))) as [|x t] eqn:E; [tauto|].
  intros H. rewrite <- E in H. apply in_rev in H.
  apply until_slash_incl in H. now apply in_rev.
Qed.

Lemma segment_nonempty (s : chars) : s <> [] -> segment s <> [].
Proof.
  unfold segment. destruct (after_last_slash s); [tauto | discriminate].
Qed.

Lemma upper_char_plain (c : ascii) :
  plain_char c = true -> plain_char (upper_char c) = true.
Proof.
  destruct c as [[] [] [] [] [] [] [] []]; intros H; try exact H;
    try reflexivity.
Qed.

Lemma replace_absent (a b : ascii) (s : chars) :
  forallb (fun c => negb (Ascii.eqb c a)) s = true -> replace a b s = s.
Proof.
  induction s as [|c s IH]; simpl; [reflexivity|]. intros H.
  apply andb_true_iff in H. destruct H as [Hc Hs].
  apply negb_true_iff in Hc. rewrite Hc. now rewrite IH.
Qed.

Lemma plain_parts (s : chars) :
  forallb plain_char s = true ->
  forallb (fun c => negb (Ascii.eqb c "_")) s = true
  /\ forallb not_space s = true
  /\ forallb not_newline s = true.
Proof.
  intros H. rewrite forallb_forall in H.
  repeat split; apply forallb_forall; intros c Hc; specialize (H c Hc);
    unfold plain_char in H;
    apply andb_true_iff in H; destruct H as [H H3];
    apply andb_true_iff in H; destruct H as [H1 H2]; assumption.
Qed.

Lemma get_sensor_name_chars_plain (attr_name : chars) :
  attr_name <> [] ->
  forallb plain_char attr_name = true ->
  get_sensor_name_chars attr_name = Ok (amended_sensor_name attr_name).
Proof.
  intros Hne Hplain.
  unfold get_sensor_name_chars, amended_sensor_name.
  rewrite last_part_segment.
  assert (Hseg : forallb plain_char (segment attr_name) = true).
  { apply forallb_forall. intros c Hc. rewrite forallb_forall in Hplain.
    apply Hplain. now apply segment_incl. }
  pose proof (segment_nonempty attr_name Hne) as Hsne.
  destruct (segment attr_name) as [|c0 rest]; [congruence|].
  change (index (c0 :: rest) 0) with (Ok c0 : result ascii).
  cbn [bind skipn capitalize].
  simpl in Hseg. apply andb_true_iff in Hseg. destruct Hseg as [Hc0 Hrest].
  assert (Hcap : forallb plain_char (upper_char c0 :: rest) = true)
    by (simpl; now rewrite upper_char_plain, Hrest).
  destruct (plain_parts _ Hcap) as (Hu & Hs & Hn).
  rewrite (replace_absent _ _ _ Hu).
  simpl in Hs. apply andb_true_iff in Hs. destruct Hs as [_ Hs].
  destruct (loop_groups (upper_char c0) rest Hs) as (st & Hl & Hg & Hw).
  rewrite Hl. cbn [bind].
  assert (Hpos : (0 <? length (group st))%nat = true)
    by (destruct (group st); [congruence | reflexivity]).
  rewrite Hpos, Hw. now rewrite normalize_groups.
Qed.

End NameFacts.

(** ** [get_sensor_name] with separators *)

Module SeparatorFacts.
Import NameSpec NameFacts.

Lemma loop_app (s : chars) (r1 r2 : list nat) (st : loop_state) :
  loop s st (r1 ++ r2) = (st' <- loop s st r1 ;; loop s st' r2).
Proof.
  revert st. induction r1 as [|i r1 IH]; intros st; [reflexivity|].
  cbn [app loop]. destruct (loop_body s st i) as [st1|e]; cbn [bind];
    [apply IH | reflexivity].
Qed.

Lemma loop_body_start (s : chars) (i : nat) (c : ascii) (w : list chars) :
  index s (Z.of_nat i) = Ok c ->
  loop_body s {| group := []; words := w |} i
  = Ok {| group := [c]; words := w |}.
Proof. intros H. unfold loop_body. now rewrite H. Qed.

(** At a space the group is appended as it is. *)
Lemma loop_body_space (s : chars) (i : nat) (g : chars) (w : list chars) :
  index s (Z.of_nat i) = Ok " "%char ->
  g <> [] ->
  loop_body s {| group := g; words := w |} i
  = Ok {| group := []; words := w ++ [g] |}.
Proof.
  intros H Hg. unfold loop_body. rewrite H. cbn [bind group words].
  destruct g; [congruence | reflexivity].
Qed.

(** The iterations over a stretch without space, whatever follows it: the
    last group stays in [group], the ones before are normalized. *)
Lemma loop_run (post : chars) :
  forall (pre : chars) (c : ascii) (g : chars) (w : list chars) (n : nat)
         (tail : chars),
    n = length pre ->
    forallb not_space post = true ->
    loop (pre ++ c :: post ++ tail) {| group := g ++ [c]; words := w |}
         (seq (S n) (length post))
    = Ok {| group := last (glue g (split_groups (c :: post))) [];
            words := w ++ map normalize
                            (removelast (glue g (split_groups (c :: post)))) |}.
Proof.
  induction post as [|d post IH]; intros pre c g w n tail Hn Hsp.
  - simpl. now rewrite app_nil_r.
  - simpl in Hsp. apply andb_true_iff in Hsp. destruct Hsp as [Hd Hsp].
    cbn [length seq loop]. change ((d :: post) ++ tail) with (d :: post ++ tail).
    assert (Hs : pre ++ c :: d :: post ++ tail
                 = (pre ++ [c]) ++ d :: post ++ tail)
      by now rewrite <- app_assoc.
    assert (Hlen : S n = length (pre ++ [c]))
      by (rewrite length_app; simpl; lia).
    assert (Hchar : index (pre ++ c :: d :: post ++ tail) (Z.of_nat (S n))
                    = Ok d)
      by (rewrite Hs, Hlen; apply index_middle).
    assert (Hprev : index (pre ++ c :: d :: post ++ tail) (Z.of_nat (S n) - 1)
                    = Ok c).
    { replace (Z.of_nat (S n) - 1)%Z with (Z.of_nat (length pre)) by lia.
      apply index_middle. }
    unfold loop_body at 1. rewrite Hchar. cbn [bind group words].
    destruct (g ++ [c]) as [|g0 gr] eqn:Eg; [now destruct g|].
    rewrite <- Eg.
    unfold not_space in Hd. apply negb_true_iff in Hd. rewrite Hd.
    cbn [andb].
    rewrite split_groups_step.
    destruct (split_groups_cons d post) as (g1 & gs & E).
    destruct (boundary c d) eqn:Hb.
    + unfold boundary in Hb. apply andb_true_iff in Hb.
      destruct Hb as [Hlow Hcaps].
      unfold inside_caps_run, starts_word. rewrite Hcaps, Hprev.
      cbn [bind]. fold (caps_or_digit c). rewrite (lower_not_caps c Hlow), Hlow.
      cbn [bind].
      pose proof (IH (pre ++ [c]) d [] (w ++ [normalize (g ++ [c])]) (S n)
                    tail Hlen Hsp) as Hl.
      rewrite <- Hs in Hl. cbn [app] in Hl.
      etransitivity; [exact Hl|].
      rewrite E. cbn [glue app last removelast map].
      now rewrite <- app_assoc.
    + assert (Hstep :
        (b1 <- inside_caps_run (pre ++ c :: d :: post ++ tail) (S n) d ;;
         if b1 then Ok {| group := (g ++ [c]) ++ [d]; words := w |}
         else
           b2 <- starts_word (pre ++ c :: d :: post ++ tail) (S n) d ;;
           if b2 then
             Ok {| group := [d]; words := w ++ [normalize (g ++ [c])] |}
           else Ok {| group := (g ++ [c]) ++ [d]; words := w |})
        = Ok {| group := (g ++ [c]) ++ [d]; words := w |}).
      { unfold inside_caps_run, starts_word. rewrite Hprev. cbn [bind].
        unfold boundary in Hb.
        destruct (isupper d || isdigit d) eqn:Hcaps; [|reflexivity].
        rewrite andb_true_r in Hb. rewrite Hb.
        destruct (isupper c || isdigit c); cbn [bind]; [|reflexivity].
        destruct (Z.of_nat (S n)
                  =? Z.of_nat (length (pre ++ c :: d :: post ++ tail)) - 1)%Z
          eqn:Hlast; [reflexivity|].
        destruct (post ++ tail) as [|e rest].
        - apply Z.eqb_neq in Hlast. rewrite length_app in Hlast.
          simpl in Hlast. lia.
        - assert (Hnext : index (pre ++ c :: d :: e :: rest)
                            (Z.of_nat (S n) + 1) = Ok e).
          { replace (pre ++ c :: d :: e :: rest)
              with ((pre ++ [c; d]) ++ e :: rest)
              by now rewrite <- app_assoc.
            replace (Z.of_nat (S n) + 1)%Z
              with (Z.of_nat (length (pre ++ [c; d])))
              by (rewrite length_app; simpl; lia).
            apply index_middle. }
          rewrite Hnext. cbn [bind].
          now destruct (isupper e || isdigit e). }
      rewrite Hstep. cbn [bind].
      pose proof (IH (pre ++ [c]) d (g ++ [c]) w (S n) tail Hlen Hsp) as Hl.
      rewrite <- Hs in Hl.
      etransitivity; [exact Hl|].
      rewrite glue_glue by (rewrite E; discriminate).
      reflexivity.
Qed.

Lemma glue_nil (groups : list chars) : groups <> [] -> glue [] groups = groups.
Proof. destruct groups; [congruence | reflexivity]. Qed.

Lemma groups_last (groups : list chars) :
  groups <> [] -> removelast groups ++ [last groups []] = groups.
Proof. intros H. symmetry. now apply app_removelast_last. Qed.

Lemma last_group_nonempty (c : ascii) (post : chars) :
  last (split_groups (c :: post)) [] <> [].
Proof.
  destruct (split_groups_cons c post) as (g & gs & E).
  destruct (split_groups_concat (c :: post)) as [_ Hf].
  rewrite <- (groups_last (split_groups (c :: post))) in Hf
    by (rewrite E; discriminate).
  apply Forall_app in Hf. destruct Hf as [_ Hf]. now inversion Hf.
Qed.

Lemma lower_settled (g : chars) :
  forallb (fun c => negb (isupper c)) g = true -> lower g = g.
Proof.
  induction g as [|c g IH]; [reflexivity|]. cbn [forallb]. intros H.
  apply andb_true_iff in H. destruct H as [Hc Hg].
  unfold lower in *. cbn [map]. rewrite (IH Hg). f_equal.
  unfold lower_char. apply negb_true_iff in Hc. now rewrite Hc.
Qed.

Lemma settled_normalize (g : chars) :
  settled g = true -> normalize_group g = g.
Proof.
  unfold settled, normalize_group.
  destruct (forallb caps_or_digit g); [reflexivity|]. cbn [orb].
  apply lower_settled.
Qed.

Lemma normalize_in (s g : chars) :
  forallb not_newline s = true ->
  In g (split_groups s) ->
  normalize g = normalize_group g.
Proof.
  intros Hnl Hg. destruct (split_groups_concat s) as [Hc Hf].
  unfold normalize, normalize_group. rewrite re_match_caps_plain; auto.
  - rewrite Forall_forall in Hf. now apply Hf.
  - apply forallb_forall. intros c Hcg.
    rewrite forallb_forall in Hnl. apply Hnl. rewrite <- Hc.
    apply in_concat. now exists g.
Qed.

(** A whole piece, from its first character on. *)
Lemma loop_piece (pre : chars) (c : ascii) (post tail : chars)
    (w : list chars) (n : nat) :
  n = length pre ->
  forallb not_space post = true ->
  loop (pre ++ c :: post ++ tail) {| group := []; words := w |}
       (seq n (S (length post)))
  = Ok {| group := last (split_groups (c :: post)) [];
          words := w ++ map normalize
                          (removelast (split_groups (c :: post))) |}.
Proof.
  intros Hn Hsp. cbn [seq loop].
  rewrite (loop_body_start _ n c w) by (subst n; apply index_middle).
  cbn [bind].
  pose proof (loop_run post pre c [] w n tail Hn Hsp) as Hrun.
  cbn [app] in Hrun. rewrite Hrun.
  destruct (split_groups_cons c post) as (g & gs & E).
  now rewrite glue_nil by (rewrite E; discriminate).
Qed.

Lemma normalize_piece (p : chars) :
  forallb not_newline p = true ->
  map normalize (removelast (split_groups p)) ++ [normalize (last (split_groups p) [])]
  = map normalize_group (split_groups p)
    \/ p = [].
Proof.
  intros Hnl. destruct p as [|c post]; [now right|]. left.
  destruct (split_groups_cons c post) as (g & gs & E).
  rewrite <- (normalize_groups _ Hnl).
  rewrite <- (groups_last (split_groups (c :: post))) at 3
    by (rewrite E; discriminate).
  now rewrite map_app.
Qed.

(** The loop over pieces that single spaces separate. *)
Lemma loop_pieces (ps : list chars) :
  forall (p pre : chars) (w : list chars) (n : nat),
    n = length pre ->
    forallb space_free (p :: ps) = true ->
    forallb (forallb not_newline) (p :: ps) = true ->
    forallb piece_ok (removelast (p :: ps)) = true ->
    exists st,
      loop (pre ++ join " " (p :: ps)) {| group := []; words := w |}
           (seq n (length (join " " (p :: ps)))) = Ok st
      /\ (if (0 <? length (group st))%nat
          then words st ++ [normalize (group st)] else words st)
         = w ++ map normalize_group (flat_map split_groups (p :: ps)).
Proof.
  induction ps as [|q ps IH]; intros p pre w n Hn Hsf Hnl Hok.
  - cbn [join flat_map]. rewrite app_nil_r.
    cbn [forallb] in Hsf, Hnl. rewrite andb_true_r in Hsf, Hnl.
    destruct p as [|c post].
    + exists {| group := []; words := w |}. simpl.
      split; [reflexivity | now rewrite app_nil_r].
    + eexists. split.
      * pose proof (loop_piece pre c post [] w n Hn) as Hp.
        rewrite app_nil_r in Hp. apply Hp.
        unfold space_free in Hsf. cbn [forallb] in Hsf.
        apply andb_true_iff in Hsf. tauto.
      * cbn [group words].
        pose proof (last_group_nonempty c post) as Hne.
        destruct (last (split_groups (c :: post)) []) as [|x l] eqn:El;
          [congruence|].
        cbn [length Nat.ltb Nat.leb]. rewrite <- El, <- app_assoc.
        f_equal.
        destruct (normalize_piece (c :: post) Hnl) as [H|H];
          [exact H | discriminate H].
  - change (join " " (p :: q :: ps)) with (p ++ " "%char :: join " " (q :: ps)).
    change (removelast (p :: q :: ps)) with (p :: removelast (q :: ps)) in Hok.
    cbn [forallb] in Hsf, Hnl, Hok.
    apply andb_true_iff in Hsf. destruct Hsf as [Hsp Hsf].
    apply andb_true_iff in Hnl. destruct Hnl as [Hnp Hnl].
    apply andb_true_iff in Hok. destruct Hok as [Hp Hok].
    destruct p as [|c post]; [discriminate Hp|].
    cbn [piece_ok] in Hp.
    set (R := join " " (q :: ps)) in *.
    assert (Hlen : length ((c :: post) ++ " "%char :: R)
                   = S (length post) + S (length R))
      by (rewrite length_app; reflexivity).
    rewrite Hlen, seq_app, loop_app.
    change ((c :: post) ++ " "%char :: R) with (c :: post ++ " "%char :: R).
    rewrite (loop_piece pre c post (" "%char :: R) w n Hn)
      by (unfold space_free in Hsp; cbn [forallb] in Hsp;
          apply andb_true_iff in Hsp; tauto).
    cbn [bind seq loop].
    assert (Hs : pre ++ c :: post ++ " "%char :: R
                 = (pre ++ c :: post) ++ " "%char :: R)
      by now rewrite <- app_assoc.
    assert (Hl2 : n + S (length post) = length (pre ++ c :: post))
      by (rewrite length_app; simpl; lia).
    rewrite (loop_body_space _ (n + S (length post))
               (last (split_groups (c :: post)) []) _)
      by (try apply last_group_nonempty; rewrite Hs, Hl2; apply index_middle).
    cbn [bind].
    assert (Hs3 : pre ++ c :: post ++ " "%char :: R
                  = ((pre ++ c :: post) ++ [" "%char]) ++ R)
      by (rewrite <- !app_assoc; reflexivity).
    assert (Hl3 : S (n + S (length post))
                  = length ((pre ++ c :: post) ++ [" "%char]))
      by (rewrite !length_app; simpl; lia).
    destruct (IH q ((pre ++ c :: post) ++ [" "%char])
                ((w ++ map normalize (removelast (split_groups (c :: post))))
                   ++ [last (split_groups (c :: post)) []])
                (S (n + S (length post))) Hl3 Hsf Hnl Hok)
      as (st & Hloop & Hw).
    exists st. split.
    + rewrite Hs3. exact Hloop.
    + rewrite Hw.
      change (flat_map split_groups ((c :: post) :: q :: ps))
        with (split_groups (c :: post) ++ flat_map split_groups (q :: ps)).
      rewrite map_app, app_assoc. f_equal.
      rewrite <- app_assoc. f_equal.
      destruct (split_groups_cons c post) as (g & gs & E).
      assert (Hgl : removelast (split_groups (c :: post))
                    ++ [last (split_groups (c :: post)) []]
                    = split_groups (c :: post))
        by (apply groups_last; rewrite E; discriminate).
      transitivity (map normalize_group
                      (removelast (split_groups (c :: post))
                       ++ [last (split_groups (c :: post)) []]));
        [|now rewrite Hgl].
      rewrite map_app. cbn [map]. rewrite (settled_normalize _ Hp).
      f_equal. apply map_ext_in. intros x Hx.
      apply (normalize_in (c :: post)); [exact Hnp|].
      rewrite <- Hgl. apply in_or_app. now left.
Qed.

Lemma split_spaces_cons (s : chars) :
  exists p ps, split_spaces s = p :: ps.
Proof.
  induction s as [|c s IH]; [now exists [], []|]. cbn [split_spaces].
  destruct (Ascii.eqb c " "); [now exists [], (split_spaces s)|].
  destruct IH as (p & ps & E). rewrite E. now exists (c :: p), ps.
Qed.

Lemma join_cons (c : ascii) (p : chars) (ps : list chars) :
  join " " ((c :: p) :: ps) = c :: join " " (p :: ps).
Proof. destruct ps; reflexivity. Qed.

Lemma split_spaces_join (s : chars) : join " " (split_spaces s) = s.
Proof.
  induction s as [|c s IH]; [reflexivity|]. cbn [split_spaces].
  destruct (split_spaces_cons s) as (p & ps & E). rewrite E in *.
  destruct (Ascii.eqb c " ") eqn:Ec.
  - apply Ascii.eqb_eq in Ec. subst c.
    change (join " " ([] :: p :: ps)) with (" "%char :: join " " (p :: ps)).
    now rewrite IH.
  - rewrite join_cons. now rewrite IH.
Qed.

Lemma split_spaces_forall (f : ascii -> bool) (s : chars) :
  forallb f s = true -> forallb (forallb f) (split_spaces s) = true.
Proof.
  induction s as [|c s IH]; [reflexivity|]. cbn [forallb split_spaces].
  intros H. apply andb_true_iff in H. destruct H as [Hc Hs].
  specialize (IH Hs). destruct (Ascii.eqb c " "); [exact IH|].
  destruct (split_spaces s) as [|p ps]; cbn [forallb] in *.
  - now rewrite Hc.
  - apply andb_true_iff in IH. destruct IH as [Hp Hps].
    now rewrite Hc, Hp, Hps.
Qed.

Lemma split_spaces_space_free (s : chars) :
  forallb space_free (split_spaces s) = true.
Proof.
  induction s as [|c s IH]; [reflexivity|]. cbn [split_spaces].
  destruct (Ascii.eqb c " ") eqn:Ec; [exact IH|].
  destruct (split_spaces s) as [|p ps]; unfold space_free in *;
    cbn [forallb] in *; unfold not_space at 1; rewrite Ec; [reflexivity|].
  exact IH.
Qed.

Lemma upper_char_not_newline (c : ascii) :
  not_newline c = true -> not_newline (upper_char c) = true.
Proof.
  destruct c as [[] [] [] [] [] [] [] []]; intros H; try exact H;
    try reflexivity.
Qed.

Lemma prepared_not_newline (attr_name : chars) :
  forallb not_newline attr_name = true ->
  forallb not_newline (prepared attr_name) = true.
Proof.
  intros H. rewrite forallb_forall in H.
  apply forallb_forall. intros c Hc. unfold prepared, replace in Hc.
  apply in_map_iff in Hc. destruct Hc as (x & Hx & Hin).
  assert (Hnx : not_newline x = true).
  { unfold capitalize in Hin.
    destruct (segment attr_name) as [|c0 rest] eqn:E; [destruct Hin|].
    destruct Hin as [<-|Hin].
    - apply upper_char_not_newline, H, segment_incl. rewrite E. now left.
    - apply H, segment_incl. rewrite E. now right. }
  destruct (Ascii.eqb x "_"); subst c; [reflexivity | exact Hnx].
Qed.

Lemma get_sensor_name_chars_separated (attr_name : chars) :
  attr_name <> [] ->
  forallb not_newline attr_name = true ->
  separators_ok (prepared attr_name) = true ->
  get_sensor_name_chars attr_name = Ok (separated_sensor_name attr_name).
Proof.
  intros Hne Hnl Hok. pose proof (prepared_not_newline _ Hnl) as Hpn.
  unfold get_sensor_name_chars, separated_sensor_name.
  rewrite last_part_segment.
  unfold separators_ok in Hok. unfold prepared in *.
  pose proof (segment_nonempty attr_name Hne) as Hs.
  destruct (segment attr_name) as [|c0 rest]; [congruence|].
  change (index (c0 :: rest) 0) with (Ok c0 : result ascii).
  cbn [bind skipn capitalize] in *.
  set (s := replace "_" " " (upper_char c0 :: rest)) in *.
  destruct (split_spaces_cons s) as (p & ps & E).
  pose proof (split_spaces_join s) as Hj.
  pose proof (split_spaces_space_free s) as Hsf.
  pose proof (split_spaces_forall not_newline s Hpn) as Hn.
  rewrite E in *.
  destruct (loop_pieces ps p [] [] 0 eq_refl Hsf Hn Hok) as (st & Hl & Hw).
  cbn [app] in Hl. rewrite Hj in Hl. rewrite Hl. cbn [bind].
  now rewrite Hw.
Qed.

End SeparatorFacts.

(** C4, as the code has it.  For a non-empty ASCII attribute identifier
    without line feed, [get_sensor_name] takes what follows the last ["/"]
    (the whole identifier when nothing follows it), turns its first
    character into a capital, cuts the text at every underscore and space,
    which are dropped, ends a group also at every lower-case letter that a
    capital or a digit follows, lower-cases every group that is not made of
    capitals and digits only, keeps the others, and joins the groups with
    single spaces; this where every separator directly follows a group that
    is made of capitals and digits only or has no capital (the group that a
    separator ends is appended as it is). *)
Theorem get_sensor_name_rule (attr_name : string) :
  attr_name <> "" ->
  is_ascii (str attr_name) = true ->
  forallb NameSpec.not_newline (str attr_name) = true ->
  NameSpec.separators_ok (NameSpec.prepared (str attr_name)) = true ->
  get_sensor_name attr_name
  = Ok (string_of_list_ascii
          (NameSpec.separated_sensor_name (str attr_name))).
Proof.
  intros Hne _ Hnl Hok. unfold get_sensor_name.
  rewrite SeparatorFacts.get_sensor_name_chars_separated;
    [reflexivity | | exact Hnl | exact Hok].
  destruct attr_name; [congruence | discriminate].
Qed.

Lemma get_sensor_name_rule_witness :
  get_sensor_name "userSelections/TARGET_temperatureC"
  = Ok "TARGET temperature C".
Proof.
  apply (get_sensor_name_rule "userSelections/TARGET_temperatureC");
    [discriminate | reflexivity | reflexivity | reflexivity].
Defined.

(** C4 as worded fails: nothing in the wording turns ["a"] into a capital. *)
Lemma sensor_name_of_a :
  get_sensor_name "a" = Ok "A"
  /\ string_of_list_ascii (NameSpec.spec_sensor_name (str "a")) = "a".
Proof. split; reflexivity. Qed.

(** The group that a separator ends is appended as it is, where the two
    other places that append a group normalize it: ["Foo"] keeps its
    capital. *)
Lemma group_before_separator_is_kept :
  get_sensor_name "foo_bar" = Ok "Foo bar"
  /\ NameSpec.separators_ok (NameSpec.prepared (str "foo_bar")) = false.
Proof. split; reflexivity. Qed.

(** ** [setup]: capabilities rebuilt from the catalog *)

Module RebuildFacts.
Import RebuildSpec.

Lemma reported_has_truthy (reported : dict pyval) (e : entry) :
  container_ok reported e = true ->
  reported_has (VDict reported) (ElectroluxDevice.category (snd e)) (fst e)
  = Ok (key_truthy reported (ElectroluxDevice.category (snd e)) (fst e)).
Proof.
  unfold container_ok, reported_has, key_truthy.
  destruct (ElectroluxDevice.category (snd e)) as [c|]; [|reflexivity].
  destruct (category_truthy (Some c)); [|reflexivity]. simpl.
  destruct (get reported c VNone) as [|b|z|m ex|s|l|cd]; simpl;
    try reflexivity.
  - destruct b; simpl; intros; try discriminate; reflexivity.
  - destruct z; simpl; intros; try discriminate; reflexivity.
  - destruct m; simpl; intros; try discriminate; reflexivity.
  - destruct s; simpl; intros; try discriminate; reflexivity.
  - destruct l; simpl; intros; try discriminate; reflexivity.
  - destruct cd; reflexivity.
Qed.

Lemma rebuild_loop_selects (reported : dict pyval) (catalog : list entry) :
  forall (caps : dict pyval) (names : list string),
    forallb (container_ok reported) catalog = true ->
    rebuild_loop (VDict reported) (caps, names) (as_catalog catalog)
    = Ok (fold_left assign (filter (chosen reported) catalog) caps,
          names ++ map path_of (filter (chosen reported) catalog)).
Proof.
  induction catalog as [|e catalog IH]; intros caps names Hok.
  - simpl. now rewrite app_nil_r.
  - simpl in Hok. apply andb_true_iff in Hok. destruct Hok as [He Hok].
    cbn [as_catalog map rebuild_loop]. unfold rebuild_step at 1.
    cbn [fst snd device_attr bind].
    rewrite (reported_has_truthy reported e He). cbn [bind filter].
    fold (chosen reported e).
    destruct (chosen reported e).
    + cbn [bind fst snd]. fold (as_catalog catalog).
      rewrite IH by exact Hok. cbn [fold_left map].
      rewrite <- app_assoc. reflexivity.
    + cbn [bind]. fold (as_catalog catalog). now rewrite IH.
Qed.

Lemma key_truthy_present (reported : dict pyval) (category : option string)
    (key : string) :
  key_truthy reported category key = true ->
  key_present reported category key = true.
Proof.
  unfold key_truthy, key_present, mem, get.
  destruct (category_truthy category).
  - destruct (lookup reported _) as [[| | | | | |container]|];
      try discriminate.
    now destruct (lookup container key).
  - now destruct (lookup reported key).
Qed.

(** Where no present key is falsy, the test on the value selects the
    present keys. *)
Lemma select_rebuilt_wanted (reported : dict pyval) (catalog : list entry) :
  values_truthy reported catalog = true ->
  select_rebuilt reported catalog = select_wanted reported catalog.
Proof.
  unfold values_truthy, select_rebuilt, select_wanted. intros H.
  rewrite forallb_forall in H. apply filter_ext_in. intros e He.
  specialize (H e He). unfold present_truthy in H.
  unfold chosen, wanted. f_equal.
  pose proof (key_truthy_present reported
                (ElectroluxDevice.category (snd e)) (fst e)) as Hp.
  destruct (key_truthy reported _ _), (key_present reported _ _);
    try reflexivity; [now specialize (Hp eq_refl) | discriminate H].
Qed.

End RebuildFacts.

(** C5, as the code has it.  When the capabilities dictionary is [None] and
    the state holds a non-empty reported dictionary in which no key of the
    catalog is present with a falsy value, the block of [setup] that
    rebuilds the capabilities takes, in catalog order, exactly the catalog
    entries whose key is present in the reported state (under the entry's
    category, or at top level when the category is empty or [None]) and the
    entry keyed ["executeCommand"], assigns each one's path the entry's
    [capability_info], and leaves the paths in the local
    [capabilities_names]. *)
Theorem setup_rebuilds_capabilities
    (catalog : list RebuildSpec.entry) (self : Appliance.t)
    (d : ElectroluxLibraryEntity) (st properties reported : dict pyval) :
  Appliance.data self = Some d ->
  capabilities d = None ->
  Appliance.state self = VDict st ->
  lookup st "properties" = Some (VDict properties) ->
  lookup properties "reported" = Some (VDict reported) ->
  reported <> [] ->
  RebuildSpec.containers_ok reported catalog = true ->
  RebuildSpec.values_truthy reported catalog = true ->
  setup_rebuild (RebuildSpec.as_catalog catalog) (sources_list d) self
  = (Appliance.with_data self
       (Some (set_capabilities d
                (Some (RebuildSpec.build
                         (RebuildSpec.select_wanted reported catalog))))),
     Ok (Some (map RebuildSpec.path_of
                 (RebuildSpec.select_wanted reported catalog)))).
Proof.
  intros Hd Hcaps Hst Hp Hr Hne Hok Hval.
  rewrite <- (RebuildFacts.select_rebuilt_wanted reported catalog Hval).
  unfold setup_rebuild, sources_list. rewrite Hcaps, Hst.
  assert (Ht : truthy (VDict st) = true)
    by (destruct st; [discriminate | reflexivity]).
  rewrite Ht. unfold last_reported, vget, get. rewrite Hp, Hr.
  assert (Htr : truthy (VDict reported) = true)
    by (destruct reported; [congruence | reflexivity]).
  rewrite Htr.
  pose proof (RebuildFacts.rebuild_loop_selects reported catalog [] [] Hok)
    as Hloop.
  unfold dict in *. rewrite Hloop, Hd. reflexivity.
Qed.

Lemma setup_rebuilds_capabilities_witness :
  fst (setup_rebuild (RebuildSpec.as_catalog sample_catalog) None
         open_appliance)
  = Appliance.with_data open_appliance
      (Some (library (Some [("executeCommand", command_info);
                            ("doorState", door_info);
                            ("networkInterface/linkQualityIndicator",
                             door_info)]))).
Proof.
  change None with (sources_list (library None)).
  rewrite (setup_rebuilds_capabilities sample_catalog open_appliance
             (library None)
             [("properties", VDict [("reported", VDict open_reported)])]
             [("reported", VDict open_reported)] open_reported);
    try reflexivity; discriminate.
Defined.

(** C5 as worded fails: every key of the reported state holds a truthy
    value, ["executeCommand"] is no key of it, and ["executeCommand"] is
    rebuilt. *)
Lemma rebuilt_keys_are_not_the_present_keys :
  RebuildSpec.values_truthy open_reported sample_catalog = true
  /\ map RebuildSpec.path_of
       (RebuildSpec.select_present open_reported sample_catalog)
     = ["doorState"; "networkInterface/linkQualityIndicator"]
  /\ snd (setup_rebuild (RebuildSpec.as_catalog sample_catalog) None
            open_appliance)
     = Ok (Some ["executeCommand"; "doorState";
                 "networkInterface/linkQualityIndicator"]).
Proof. repeat split. Qed.

(** Where a key of the catalog is present with a falsy value, the test of
    the loop, which is on the value, misses it: ["uiLockMode"] is reported
    as [False] and is not rebuilt. *)
Lemma present_falsy_key_is_not_rebuilt :
  RebuildSpec.key_present sample_reported None "uiLockMode" = true
  /\ snd (setup_rebuild (RebuildSpec.as_catalog sample_catalog) None
            sample_appliance)
     = Ok (Some ["executeCommand"; "doorState";
                 "networkInterface/linkQualityIndicator"]).
Proof. split; reflexivity. Qed.

(** ** Updates *)

Module Frame.
Import Appliance.

Section Keeps.
Context {X : Type} (f : t -> X).

Lemma keeps_ret {A} (a : A) : keeps f (ret a).
Proof. now intros self. Qed.

Lemma keeps_raise {A} (e : exn) : keeps f (@raise A e).
Proof. now intros self. Qed.

Lemma keeps_lift {A} (r : result A) : keeps f (lift r).
Proof. now intros self. Qed.

Lemma keeps_pure {A} (g : t -> result A) : keeps f (fun self => (self, g self)).
Proof. now intros self. Qed.

Lemma keeps_bind {A B} (m : M A) (k : A -> M B) :
  keeps f m -> (forall a, keeps f (k a)) -> keeps f (bindM m k).
Proof.
  intros Hm Hk self. unfold bindM.
  specialize (Hm self). destruct (m self) as [self' [a|e]]; simpl in *.
  - now rewrite Hk.
  - exact Hm.
Qed.

Lemma keeps_fold_M {A L} (body : L -> A -> M L) (xs : list A) :
  (forall loc x, keeps f (body loc x)) ->
  forall loc, keeps f (fold_M body loc xs).
Proof.
  intros Hb. induction xs as [|x xs IH]; intros loc; simpl.
  - apply keeps_ret.
  - apply keeps_bind; [apply Hb | intros; apply IH].
Qed.

End Keeps.

Lemma set_capability_keeps_state (path : string) (info : pyval) :
  keeps state (set_capability path info).
Proof.
  intros self. unfold set_capability.
  destruct (data self) as [d|]; [|reflexivity].
  now destruct (capabilities d).
Qed.

Lemma append_entity_keeps_state (e : ElectroluxEntity.t) :
  keeps state (append_entity e).
Proof. intros self. unfold append_entity. now destruct (entities self). Qed.

Lemma missing_step_keeps_state (Catalog : dict catalog_value)
    (reported : pyval) (key capability : string) (item : ElectroluxDevice.t) :
  keeps state (missing_step Catalog reported key capability item).
Proof.
  unfold missing_step.
  apply keeps_bind; [apply keeps_lift|]. intros present.
  destruct present; [|apply keeps_ret].
  apply keeps_bind; [apply keeps_pure|]. intros es.
  apply keeps_bind; [apply keeps_lift|]. intros found.
  destruct found.
  - apply keeps_bind; [apply set_capability_keeps_state|].
    intros; apply keeps_ret.
  - apply keeps_bind; [apply keeps_pure|]. intros [e|]; [|apply keeps_ret].
    apply keeps_bind; [apply append_entity_keeps_state|].
    intros; apply keeps_ret.
Qed.

Lemma update_missing_entities_keeps_state (Catalog : dict catalog_value) :
  keeps state (update_missing_entities Catalog).
Proof.
  intros self. unfold update_missing_entities.
  destruct (negb (own_capabilties self)); [reflexivity|].
  destruct (state self) as [|b|z|m ex|s|l|st] eqn:Est;
    try (simpl; exact Est).
  destruct (truthy (get st "properties" VNone)); [|exact Est].
  destruct (vget (get st "properties" VNone) "reported") as [reported|e];
    [|exact Est].
  destruct (truthy reported); [|exact Est].
  assert (H : keeps state (fold_M (missing_key Catalog reported) "" Catalog)).
  { apply keeps_fold_M. intros capability entry. unfold missing_key.
    apply keeps_bind; [apply keeps_lift|]. intros items.
    apply keeps_fold_M. intros; apply missing_step_keeps_state. }
  specialize (H self).
  destruct (fold_M (missing_key Catalog reported) "" Catalog self)
    as [self' [u|e]]; simpl in *; congruence.
Qed.

Lemma update_all_entities_keeps_state : keeps state update_all_entities.
Proof.
  intros self. unfold update_all_entities.
  destruct (entities self) as [es|]; [|reflexivity].
  now destruct (update_entities (state self) es).
Qed.

Lemma try_except_keeps {X : Type} (f : t -> X) (body : M unit) :
  (forall self, f (fst (body self)) = f (fst (try_except body self))).
Proof.
  intros self. unfold try_except. now destruct (body self) as [self' [u|e]].
Qed.

End Frame.

Lemma lookup_update {V : Type} (other : dict V) :
  forall (d : dict V) (k : string),
    NoDup (keys other) ->
    lookup (Py.update d other) k
    = match lookup other k with
      | Some v => Some v
      | None => lookup d k
      end.
Proof.
  induction other as [|[k0 v0] other IH]; intros d k Hnd; [reflexivity|].
  inversion Hnd as [|? ? Hnotin Hnd']; subst.
  unfold Py.update in *. cbn [fold_left fst snd lookup].
  rewrite IH by exact Hnd'.
  destruct (String.eqb k0 k) eqn:E.
  - apply String.eqb_eq in E. subst k.
    rewrite (lookup_not_in_keys other k0 Hnotin).
    apply lookup_set_same.
  - destruct (lookup other k); [reflexivity|].
    apply lookup_set_other. intros ->. now rewrite String.eqb_refl in E.
Qed.

Lemma merge_reported_state (reported_data : dict pyval) (self : Appliance.t)
    (st properties local : dict pyval) :
  Appliance.state self = VDict st ->
  lookup st "properties" = Some (VDict properties) ->
  lookup properties "reported" = Some (VDict local) ->
  merge_reported reported_data self
  = (Appliance.with_state self
       (VDict (set st "properties"
                 (VDict (set properties "reported"
                           (VDict (Py.update local reported_data)))))),
     Ok tt).
Proof.
  intros Hst Hp Hr. unfold merge_reported, get. now rewrite Hst, Hp, Hr.
Qed.

(** C7.  [update_reported_data] merges the incoming dictionary into the
    stored reported state: after the call each key of [reported_data] holds
    the incoming value, and every key of the stored reported state that is
    not in [reported_data] holds what it held before. *)
Theorem update_reported_data_merges
    (Catalog : dict catalog_value) (reported_data : dict pyval)
    (self : Appliance.t) (st properties local : dict pyval) :
  Appliance.state self = VDict st ->
  lookup st "properties" = Some (VDict properties) ->
  lookup properties "reported" = Some (VDict local) ->
  NoDup (keys reported_data) ->
  exists st' properties' local',
    Appliance.state (fst (update_reported_data Catalog reported_data self))
    = VDict st'
    /\ lookup st' "properties" = Some (VDict properties')
    /\ lookup properties' "reported" = Some (VDict local')
    /\ (forall k v, lookup reported_data k = Some v ->
                    lookup local' k = Some v)
    /\ (forall k, lookup reported_data k = None ->
                  lookup local' k = lookup local k).
Proof.
  intros Hst Hp Hr Hnd.
  exists (set st "properties"
            (VDict (set properties "reported"
                      (VDict (Py.update local reported_data))))),
         (set properties "reported" (VDict (Py.update local reported_data))),
         (Py.update local reported_data).
  repeat split.
  - unfold update_reported_data.
    rewrite <- (Frame.try_except_keeps Appliance.state).
    unfold Appliance.bindM at 1.
    rewrite (merge_reported_state reported_data self st properties local
               Hst Hp Hr).
    rewrite (Frame.keeps_bind Appliance.state
               (update_missing_entities Catalog) (fun _ => update_all_entities)
               (Frame.update_missing_entities_keeps_state Catalog)
               (fun _ => Frame.update_all_entities_keeps_state)).
    reflexivity.
  - apply lookup_set_same.
  - apply lookup_set_same.
  - intros k v Hk. rewrite lookup_update by exact Hnd. now rewrite Hk.
  - intros k Hk. rewrite lookup_update by exact Hnd. now rewrite Hk.
Qed.

Lemma update_reported_data_merges_witness :
  exists st' properties' local',
    Appliance.state
      (fst (update_reported_data (discovery_catalog None) door_opened
              (discovery_appliance false)))
    = VDict st'
    /\ lookup st' "properties" = Some (VDict properties')
    /\ lookup properties' "reported" = Some (VDict local')
    /\ (forall k v, lookup door_opened k = Some v -> lookup local' k = Some v)
    /\ (forall k, lookup door_opened k = None ->
                  lookup local' k
                  = lookup [("applianceState", VStr "RUNNING")] k).
Proof.
  apply (update_reported_data_merges (discovery_catalog None) door_opened
           (discovery_appliance false)
           [("properties",
             VDict [("reported", VDict [("applianceState", VStr "RUNNING")])])]
           [("reported", VDict [("applianceState", VStr "RUNNING")])]
           [("applianceState", VStr "RUNNING")]);
    try reflexivity.
  repeat constructor. simpl. tauto.
Defined.

(** C8.  [update_reported_data] never raises: whatever the incoming
    dictionary and whatever the appliance holds, the call returns
    normally. *)
Theorem update_reported_data_never_raises
    (Catalog : dict catalog_value) (reported_data : dict pyval)
    (self : Appliance.t) :
  snd (update_reported_data Catalog reported_data self) = Ok tt.
Proof.
  unfold update_reported_data, Appliance.try_except.
  now destruct (Appliance.bindM (merge_reported reported_data)
                  (fun _ => Appliance.bindM (update_missing_entities Catalog)
                              (fun _ => update_all_entities)) self)
    as [self' [u|e]].
Qed.

(** The handler is what makes it so: with no ["properties"] in the state
    the merge raises, with a catalog key that has no entity the re-scan
    raises. *)
Lemma update_reported_data_catches :
  snd (merge_reported door_opened
         (Appliance.init "Washer" "914550001" "AEG" "L7FEE" (VDict [])))
  = Raise AttributeError
  /\ snd (merge_and_rescan (discovery_catalog None) door_opened
            (discovery_appliance true))
     = Raise KeyError.
Proof. split; reflexivity. Qed.

(** C6 at an appliance that has an entity for ["applianceState"], when
    ["doorState"] appears in the reported state and the catalog knows it.
    With the catalog category [None] the re-scan raises [KeyError] and no
    entity is added; with the category [""] a second entity for
    ["applianceState"] is added; with single devices as catalog values the
    re-scan raises [TypeError]; with [own_capabilties] unset nothing is
    scanned.  In no case is there an entity for ["doorState"] afterwards. *)
Theorem rescan_adds_no_entity_for_new_key :
  snd (merge_and_rescan (discovery_catalog None) door_opened
         (discovery_appliance true)) = Raise KeyError
  /\ entity_attrs (fst (update_reported_data (discovery_catalog None)
                          door_opened (discovery_appliance true)))
     = ["applianceState"]
  /\ entity_attrs (fst (update_reported_data (discovery_catalog (Some ""))
                          door_opened (discovery_appliance true)))
     = ["applianceState"; "applianceState"]
  /\ snd (merge_and_rescan discovery_catalog_single door_opened
            (discovery_appliance true)) = Raise TypeError
  /\ entity_attrs (fst (update_reported_data discovery_catalog_single
                          door_opened (discovery_appliance true)))
     = ["applianceState"]
  /\ entity_attrs (fst (update_reported_data (discovery_catalog (Some ""))
                          door_opened (discovery_appliance false)))
     = ["applianceState"].
Proof. repeat split. Qed.

(** ** [sources_list] and the entities [setup] creates *)

Lemma key_startswith_iff (prefix : string) :
  forall key : string,
    key_startswith key prefix = true
    <-> exists rest : string, key = (prefix ++ rest)%string.
Proof.
  unfold key_startswith.
  induction prefix as [|a prefix IH]; intros key.
  - split; [intros _; now exists key | intros _; now destruct key].
  - destruct key as [|c key].
    + simpl. split; [discriminate | intros [rest H]; discriminate].
    + cbn [list_ascii_of_string startswith String.append].
      rewrite andb_true_iff, Ascii.eqb_eq, IH. split.
      * intros [-> [rest ->]]. now exists rest.
      * intros [rest H]. injection H as -> ->. split; [reflexivity|].
        now exists rest.
Qed.


Module SetupFacts.
Import Appliance SetupSpec.

Lemma bind_ok {A B} (m : result A) (k : A -> result B) (b : B) :
  bind m k = Ok b -> exists a, m = Ok a /\ k a = Ok b.
Proof. destruct m as [a|e]; simpl; [now exists a | discriminate]. Qed.

Lemma bindM_ok {A B} (m : M A) (k : A -> M B) (self self' : t) (b : B) :
  bindM m k self = (self', Ok b) ->
  exists self1 a, m self = (self1, Ok a) /\ k a self1 = (self', Ok b).
Proof.
  unfold bindM. destruct (m self) as [self1 [a|e]]; intros H.
  - now exists self1, a.
  - discriminate.
Qed.

Lemma fold_M_invariant {A L} (P : L -> Prop) (body : L -> A -> M L)
    (xs : list A) :
  (forall loc x self self' loc',
      In x xs -> P loc -> body loc x self = (self', Ok loc') -> P loc') ->
  forall loc self self' loc',
    P loc -> fold_M body loc xs self = (self', Ok loc') -> P loc'.
Proof.
  induction xs as [|x xs IH]; intros Hstep loc self self' loc' HP H.
  - simpl in H. unfold ret in H. now injection H as <- <-.
  - simpl in H. apply bindM_ok in H. destruct H as (self1 & loc1 & H1 & H2).
    apply (IH (fun loc x self self' loc' Hin =>
                 Hstep loc x self self' loc' (or_intror Hin))
              loc1 self1 self' loc'); [|exact H2].
    apply (Hstep loc x self self1 loc1); [now left | exact HP | exact H1].
Qed.

Section WithCatalog.
Variable Catalog : dict catalog_value.
Variable COMMON_ATTRIBUTES : list string.
Variable icon_mapping : dict string.

Lemma get_entity_of (self : t) (capability : string) (e : ElectroluxEntity.t) :
  get_entity Catalog self capability = Ok (Some e) -> entity_of capability e.
Proof.
  unfold get_entity. intros H.
  apply bind_ok in H. destruct H as (d & _ & H).
  apply bind_ok in H. destruct H as (entity_type & _ & H).
  apply bind_ok in H. destruct H as (caps & _ & H).
  apply bind_ok in H. destruct H as (capability_info & _ & H).
  apply bind_ok in H. destruct H as (device_class & _ & H).
  apply bind_ok in H. destruct H as (unit & _ & H).
  apply bind_ok in H. destruct H as (meta & _ & H).
  destruct entity_type as [[]|]; try discriminate;
    apply bind_ok in H; destruct H as (label & _ & H);
    injection H as <-; split; reflexivity.
Qed.

Lemma make_button_of (self : t) (d : ElectroluxLibraryEntity)
    (capability : string) (capability_info device_class : pyval)
    (commands : list string) :
  forall buttons,
    map_result (make_button icon_mapping self d (get_entity_name capability)
                  (get_category capability) capability_info device_class)
               commands = Ok buttons ->
    Forall (fun oe => exists e, oe = Some e /\ entity_of capability e) buttons.
Proof.
  induction commands as [|command commands IH]; intros buttons H.
  - injection H as <-. constructor.
  - simpl in H. apply bind_ok in H. destruct H as (b & Hb & H).
    apply bind_ok in H. destruct H as (bs & Hbs & H). injection H as <-.
    constructor; [|now apply IH].
    unfold make_button in Hb. apply bind_ok in Hb.
    destruct Hb as (label & _ & Hb). injection Hb as <-.
    eexists. split; [reflexivity|]. split; reflexivity.
Qed.

End WithCatalog.
End SetupFacts.

Module SetupFrame.
Import Appliance SetupSpec SetupFacts Frame.

Lemma same_origin_refl (a : option ElectroluxEntity.t) : same_origin a a.
Proof. destruct a; simpl; auto. Qed.

Lemma setup_entities_origin (es : list (option ElectroluxEntity.t)) :
  Forall2 same_origin es (fst (setup_entities es)).
Proof.
  induction es as [|[e|] es IH]; simpl.
  - constructor.
  - destruct (setup_entities es) as [es' r]. simpl in *.
    constructor; [now split | exact IH].
  - constructor; [exact I|].
    clear IH. induction es; constructor; auto using same_origin_refl.
Qed.

Lemma from_common_origin (COMMON_ATTRIBUTES : list string)
    (a b : option ElectroluxEntity.t) :
  same_origin a b -> from_common COMMON_ATTRIBUTES a ->
  from_common COMMON_ATTRIBUTES b.
Proof.
  destruct a as [x|], b as [y|]; simpl; try tauto.
  intros [Ha Hs] (ca & Hin & Hattr & Hsrc). exists ca. split; [exact Hin|].
  split; congruence.
Qed.

Lemma from_capability_origin (caps : dict pyval)
    (a b : option ElectroluxEntity.t) :
  same_origin a b -> from_capability caps a -> from_capability caps b.
Proof.
  intros Hab (e & c & -> & Hin & Hp & Hattr & Hsrc).
  destruct b as [y|]; simpl in Hab; [|tauto]. destruct Hab as [Ha Hs].
  exists y, c. repeat split; auto; congruence.
Qed.

Lemma Forall_origin (P : option ElectroluxEntity.t -> Prop)
    (xs ys : list (option ElectroluxEntity.t)) :
  (forall a b, same_origin a b -> P a -> P b) ->
  Forall2 same_origin xs ys -> Forall P xs -> Forall P ys.
Proof.
  intros HP H. induction H; intros Hxs; [constructor|].
  inversion Hxs; subst. constructor; eauto.
Qed.

Section WithCatalog.
Variable Catalog : dict catalog_value.
Variable COMMON_ATTRIBUTES : list string.
Variable icon_mapping : dict string.

Lemma set_capability_keeps_entities (path : string) (info : pyval) :
  keeps entities (set_capability path info).
Proof.
  intros self. unfold set_capability.
  destruct (data self) as [d|]; [|reflexivity].
  now destruct (capabilities d).
Qed.

Lemma common_step_keeps_entities (names : option (list string))
    (loc : locals) (ca : string) :
  keeps entities (common_step Catalog names loc ca).
Proof.
  unfold common_step.
  apply keeps_bind; [apply keeps_lift|]. intros ns.
  destruct (reported_in_capabilities ns _ _); [apply keeps_ret|].
  destruct (lookup Catalog (get_entity_name ca)) as [v|]; [|apply keeps_ret].
  destruct (catalog_truthy (Some v)); [|apply keeps_ret].
  apply keeps_bind; [apply keeps_lift|]. intros info.
  apply keeps_bind; [apply set_capability_keeps_entities|]. intros _.
  apply keeps_bind; [apply keeps_pure|]. intros; apply keeps_ret.
Qed.

Lemma enrich_keeps_entities (capability : string) (capability_info : pyval)
    (catalog_item : option catalog_value) :
  keeps entities (enrich capability capability_info catalog_item).
Proof.
  unfold enrich.
  destruct catalog_item as [v|]; [|apply keeps_ret].
  destruct (catalog_truthy (Some v)); [|apply keeps_ret].
  destruct (is_none capability_info).
  - apply keeps_bind; [apply keeps_lift|]. intros info.
    apply keeps_bind; [apply keeps_lift|]. intros; apply keeps_ret.
  - apply keeps_bind; [apply keeps_lift|]. intros cinfo.
    apply keeps_bind.
    + destruct (truthy cinfo); [|apply keeps_ret].
      destruct cinfo as [|b|z|m ex|s|l|[|kv items]];
        try apply keeps_raise; try apply keeps_ret.
      destruct capability_info as [|b|z|m ex|s|l|ci];
        try apply keeps_raise.
      apply keeps_bind; [apply set_capability_keeps_entities|].
      intros; apply keeps_ret.
    + intros merged. apply keeps_bind; [apply keeps_lift|].
      intros; apply keeps_ret.
Qed.

Lemma capability_step_keeps_entities
    (catalog_item : option (option catalog_value))
    (acc : list (option ElectroluxEntity.t)) (capability : string) :
  keeps entities
    (capability_step Catalog icon_mapping catalog_item acc capability).
Proof.
  unfold capability_step.
  apply keeps_bind; [apply keeps_pure|]. intros d.
  apply keeps_bind; [apply keeps_lift|]. intros caps.
  apply keeps_bind; [apply keeps_lift|]. intros capability_info.
  apply keeps_bind; [apply keeps_lift|]. intros item.
  apply keeps_bind; [apply enrich_keeps_entities|]. intros enriched.
  destruct (String.eqb capability "executeCommand").
  - apply keeps_bind; [apply keeps_lift|]. intros commands_keys.
    apply keeps_bind; [|intros; apply keeps_ret].
    now intros self.
  - apply keeps_bind; [apply keeps_pure|].
    intros [e|]; apply keeps_ret.
Qed.

Lemma common_step_appends (names : option (list string)) (loc loc' : locals)
    (ca : string) (self self' : t) :
  In ca COMMON_ATTRIBUTES ->
  Forall (from_common COMMON_ATTRIBUTES) (l_entities loc) ->
  common_step Catalog names loc ca self = (self', Ok loc') ->
  Forall (from_common COMMON_ATTRIBUTES) (l_entities loc').
Proof.
  intros Hin HP H. unfold common_step in H.
  apply bindM_ok in H. destruct H as (self1 & ns & _ & H).
  destruct (reported_in_capabilities ns _ _);
    [unfold ret in H; now injection H as <- <-|].
  destruct (lookup Catalog (get_entity_name ca)) as [v|];
    [|unfold ret in H; now injection H as <- <-].
  destruct (catalog_truthy (Some v));
    [|unfold ret in H; now injection H as <- <-].
  apply bindM_ok in H. destruct H as (self2 & info & _ & H).
  apply bindM_ok in H. destruct H as (self3 & u & _ & H).
  apply bindM_ok in H. destruct H as (self4 & entity & He & H).
  unfold ret in H. injection H as <- <-. simpl.
  apply Forall_app. split; [exact HP|]. constructor; [|constructor].
  destruct entity as [e|]; simpl; [|exact I].
  exists ca. split; [exact Hin|].
  unfold call_get_entity in He. injection He as <- He.
  now apply (get_entity_of Catalog self3).
Qed.

Lemma capability_step_appends (caps : dict pyval)
    (catalog_item : option (option catalog_value))
    (init acc acc' : list (option ElectroluxEntity.t)) (capability : string)
    (self self' : t) :
  In capability (keys caps) ->
  key_startswith capability care_prefix = false ->
  (exists regs, acc = init ++ regs /\ Forall (from_capability caps) regs) ->
  capability_step Catalog icon_mapping catalog_item acc capability self
  = (self', Ok acc') ->
  exists regs, acc' = init ++ regs /\ Forall (from_capability caps) regs.
Proof.
  intros Hin Hp (regs & -> & Hregs) H. unfold capability_step in H.
  apply bindM_ok in H. destruct H as (self1 & d & _ & H).
  apply bindM_ok in H. destruct H as (self2 & cs & _ & H).
  apply bindM_ok in H. destruct H as (self3 & capability_info & _ & H).
  apply bindM_ok in H. destruct H as (self4 & item & _ & H).
  apply bindM_ok in H. destruct H as (self5 & enriched & _ & H).
  destruct (String.eqb capability "executeCommand").
  - apply bindM_ok in H. destruct H as (self6 & commands_keys & _ & H).
    apply bindM_ok in H. destruct H as (self7 & buttons & Hb & H).
    unfold ret in H. injection H as <- <-. injection Hb as <- Hb.
    exists (regs ++ buttons). split; [now rewrite app_assoc|].
    apply Forall_app. split; [exact Hregs|].
    apply make_button_of in Hb.
    eapply Forall_impl; [|exact Hb]. intros oe (e & -> & He).
    now exists e, capability.
  - apply bindM_ok in H. destruct H as (self6 & entity & He & H).
    unfold call_get_entity in He. injection He as <- He.
    destruct entity as [e|]; unfold ret in H; injection H as <- <-.
    + exists (regs ++ [Some e]). split; [now rewrite app_assoc|].
      apply Forall_app. split; [exact Hregs|]. constructor; [|constructor].
      exists e, capability. repeat split; auto;
        now apply (get_entity_of Catalog self5).
    + now exists regs.
Qed.

End WithCatalog.
End SetupFrame.

Lemma setup_entities_split
    (Catalog : dict catalog_value) (COMMON_ATTRIBUTES : list string)
    (icon_mapping : dict string) (d : ElectroluxLibraryEntity)
    (caps : dict pyval) (self : Appliance.t) :
  capabilities d = Some caps ->
  exists commons regulars,
    Appliance.entities
      (fst (setup Catalog COMMON_ATTRIBUTES icon_mapping d self))
    = Some (commons ++ regulars)
    /\ Forall (SetupSpec.from_common COMMON_ATTRIBUTES) commons
    /\ Forall (SetupSpec.from_capability caps) regulars.
Proof.
  intros Hcaps.
  assert (Hnames : forall c,
             In c (filter (fun key => negb (key_startswith key care_prefix))
                          (keys caps)) ->
             In c (keys caps) /\ key_startswith c care_prefix = false).
  { intros c Hc. apply filter_In in Hc. destruct Hc as [Hin Hn].
    split; [exact Hin | now apply negb_true_iff]. }
  unfold setup, sources_list. rewrite Hcaps.
  unfold Appliance.bindM at 1. cbn [Appliance.write].
  set (self0 := Appliance.with_entities
                  (Appliance.with_data self (Some d)) (Some [])).
  unfold Appliance.bindM at 1. cbn [setup_rebuild].
  set (names := filter (fun key => negb (key_startswith key care_prefix))
                       (keys caps)) in *.
  unfold Appliance.bindM at 1.
  pose proof (Frame.keeps_fold_M Appliance.entities
                (common_step Catalog (Some names)) COMMON_ATTRIBUTES
                (SetupFrame.common_step_keeps_entities Catalog (Some names))
                {| l_entities := []; l_catalog_item := None |} self0) as Hk1.
  fold (setup_common Catalog COMMON_ATTRIBUTES (Some names)) in Hk1.
  destruct (setup_common Catalog COMMON_ATTRIBUTES (Some names) self0)
    as [self1 [loc|e]] eqn:E1; simpl in Hk1.
  2:{ exists [], []. simpl. rewrite Hk1. repeat split; constructor. }
  assert (Hcommon : Forall (SetupSpec.from_common COMMON_ATTRIBUTES)
                      (l_entities loc)).
  { unfold setup_common in E1.
    refine (SetupFacts.fold_M_invariant
              (fun loc => Forall (SetupSpec.from_common COMMON_ATTRIBUTES)
                            (l_entities loc))
              (common_step Catalog (Some names)) COMMON_ATTRIBUTES
              _ _ _ _ _ _ E1); [|constructor].
    intros loc0 x s s' loc' Hin HP H.
    exact (SetupFrame.common_step_appends Catalog COMMON_ATTRIBUTES
             (Some names) loc0 loc' x s s' Hin HP H). }
  unfold Appliance.bindM at 1.
  unfold setup_capabilities at 1. unfold Appliance.bindM at 1.
  cbn [iterable Appliance.lift].
  pose proof (Frame.keeps_fold_M Appliance.entities
                (capability_step Catalog icon_mapping (l_catalog_item loc))
                names
                (SetupFrame.capability_step_keeps_entities Catalog
                   icon_mapping (l_catalog_item loc))
                (l_entities loc) self1) as Hk2.
  destruct (fold_M (capability_step Catalog icon_mapping (l_catalog_item loc))
              (l_entities loc) names self1) as [self2 [ents|e]] eqn:E2;
    simpl in Hk2.
  2:{ exists [], []. simpl. rewrite Hk2, Hk1. repeat split; constructor. }
  assert (Hregs : exists regs,
             ents = l_entities loc ++ regs
             /\ Forall (SetupSpec.from_capability caps) regs).
  { refine (SetupFacts.fold_M_invariant
              (fun acc => exists regs,
                   acc = l_entities loc ++ regs
                   /\ Forall (SetupSpec.from_capability caps) regs)
              (capability_step Catalog icon_mapping (l_catalog_item loc))
              names _ _ _ _ _ _ E2).
    - intros acc x s s' acc' Hin HP H.
      destruct (Hnames x Hin) as [Hkey Hpre].
      exact (SetupFrame.capability_step_appends Catalog icon_mapping caps
               (l_catalog_item loc) (l_entities loc) acc acc' x s s'
               Hkey Hpre HP H).
    - exists []. split; [now rewrite app_nil_r | constructor]. }
  destruct Hregs as (regs & -> & Hregs).
  pose proof (SetupFrame.setup_entities_origin (l_entities loc ++ regs))
    as Horigin.
  destruct (setup_entities (l_entities loc ++ regs)) as [entities' r].
  simpl in *.
  apply Forall2_app_inv_l in Horigin.
  destruct Horigin as (commons & regulars & Hc & Hr & ->).
  exists commons, regulars. repeat split.
  - exact (SetupFrame.Forall_origin _ _ _
             (SetupFrame.from_common_origin COMMON_ATTRIBUTES) Hc Hcommon).
  - exact (SetupFrame.Forall_origin _ _ _
             (SetupFrame.from_capability_origin caps) Hr Hregs).
Qed.

(** C10, as the code has it.  [sources_list] returns [None] when the
    capabilities dictionary is [None]; otherwise it returns, in their
    order, exactly the keys of the dictionary that do not start with
    ["applianceCareAndMaintenance"].  Consequently, where there is such a
    dictionary (not where [setup] rebuilds it from the catalog), the
    entities [setup] leaves in the
    appliance are those of the loop over the common attributes followed by
    those of the loop over the capabilities, and each of the latter is the
    entity of a key that does not start with
    ["applianceCareAndMaintenance"]. *)
Theorem sources_list_skips_care_and_maintenance :
  (forall self, capabilities self = None -> sources_list self = None)
  /\ (forall self caps,
        capabilities self = Some caps ->
        exists names,
          sources_list self = Some names
          /\ names = filter (fun key => negb (key_startswith key care_prefix))
                            (keys caps)
          /\ forall key,
               In key names
               <-> In key (keys caps)
                   /\ ~ exists rest, key = (care_prefix ++ rest)%string)
  /\ (forall Catalog COMMON_ATTRIBUTES icon_mapping d caps self,
        capabilities d = Some caps ->
        exists commons regulars,
          Appliance.entities
            (fst (setup Catalog COMMON_ATTRIBUTES icon_mapping d self))
          = Some (commons ++ regulars)
          /\ Forall (SetupSpec.from_common COMMON_ATTRIBUTES) commons
          /\ Forall (SetupSpec.from_capability caps) regulars).
Proof.
  split; [|split].
  - intros self H. unfold sources_list. now rewrite H.
  - intros self caps H. unfold sources_list. rewrite H.
    eexists. split; [reflexivity|]. split; [reflexivity|].
    intros key. rewrite filter_In, negb_true_iff.
    rewrite <- key_startswith_iff.
    destruct (key_startswith key care_prefix); split; intros [H1 H2];
      split; auto; congruence.
  - intros. now apply setup_entities_split.
Qed.

Lemma sources_list_skips_care_and_maintenance_witness :
  exists names,
    sources_list
      (library (Some [("applianceState", door_info);
                      ("applianceCareAndMaintenance0/unit", door_info);
                      ("doorState", door_info)]))
    = Some names
    /\ names = ["applianceState"; "doorState"].
Proof.
  destruct (proj1 (proj2 sources_list_skips_care_and_maintenance)
              (library (Some [("applianceState", door_info);
                              ("applianceCareAndMaintenance0/unit", door_info);
                              ("doorState", door_info)]))
              [("applianceState", door_info);
               ("applianceCareAndMaintenance0/unit", door_info);
               ("doorState", door_info)]
              eq_refl) as (names & Hs & Hn & _).
  exists names. split; [exact Hs | rewrite Hn; reflexivity].
Defined.

(** C10 without its condition fails: with the capabilities dictionary
    [None], [sources_list] returns [None], [setup] rebuilds the capabilities
    from the catalog, which nothing filters, and creates a sensor for
    ["applianceCareAndMaintenance0/unit"]. *)
Lemma setup_rebuilds_care_and_maintenance_entity :
  sources_list (library None) = None
  /\ key_startswith "applianceCareAndMaintenance0/unit" care_prefix = true
  /\ match setup care_catalog ["connectivityState"] [] (library None)
             care_appliance with
     | (self, Ok _) =>
         match Appliance.entities self with
         | Some [Some e] =>
             ElectroluxEntity.entity_type e = SENSOR
             /\ ElectroluxEntity.entity_attr e = "unit"
             /\ ElectroluxEntity.entity_source e
                = "applianceCareAndMaintenance0"
         | _ => False
         end
     | (_, Raise _) => False
     end.
Proof.
  split; [reflexivity|]. split; [reflexivity|].
  vm_compute. repeat split.
Qed.

(* ================================================================== *)
(** * Further properties *)

(** ** Identifiers, categories and names *)

Module PathFacts.
Import NameSpec NameFacts.

Lemma str_app (a b : string) : str (a ++ b)%string = str a ++ str b.
Proof. induction a as [|c a IH]; simpl; [reflexivity | now rewrite IH]. Qed.

Lemma of_chars_app (a b : chars) :
  string_of_list_ascii (a ++ b)
  = (string_of_list_ascii a ++ string_of_list_ascii b)%string.
Proof. induction a as [|c a IH]; simpl; [reflexivity | now rewrite IH]. Qed.

Lemma rsplit_slash_none (t : chars) :
  forallb not_slash t = true -> rsplit_slash t = None.
Proof.
  induction t as [|c t IH]; simpl; [reflexivity|]. intros H.
  apply andb_true_iff in H. destruct H as [Hc Ht]. rewrite (IH Ht).
  unfold not_slash in Hc. apply negb_true_iff in Hc. now rewrite Hc.
Qed.

Lemma rsplit_slash_last (h t : chars) :
  forallb not_slash t = true ->
  rsplit_slash (h ++ "/"%char :: t) = Some (h, t).
Proof.
  intros Ht. induction h as [|c h IH]; simpl.
  - now rewrite (rsplit_slash_none t Ht).
  - now rewrite IH.
Qed.

Lemma names_without_slash (key : string) :
  FurtherSpec.no_slash key = true ->
  get_entity_name key = key /\ get_category key = "".
Proof.
  unfold FurtherSpec.no_slash, get_entity_name, get_category, last_part,
    rpartition.
  intros H. rewrite (rsplit_slash_none _ H). simpl.
  split; [|reflexivity].
  destruct (str key) eqn:E; rewrite <- E;
    apply string_of_list_ascii_of_string.
Qed.

Lemma names_with_slash (category key : string) :
  key <> "" ->
  FurtherSpec.no_slash key = true ->
  get_entity_name (category ++ "/" ++ key) = key
  /\ get_category (category ++ "/" ++ key) = category.
Proof.
  unfold FurtherSpec.no_slash, get_entity_name, get_category, last_part,
    rpartition.
  intros Hne H. rewrite str_app.
  change (str ("/" ++ key)%string) with ("/"%char :: str key).
  rewrite (rsplit_slash_last _ _ H). simpl.
  split; [|apply string_of_list_ascii_of_string].
  destruct (str key) eqn:E.
  - destruct key; [congruence | discriminate].
  - rewrite <- E. apply string_of_list_ascii_of_string.
Qed.

End PathFacts.

(** X1.  The path under which [setup] rebuilds a catalog entry, and the path
    under which the re-scan stores one, decode to the entry's key and
    category: for a non-empty key without ["/"], [get_entity_name] gives the
    key back and [get_category] gives the category (the empty string where
    there is none). *)
Theorem catalog_paths_decode (category : option string) (key : string) :
  key <> "" ->
  FurtherSpec.no_slash key = true ->
  get_entity_name (rebuilt_path category key) = key
  /\ get_category (rebuilt_path category key)
     = match category with Some c => c | None => "" end
  /\ get_entity_name (found_path category key) = key
  /\ get_category (found_path category key)
     = match category with Some c => c | None => "" end.
Proof.
  intros Hne Hs.
  destruct (PathFacts.names_without_slash key Hs) as [Hn Hc].
  destruct category as [c|]; simpl.
  - destruct (PathFacts.names_with_slash c key Hne Hs) as [Hn' Hc'].
    unfold rebuilt_path. simpl.
    destruct (String.eqb c "") eqn:E; simpl.
    + apply String.eqb_eq in E. subst c. repeat split; auto.
    + repeat split; auto.
  - repeat split; auto.
Qed.

Lemma catalog_paths_decode_witness :
  get_entity_name (rebuilt_path (Some "networkInterface") "linkQualityIndicator")
  = "linkQualityIndicator"
  /\ get_category (rebuilt_path (Some "networkInterface") "linkQualityIndicator")
     = "networkInterface".
Proof.
  destruct (catalog_paths_decode (Some "networkInterface")
              "linkQualityIndicator") as (H1 & H2 & _);
    [discriminate | reflexivity | split; assumption].
Defined.

(** X2.  [get_category] and [get_entity_name] split an identifier without
    losing anything: either the name is the whole identifier (no ["/"], or
    nothing after the last one), or category, ["/"] and name put together
    are the identifier. *)
Theorem category_and_name_recompose (attr_name : string) :
  get_entity_name attr_name = attr_name
  \/ (get_category attr_name ++ "/" ++ get_entity_name attr_name)%string
     = attr_name.
Proof.
  unfold get_entity_name, get_category, last_part, rpartition.
  pose proof (NameFacts.rsplit_slash_spec (str attr_name)) as H.
  destruct (rsplit_slash (str attr_name)) as [[h t]|]; simpl.
  - destruct H as [E _]. destruct t as [|c t].
    + left. apply string_of_list_ascii_of_string.
    + right. rewrite <- (string_of_list_ascii_of_string attr_name), E.
      rewrite PathFacts.of_chars_app. reflexivity.
  - left. destruct (str attr_name) eqn:E; rewrite <- E;
      apply string_of_list_ascii_of_string.
Qed.

(** ** [get_sensor_name] on every identifier *)

Module LabelFacts.
Import NameSpec NameFacts FurtherSpec.

Lemma index_in_range (s : chars) (j : Z) :
  (- Z.of_nat (length s) <= j < Z.of_nat (length s))%Z ->
  exists c, index s j = Ok c.
Proof.
  intros Hj. unfold index.
  set (n := Z.of_nat (length s)) in *.
  set (k := if (j <? 0)%Z then (n + j)%Z else j).
  assert (Hk : (0 <= k < n)%Z).
  { unfold k. destruct (j <? 0)%Z eqn:E.
    - apply Z.ltb_lt in E. lia.
    - apply Z.ltb_ge in E. lia. }
  assert (Hb : ((0 <=? k) && (k <? n))%Z = true).
  { apply andb_true_iff. split; [apply Z.leb_le | apply Z.ltb_lt]; lia. }
  rewrite Hb. destruct (nth_error s (Z.to_nat k)) eqn:E; [eauto|].
  apply nth_error_None in E. unfold n in Hk. lia.
Qed.

Lemma split_at (s : chars) (i : nat) :
  i < length s ->
  exists c, index s (Z.of_nat i) = Ok c /\ skipn i s = c :: skipn (S i) s.
Proof.
  intros Hi.
  assert (Hs : s = firstn i s ++ skipn i s) by (symmetry; apply firstn_skipn).
  assert (Hl : length (firstn i s) = i) by (rewrite length_firstn; lia).
  remember (firstn i s) as a eqn:Ea. clear Ea.
  destruct (skipn i s) as [|c r] eqn:E.
  - rewrite app_nil_r in Hs. subst a. lia.
  - exists c. subst i. split.
    + rewrite Hs. apply index_middle.
    + f_equal. rewrite Hs, skipn_app.
      rewrite skipn_all2 by lia.
      replace (S (length a) - length a) with 1 by lia. reflexivity.
Qed.

Lemma inside_caps_run_ok (s : chars) (i : nat) (char : ascii) :
  i < length s -> exists b, inside_caps_run s i char = Ok b.
Proof.
  intros Hi. unfold inside_caps_run.
  destruct (isupper char || isdigit char); [|eauto].
  destruct (index_in_range s (Z.of_nat i - 1)) as [prev Hp]; [lia|].
  rewrite Hp. cbn [bind].
  destruct (isupper prev || isdigit prev); [|eauto].
  destruct (Z.of_nat i =? Z.of_nat (length s) - 1)%Z eqn:E; [eauto|].
  apply Z.eqb_neq in E.
  destruct (index_in_range s (Z.of_nat i + 1)) as [next Hn]; [lia|].
  rewrite Hn. cbn [bind]. eauto.
Qed.

Lemma starts_word_ok (s : chars) (i : nat) (char : ascii) :
  i < length s -> exists b, starts_word s i char = Ok b.
Proof.
  intros Hi. unfold starts_word.
  destruct (isupper char || isdigit char); [|eauto].
  destruct (index_in_range s (Z.of_nat i - 1)) as [prev Hp]; [lia|].
  rewrite Hp. cbn [bind]. eauto.
Qed.

Lemma lw_app (a b : chars) : lw (a ++ b) = lw a ++ lw b.
Proof.
  unfold lw, without_spaces, lower. now rewrite filter_app, map_app.
Qed.

Lemma lower_char_facts (c : ascii) :
  Ascii.eqb (lower_char c) " " = Ascii.eqb c " "
  /\ lower_char (lower_char c) = lower_char c.
Proof. destruct c as [[] [] [] [] [] [] [] []]; split; reflexivity. Qed.

Lemma lw_lower (g : chars) : lw (lower g) = lw g.
Proof.
  unfold lw, without_spaces, lower.
  induction g as [|c g IH]; simpl; [reflexivity|].
  destruct (lower_char_facts c) as [Hs Hl]. rewrite Hs.
  destruct (Ascii.eqb c " "); simpl; [exact IH|]. now rewrite Hl, IH.
Qed.

Lemma lw_normalize (g : chars) : lw (normalize g) = lw g.
Proof.
  unfold normalize. destruct (re_match_caps g); [reflexivity | apply lw_lower].
Qed.

Lemma lw_join (ws : list chars) : lw (join " " ws) = lw (concat ws).
Proof.
  induction ws as [|w ws IH]; [reflexivity|].
  destruct ws as [|w' ws].
  - simpl. now rewrite app_nil_r.
  - change (join " " (w :: w' :: ws)) with (w ++ " "%char :: join " " (w' :: ws)).
    change (concat (w :: w' :: ws)) with (w ++ concat (w' :: ws)).
    rewrite !lw_app. f_equal.
    change (" "%char :: join " " (w' :: ws))
      with ([" "%char] ++ join " " (w' :: ws)).
    rewrite lw_app, IH. reflexivity.
Qed.

Lemma concat_snoc (ws : list chars) (g : chars) :
  concat (ws ++ [g]) = concat ws ++ g.
Proof. rewrite concat_app. simpl. now rewrite app_nil_r. Qed.

Lemma loop_body_chars (s : chars) (st : loop_state) (i : nat) :
  i < length s ->
  exists c st',
    skipn i s = c :: skipn (S i) s
    /\ loop_body s st i = Ok st'
    /\ sig st' = sig st ++ lw [c].
Proof.
  intros Hi. destruct (split_at s i Hi) as (c & Hc & Hsk).
  exists c. unfold loop_body. rewrite Hc. cbn [bind].
  destruct st as [g ws]. cbn [group words].
  destruct g as [|g0 g].
  - eexists. split; [exact Hsk|]. split; [reflexivity|].
    unfold sig. cbn [group words]. now rewrite app_nil_r, lw_app.
  - destruct (Ascii.eqb c " ") eqn:Esp.
    + cbn [andb length Nat.ltb Nat.leb].
      eexists. split; [exact Hsk|]. split; [reflexivity|].
      apply Ascii.eqb_eq in Esp. subst c.
      unfold sig. cbn [group words].
      rewrite concat_snoc, app_nil_r.
      change (lw [" "%char]) with (@nil ascii). now rewrite app_nil_r.
    + cbn [andb].
      destruct (inside_caps_run_ok s i c Hi) as [b1 H1]. rewrite H1.
      cbn [bind].
      destruct (starts_word_ok s i c Hi) as [b2 H2].
      destruct b1; [|rewrite H2; cbn [bind]; destruct b2].
      * eexists. split; [exact Hsk|]. split; [reflexivity|].
        unfold sig. cbn [group words]. now rewrite app_assoc, lw_app.
      * eexists. split; [exact Hsk|]. split; [reflexivity|].
        unfold sig. cbn [group words].
        rewrite concat_snoc, !lw_app, lw_normalize. reflexivity.
      * eexists. split; [exact Hsk|]. split; [reflexivity|].
        unfold sig. cbn [group words]. now rewrite app_assoc, lw_app.
Qed.

Lemma loop_chars (s : chars) :
  forall (k i : nat) (st : loop_state),
    i + k = length s ->
    exists st',
      loop s st (seq i k) = Ok st' /\ sig st' = sig st ++ lw (skipn i s).
Proof.
  induction k as [|k IH]; intros i st Hik.
  - exists st. split; [reflexivity|].
    rewrite skipn_all2 by lia. unfold lw. simpl. now rewrite app_nil_r.
  - cbn [seq loop].
    destruct (loop_body_chars s st i) as (c & st1 & Hsk & Hb & Hs); [lia|].
    rewrite Hb. cbn [bind].
    destruct (IH (S i) st1) as (st' & Hl & Hs'); [lia|].
    exists st'. split; [exact Hl|].
    rewrite Hs', Hs, Hsk, <- app_assoc.
    change (c :: skipn (S i) s) with ([c] ++ skipn (S i) s).
    now rewrite lw_app.
Qed.

Lemma upper_char_lw (c : ascii) (r : chars) :
  lw (replace "_" " " (upper_char c :: r)) = lw (replace "_" " " (c :: r)).
Proof.
  unfold lw, without_spaces, lower, replace.
  destruct c as [[] [] [] [] [] [] [] []]; reflexivity.
Qed.

(** What [get_sensor_name] does with a non-empty identifier. *)
Lemma get_sensor_name_chars_total (attr_name : chars) :
  attr_name <> [] ->
  exists label,
    get_sensor_name_chars attr_name = Ok label
    /\ lw label = lw (replace "_" " " (segment attr_name)).
Proof.
  intros Hne. unfold get_sensor_name_chars. rewrite last_part_segment.
  pose proof (segment_nonempty attr_name Hne) as Hs.
  destruct (segment attr_name) as [|c0 rest]; [congruence|].
  change (index (c0 :: rest) 0) with (Ok c0 : result ascii).
  cbn [bind skipn].
  set (s := replace "_" " " (upper_char c0 :: rest)).
  destruct (loop_chars s (length s) 0 {| group := []; words := [] |} eq_refl)
    as (st & Hl & Hsig).
  rewrite Hl. cbn [bind]. eexists. split; [reflexivity|].
  rewrite lw_join.
  assert (Hfinal :
    lw (concat (if (0 <? length (group st))%nat
                then words st ++ [normalize (group st)]
                else words st)) = sig st).
  { unfold sig. destruct (group st) as [|g0 g]; simpl length.
    - cbn. now rewrite app_nil_r.
    - cbn [Nat.ltb Nat.leb]. rewrite concat_snoc, !lw_app, lw_normalize.
      reflexivity. }
  etransitivity; [exact Hfinal|].
  rewrite Hsig. unfold sig. cbn [group words concat app skipn].
  unfold s. apply upper_char_lw.
Qed.

End LabelFacts.

(** X3.  [get_sensor_name] raises [IndexError] on the empty identifier and
    returns a label for every other one. *)
Theorem get_sensor_name_raises_only_on_empty (attr_name : string) :
  (attr_name = "" /\ get_sensor_name attr_name = Raise IndexError)
  \/ (attr_name <> "" /\ exists label, get_sensor_name attr_name = Ok label).
Proof.
  destruct attr_name as [|c rest]; [left; split; reflexivity|].
  right. split; [discriminate|].
  destruct (LabelFacts.get_sensor_name_chars_total (str (String c rest)))
    as (label & Hl & _); [discriminate|].
  exists (string_of_list_ascii label). unfold get_sensor_name.
  now rewrite Hl.
Qed.

(** X4.  For a non-empty ASCII identifier, the label keeps the characters
    of the identifier's last part in their order: with its spaces taken out
    and in lower case, the label is the last part with its underscores and
    spaces taken out, in lower case. *)
Theorem get_sensor_name_keeps_characters (attr_name : string) :
  attr_name <> "" ->
  is_ascii (str attr_name) = true ->
  exists label,
    get_sensor_name attr_name = Ok label
    /\ lower (FurtherSpec.without_spaces (str label))
       = lower (FurtherSpec.without_spaces
                  (replace "_" " " (NameSpec.segment (str attr_name)))).
Proof.
  intros Hne _.
  destruct (LabelFacts.get_sensor_name_chars_total (str attr_name))
    as (label & Hl & Hlw).
  - destruct attr_name; [congruence | discriminate].
  - exists (string_of_list_ascii label). unfold get_sensor_name.
    rewrite Hl. split; [reflexivity|].
    rewrite list_ascii_of_string_of_list_ascii. exact Hlw.
Qed.

Lemma get_sensor_name_keeps_characters_witness :
  exists label,
    get_sensor_name "userSelections/target_temperatureC" = Ok label
    /\ lower (FurtherSpec.without_spaces (str label))
       = str "targettemperaturec".
Proof.
  destruct (get_sensor_name_keeps_characters
              "userSelections/target_temperatureC") as (label & Hl & Hc);
    [discriminate | reflexivity |].
  exists label. split; [exact Hl|]. rewrite Hc. reflexivity.
Defined.

(** ** [get_sensor_name_old] *)

Module OldNameFacts.
Import NameSpec NameFacts FurtherSpec.

Lemma upper_not_lower (c : ascii) : isupper c = true -> islower c = false.
Proof.
  unfold isupper, islower. intros H.
  apply andb_true_iff in H. destruct H as [H1 H2].
  apply Nat.leb_le in H1. apply Nat.leb_le in H2.
  apply andb_false_iff. left. apply Nat.leb_gt. lia.
Qed.

Lemma lower_not_upper_digit (c : ascii) :
  islower c = true -> isupper c = false /\ isdigit c = false.
Proof.
  intros H. apply lower_not_caps in H. unfold caps_or_digit in H.
  now apply orb_false_iff in H.
Qed.

Lemma upper_char_facts (c : ascii) :
  islower (upper_char c) = false
  /\ upper_char (lower_char c) = upper_char c.
Proof. destruct c as [[] [] [] [] [] [] [] []]; split; reflexivity. Qed.

Lemma letter_plain (c : ascii) :
  isupper c || islower c = true -> plain_char c = true.
Proof.
  destruct c as [[] [] [] [] [] [] [] []]; intros H; try reflexivity;
    discriminate H.
Qed.

Lemma camel_plain (s : chars) : camel s = true -> forallb plain_char s = true.
Proof.
  induction s as [|c s IH]; [reflexivity|].
  cbn [camel forallb]. intros H. apply andb_true_iff in H.
  destruct H as [Hc Hs]. rewrite (IH Hs), andb_true_r.
  apply letter_plain. destruct (isupper c); [reflexivity | exact Hc].
Qed.

(** On such text the matches of the old pattern are the groups of the new
    loop; a run of lower-case letters in front is the first group. *)
Lemma scan_caps_groups (s : chars) :
  camel s = true ->
  match s with
  | [] => True
  | c :: _ =>
      if isupper c then scan_caps s = ([], split_groups s)
      else exists g gs, split_groups s = g :: gs /\ scan_caps s = (g, gs)
  end.
Proof.
  destruct s as [|c s]; [trivial|]. revert c.
  induction s as [|d s IH]; intros c Hc.
  - cbn. destruct (isupper c); [reflexivity|]. now exists [c], [].
  - cbn [camel] in Hc. apply andb_true_iff in Hc. destruct Hc as [Hcd Hs].
    specialize (IH d Hs). rewrite split_groups_step.
    change (scan_caps (c :: d :: s))
      with (let (run, found) := scan_caps (d :: s) in
            if isupper c then ([], (c :: run) :: found)
            else (c :: run, found)).
    unfold boundary.
    destruct (isupper c) eqn:Ec.
    + rewrite (upper_not_lower c Ec). cbn [andb].
      destruct (lower_not_upper_digit d Hcd) as [Hd _]. rewrite Hd in IH.
      destruct IH as (g & gs & Hg & Hscan). now rewrite Hscan, Hg.
    + rewrite Hcd. cbn [andb].
      destruct (isupper d) eqn:Ed.
      * cbn [orb]. rewrite IH. now exists [c], (split_groups (d :: s)).
      * destruct IH as (g & gs & Hg & Hscan). rewrite Hscan, Hg.
        assert (Hdl : islower d = true).
        { change (camel (d :: s))
            with ((if isupper d
                   then match s with
                        | next :: _ => islower next
                        | [] => true
                        end
                   else islower d) && camel s) in Hs.
          apply andb_true_iff in Hs. destruct Hs as [Hd' _].
          rewrite ?Ed in Hd'. exact Hd'. }
        destruct (lower_not_upper_digit d Hdl) as [_ Hdd]. rewrite Hdd.
        cbn [orb]. now exists (c :: g), gs.
Qed.

Lemma lower_join (ws : list chars) :
  lower (join " " ws) = join " " (map lower ws).
Proof.
  induction ws as [|w ws IH]; [reflexivity|].
  destruct ws as [|w' ws]; [reflexivity|].
  change (join " " (w :: w' :: ws)) with (w ++ " "%char :: join " " (w' :: ws)).
  change (map lower (w :: w' :: ws)) with (lower w :: map lower (w' :: ws)).
  unfold lower at 1. rewrite map_app. cbn [map]. fold (lower w).
  fold (lower (join " " (w' :: ws))). rewrite IH. reflexivity.
Qed.

Lemma lower_lower (g : chars) : lower (lower g) = lower g.
Proof.
  unfold lower. rewrite map_map. apply map_ext. intros c.
  apply LabelFacts.lower_char_facts.
Qed.

Lemma lower_normalize_group (g : chars) : lower (normalize_group g) = lower g.
Proof.
  unfold normalize_group. destruct (forallb caps_or_digit g);
    [reflexivity | apply lower_lower].
Qed.

Lemma py_capitalize_lower (x y : chars) :
  lower x = lower y -> py_capitalize x = py_capitalize y.
Proof.
  destruct x as [|c x], y as [|d y]; simpl; intros H;
    try discriminate; [reflexivity|].
  injection H as Hc Ht. rewrite Ht. f_equal.
  destruct (upper_char_facts c) as [_ <-].
  destruct (upper_char_facts d) as [_ <-]. now rewrite Hc.
Qed.

(** [get_sensor_name] where the capitalised last part has no underscore,
    space or line feed. *)
Lemma get_sensor_name_chars_segment (attr_name : chars) :
  attr_name <> [] ->
  forallb plain_char (capitalize (segment attr_name)) = true ->
  get_sensor_name_chars attr_name = Ok (amended_sensor_name attr_name).
Proof.
  intros Hne Hcap.
  unfold get_sensor_name_chars, amended_sensor_name.
  rewrite last_part_segment.
  pose proof (segment_nonempty attr_name Hne) as Hsne.
  destruct (segment attr_name) as [|c0 rest]; [congruence|].
  change (index (c0 :: rest) 0) with (Ok c0 : result ascii).
  cbn [bind skipn capitalize] in *.
  destruct (plain_parts _ Hcap) as (Hu & Hs & Hn).
  rewrite (replace_absent _ _ _ Hu).
  simpl in Hs. apply andb_true_iff in Hs. destruct Hs as [_ Hs].
  destruct (loop_groups (upper_char c0) rest Hs) as (st & Hl & Hg & Hw).
  rewrite Hl. cbn [bind].
  assert (Hpos : (0 <? length (group st))%nat = true)
    by (destruct (group st); [congruence | reflexivity]).
  rewrite Hpos, Hw. now rewrite normalize_groups.
Qed.

Lemma old_name_chars (attr_name : chars) :
  attr_name <> [] ->
  camel (capitalize (segment attr_name)) = true ->
  get_sensor_name_old_chars attr_name
  = Ok (py_capitalize (amended_sensor_name attr_name)).
Proof.
  intros Hne Hcamel.
  unfold get_sensor_name_old_chars, amended_sensor_name.
  rewrite last_part_segment.
  pose proof (segment_nonempty attr_name Hne) as Hsne.
  destruct (segment attr_name) as [|c0 rest]; [congruence|].
  change (index (c0 :: rest) 0) with (Ok c0 : result ascii).
  cbn [bind skipn capitalize] in *.
  pose proof (scan_caps_groups _ Hcamel) as Hscan. cbn beta iota in Hscan.
  assert (Hup : isupper (upper_char c0) = true).
  { cbn [camel] in Hcamel. apply andb_true_iff in Hcamel.
    destruct Hcamel as [H _].
    destruct (isupper (upper_char c0)); [reflexivity|].
    destruct (upper_char_facts c0) as [Hl _]. congruence. }
  rewrite Hup in Hscan. unfold findall_caps. rewrite Hscan. cbn [snd].
  f_equal. apply py_capitalize_lower.
  rewrite !lower_join, map_map. f_equal. apply map_ext.
  intros g. symmetry. apply lower_normalize_group.
Qed.

End OldNameFacts.

(** X5.  Where the last part of the identifier, with its first character
    turned into a capital, consists of letters with no capital directly
    after a capital, [get_sensor_name_old] gives the label of
    [get_sensor_name] capitalised: the same words, the first letter a
    capital and every other letter lower case. *)
Theorem old_name_is_capitalized_new_name (attr_name : string) :
  attr_name <> "" ->
  FurtherSpec.camel (NameSpec.capitalize (NameSpec.segment (str attr_name)))
  = true ->
  exists label,
    get_sensor_name attr_name = Ok label
    /\ get_sensor_name_old attr_name
       = Ok (string_of_list_ascii (py_capitalize (str label))).
Proof.
  intros Hne Hcamel.
  assert (Hne' : str attr_name <> [])
    by (destruct attr_name; [congruence | discriminate]).
  exists (string_of_list_ascii (NameSpec.amended_sensor_name (str attr_name))).
  unfold get_sensor_name, get_sensor_name_old.
  rewrite (OldNameFacts.get_sensor_name_chars_segment _ Hne'
             (OldNameFacts.camel_plain _ Hcamel)).
  rewrite (OldNameFacts.old_name_chars _ Hne' Hcamel).
  split; [reflexivity|]. cbn [bind].
  now rewrite list_ascii_of_string_of_list_ascii.
Qed.

Lemma old_name_is_capitalized_new_name_witness :
  exists label,
    get_sensor_name "fCMiscellaneousState/detergentExtradosage" = Ok label
    /\ get_sensor_name_old "fCMiscellaneousState/detergentExtradosage"
       = Ok (string_of_list_ascii (py_capitalize (str label))).
Proof.
  apply (old_name_is_capitalized_new_name
           "fCMiscellaneousState/detergentExtradosage");
    [discriminate | reflexivity].
Defined.

(** ** [get_entity_type] and [get_entity] *)

Module EntityFacts.
Import SetupFacts.

Lemma entity_type_of_def_not_button (def : dict pyval) :
  entity_type_of_def def <> Some BUTTON.
Proof.
  unfold entity_type_of_def, match_type.
  repeat match goal with
         | |- context [if ?b then _ else _] => destruct b
         end; discriminate.
Qed.

Lemma get_entity_type_inv (self : ElectroluxLibraryEntity) (attr_name : string)
    (k : entity_kind) :
  get_entity_type self attr_name = Ok (Some k) ->
  exists caps def,
    capabilities self = Some caps
    /\ lookup caps attr_name = Some (VDict def)
    /\ def <> []
    /\ entity_type_of_def def = Some k.
Proof.
  unfold get_entity_type, capability_lookup, get. intros H.
  destruct (capabilities self) as [caps|]; [|discriminate].
  cbn [bind] in H.
  destruct (lookup caps attr_name) as [v|] eqn:El; [|discriminate].
  destruct v as [|b|z|m ex|s|l|def];
    try (destruct (negb (truthy _)) in H; discriminate).
  exists caps, def. destruct def as [|kv def]; [discriminate|].
  cbn in H. injection H as H.
  split; [reflexivity|]. split; [exact El|].
  split; [discriminate | exact H].
Qed.

(** The unit and the device class that the type of a definition gives. *)
Lemma temperature_or_none_dict (self : ElectroluxLibraryEntity)
    (attr_name : string) (caps def : dict pyval) (constant : pyval) :
  capabilities self = Some caps ->
  lookup caps attr_name = Some (VDict def) ->
  temperature_or_none self attr_name constant
  = Ok (if eq_str (get def "type" VNone) "temperature"
        then constant else VNone).
Proof.
  intros Hc Hl. unfold temperature_or_none, capability_lookup, get at 1.
  rewrite Hc, Hl. cbn [bind].
  destruct def as [|kv def]; [reflexivity|].
  cbn [truthy negb vget bind].
  destruct (get (kv :: def) "type" VNone) as [|b|z|m ex|s|l|d']; cbn;
    try reflexivity.
  - now destruct b.
  - now destruct z.
  - now destruct m.
  - destruct (String.eqb s "temperature") eqn:E.
    + apply String.eqb_eq in E. now subst s.
    + now destruct (String.eqb s "").
  - now destruct l.
  - now destruct d'.
Qed.

Lemma entity_name_nonempty (capability : string) :
  capability <> "" -> get_entity_name capability <> "".
Proof.
  intros Hne. unfold get_entity_name. rewrite NameFacts.last_part_segment.
  assert (Hs : str capability <> [])
    by (destruct capability; [congruence | discriminate]).
  pose proof (NameFacts.segment_nonempty _ Hs) as Hseg.
  destruct (NameSpec.segment (str capability)); [congruence | discriminate].
Qed.

Lemma entity_label_ok (d : ElectroluxLibraryEntity) (attr : string) :
  attr <> "" ->
  exists label,
    get_sensor_name attr = Ok label
    /\ entity_label d attr = Ok (get_name d ++ " " ++ label)%string.
Proof.
  intros Hne.
  assert (Hs : str attr <> [])
    by (destruct attr; [congruence | discriminate]).
  destruct (LabelFacts.get_sensor_name_chars_total _ Hs) as (l & Hl & _).
  exists (string_of_list_ascii l).
  unfold entity_label, get_sensor_name. rewrite Hl. now split.
Qed.

End EntityFacts.

(** X6.  [get_entity_type] gives one of the five kinds sensor, binary
    sensor, switch, number, select, and never the button kind. *)
Theorem get_entity_type_is_never_button
    (self : ElectroluxLibraryEntity) (attr_name : string) (k : entity_kind) :
  get_entity_type self attr_name = Ok (Some k) -> k <> BUTTON.
Proof.
  intros H Hk. subst k.
  destruct (EntityFacts.get_entity_type_inv self attr_name BUTTON H)
    as (caps & def & _ & _ & _ & Hdef).
  exact (EntityFacts.entity_type_of_def_not_button def Hdef).
Qed.

Lemma get_entity_type_is_never_button_witness :
  get_entity_type (library (Some [("mode", VDict string_with_min)])) "mode"
  = Ok (Some SELECT)
  /\ SELECT <> BUTTON.
Proof.
  split; [reflexivity|].
  apply (get_entity_type_is_never_button
           (library (Some [("mode", VDict string_with_min)])) "mode" SELECT).
  reflexivity.
Defined.

(** X7.  For a non-empty capability whose entry in the capabilities
    dictionary is a dictionary, and for which the catalog has no device or a
    single device, [get_entity] returns; it returns [None] exactly when
    [get_entity_type] gives no kind, and otherwise an entity of that kind
    with the attribute and category of the capability, the appliance's
    identifier, and the name of the data followed by the label of the
    attribute. *)
Theorem get_entity_follows_entity_type
    (Catalog : dict catalog_value) (self : Appliance.t)
    (d : ElectroluxLibraryEntity) (caps def : dict pyval)
    (capability : string) :
  Appliance.data self = Some d ->
  capabilities d = Some caps ->
  lookup caps capability = Some (VDict def) ->
  capability <> "" ->
  (lookup Catalog capability = None
   \/ exists item, lookup Catalog capability = Some (One item)) ->
  exists kind,
    get_entity_type d capability = Ok kind
    /\ match kind with
       | None => get_entity Catalog self capability = Ok None
       | Some k =>
           exists e label,
             get_entity Catalog self capability = Ok (Some e)
             /\ ElectroluxEntity.entity_type e = k
             /\ ElectroluxEntity.entity_attr e = get_entity_name capability
             /\ ElectroluxEntity.entity_source e = get_category capability
             /\ ElectroluxEntity.pnc_id e = Appliance.pnc_id self
             /\ get_sensor_name (get_entity_name capability) = Ok label
             /\ ElectroluxEntity.name e = (get_name d ++ " " ++ label)%string
       end.
Proof.
  intros Hd Hc Hl Hne Hcat.
  assert (Hkind : exists kind, get_entity_type d capability = Ok kind
                               /\ kind <> Some BUTTON).
  { unfold get_entity_type, capability_lookup, get. rewrite Hc, Hl.
    destruct def as [|kv def]; cbn.
    - exists None. split; [reflexivity | discriminate].
    - exists (entity_type_of_def (kv :: def)).
      split; [reflexivity | apply EntityFacts.entity_type_of_def_not_button]. }
  destruct Hkind as (kind & Hk & Hnb). exists kind. split; [exact Hk|].
  unfold get_entity, bound_data. rewrite Hd. cbn [bind]. rewrite Hk, Hc.
  cbn [bind subscriptable]. unfold getitem. rewrite Hl. cbn [bind].
  unfold get_entity_device_class, get_entity_unit.
  rewrite !(EntityFacts.temperature_or_none_dict d capability caps def _ Hc Hl).
  cbn [bind].
  assert (Hmeta : exists meta,
             catalog_meta (lookup Catalog capability) (VDict def)
               (if eq_str (get def "type" VNone) "temperature"
                then TEMPERATURE else VNone)
               (if eq_str (get def "type" VNone) "temperature"
                then CELSIUS else VNone) = Ok meta).
  { destruct Hcat as [Hn|[item Hi]]; [rewrite Hn | rewrite Hi];
      cbn; eauto. }
  destruct Hmeta as (meta & Hm). rewrite Hm. cbn [bind].
  destruct kind as [k|]; [|reflexivity].
  destruct (EntityFacts.entity_label_ok d (get_entity_name capability)
              (EntityFacts.entity_name_nonempty capability Hne))
    as (label & Hlab & Hel).
  destruct k; try congruence; rewrite Hel; cbn [bind];
    eexists; exists label; repeat split; exact Hlab.
Qed.

Lemma get_entity_follows_entity_type_witness :
  exists e,
    get_entity [] (discovery_appliance true) "applianceState" = Ok (Some e)
    /\ ElectroluxEntity.entity_type e = SENSOR
    /\ ElectroluxEntity.name e = "Washer appliance state".
Proof.
  destruct (get_entity_follows_entity_type [] (discovery_appliance true)
              (library (Some [("applianceState", door_info)]))
              [("applianceState", door_info)]
              [("access", VStr "read"); ("type", VStr "string")]
              "applianceState" eq_refl eq_refl eq_refl)
    as (kind & Hk & H); [discriminate | now left |].
  injection Hk as <-.
  destruct H as (e & label & He & Ht & _ & _ & _ & Hl & Hn).
  exists e. split; [exact He|]. split; [exact Ht|].
  injection Hl as <-. exact Hn.
Defined.

(** X8.  For a capability that is no key of the capabilities dictionary
    [get_entity_type] returns [None], and [get_entity] raises [KeyError]. *)
Theorem get_entity_raises_on_missing_capability
    (Catalog : dict catalog_value) (self : Appliance.t)
    (d : ElectroluxLibraryEntity) (caps : dict pyval) (capability : string) :
  Appliance.data self = Some d ->
  capabilities d = Some caps ->
  lookup caps capability = None ->
  get_entity_type d capability = Ok None
  /\ get_entity Catalog self capability = Raise KeyError.
Proof.
  intros Hd Hc Hl.
  assert (Hk : get_entity_type d capability = Ok None).
  { unfold get_entity_type, capability_lookup, get. now rewrite Hc, Hl. }
  split; [exact Hk|].
  unfold get_entity, bound_data, getitem. rewrite Hd. cbn [bind].
  rewrite Hk, Hc. cbn [bind subscriptable]. now rewrite Hl.
Qed.

Lemma get_entity_raises_on_missing_capability_witness :
  get_entity (discovery_catalog None) (discovery_appliance true) "doorState"
  = Raise KeyError.
Proof.
  apply (get_entity_raises_on_missing_capability (discovery_catalog None)
           (discovery_appliance true)
           (library (Some [("applianceState", door_info)]))
           [("applianceState", door_info)] "doorState");
    reflexivity.
Defined.

(** X9.  An entity that [get_entity] creates carries the entry of the
    capabilities dictionary as its capability (a non-empty dictionary), never
    the catalog's.  Its unit, device class, entity category and icon are the
    catalog device's where the catalog has one for the capability; otherwise
    category and icon are [None], and unit and device class are Celsius and
    temperature for the type ["temperature"] and [None] for any other. *)
Theorem get_entity_metadata
    (Catalog : dict catalog_value) (self : Appliance.t)
    (capability : string) (e : ElectroluxEntity.t) :
  get_entity Catalog self capability = Ok (Some e) ->
  exists d caps def,
    Appliance.data self = Some d
    /\ capabilities d = Some caps
    /\ lookup caps capability = Some (VDict def)
    /\ def <> []
    /\ ElectroluxEntity.capability e = VDict def
    /\ match lookup Catalog capability with
       | Some (One item) =>
           ElectroluxEntity.unit e = ElectroluxDevice.unit item
           /\ ElectroluxEntity.device_class e
              = ElectroluxDevice.device_class item
           /\ ElectroluxEntity.entity_category e
              = ElectroluxDevice.entity_category item
           /\ ElectroluxEntity.icon e = ElectroluxDevice.entity_icon item
       | _ =>
           ElectroluxEntity.entity_category e = VNone
           /\ ElectroluxEntity.icon e = VNone
           /\ ElectroluxEntity.unit e
              = (if eq_str (get def "type" VNone) "temperature"
                 then CELSIUS else VNone)
           /\ ElectroluxEntity.device_class e
              = (if eq_str (get def "type" VNone) "temperature"
                 then TEMPERATURE else VNone)
       end.
Proof.
  unfold get_entity. intros H.
  apply SetupFacts.bind_ok in H. destruct H as (d & Hd & H).
  apply SetupFacts.bind_ok in H. destruct H as (kind & Hk & H).
  apply SetupFacts.bind_ok in H. destruct H as (caps & Hc & H).
  apply SetupFacts.bind_ok in H. destruct H as (ci & Hci & H).
  apply SetupFacts.bind_ok in H. destruct H as (dc & Hdc & H).
  apply SetupFacts.bind_ok in H. destruct H as (u & Hu & H).
  apply SetupFacts.bind_ok in H. destruct H as (meta & Hm & H).
  assert (Hd' : Appliance.data self = Some d)
    by (unfold bound_data in Hd; destruct (Appliance.data self);
        [now injection Hd as -> | discriminate]).
  assert (Hc' : capabilities d = Some caps)
    by (unfold subscriptable in Hc; destruct (capabilities d);
        [now injection Hc as -> | discriminate]).
  destruct kind as [k|]; [|discriminate].
  destruct (EntityFacts.get_entity_type_inv d capability k Hk)
    as (caps' & def & Hc'' & Hl & Hne & _).
  assert (caps' = caps) by congruence. subst caps'.
  assert (ci = VDict def).
  { unfold getitem in Hci. rewrite Hl in Hci. now injection Hci as <-. }
  subst ci.
  unfold get_entity_device_class in Hdc. unfold get_entity_unit in Hu.
  rewrite (EntityFacts.temperature_or_none_dict d capability caps def _ Hc' Hl)
    in Hdc.
  rewrite (EntityFacts.temperature_or_none_dict d capability caps def _ Hc' Hl)
    in Hu.
  injection Hdc as <-. injection Hu as <-.
  exists d, caps, def.
  assert (He : exists label k',
             e = make_entity self label k' (get_entity_name capability)
                   (get_category capability) (m_capability_info meta)
                   (m_unit meta) (m_entity_category meta)
                   (m_device_class meta) (m_entity_icon meta) None).
  { destruct k; try discriminate;
      apply SetupFacts.bind_ok in H; destruct H as (label & _ & H);
      injection H as <-; eauto. }
  destruct He as (label & k' & ->). cbn.
  repeat (split; [assumption|]).
  unfold catalog_meta in Hm.
  destruct (lookup Catalog capability) as [[item|items]|].
  - cbn in Hm. injection Hm as <-. cbn. repeat split.
  - destruct items as [|i items]; cbn in Hm; [|discriminate].
    injection Hm as <-. cbn. repeat split.
  - injection Hm as <-. cbn. repeat split.
Qed.

Lemma get_entity_metadata_witness :
  match get_entity fahrenheit_catalog temperature_appliance
          "targetTemperatureC" with
  | Ok (Some e) =>
      ElectroluxEntity.unit e = VStr "fahrenheit"
      /\ ElectroluxEntity.device_class e = VNone
  | _ => False
  end.
Proof.
  destruct (get_entity fahrenheit_catalog temperature_appliance
              "targetTemperatureC") as [[e|]|ex] eqn:E;
    [|vm_compute in E; discriminate E..].
  destruct (get_entity_metadata fahrenheit_catalog temperature_appliance
              "targetTemperatureC" e E)
    as (d & caps & def & _ & _ & _ & _ & _ & Hu & Hdc & _).
  split; [exact Hu | exact Hdc].
Defined.

(** ** [setup]: how it fails, and what it leaves *)

Module SetupEdges.
Import Appliance.

Lemma in_keys_lookup {V : Type} (d : dict V) (k : string) :
  In k (keys d) -> exists v, lookup d k = Some v.
Proof.
  induction d as [|[k' v'] d IH]; simpl; [tauto|].
  intros [H|H].
  - subst k'. rewrite String.eqb_refl. eauto.
  - destruct (String.eqb k' k); eauto.
Qed.

Lemma common_loop_all_found (Catalog : dict catalog_value)
    (names : list string) (COMMON_ATTRIBUTES : list string) :
  forallb (fun ca => reported_in_capabilities names (get_entity_name ca)
                       (get_category ca)) COMMON_ATTRIBUTES = true ->
  forall loc self,
    fold_M (common_step Catalog (Some names)) loc COMMON_ATTRIBUTES self
    = (self, Ok loc).
Proof.
  induction COMMON_ATTRIBUTES as [|ca cas IH]; intros H loc self;
    [reflexivity|].
  simpl in H. apply andb_true_iff in H. destruct H as [Hca Hcas].
  cbn [fold_M]. unfold bindM at 1. unfold common_step at 1.
  unfold bindM at 1. cbn [iterable lift]. rewrite Hca. cbn [ret].
  now apply IH.
Qed.

End SetupEdges.

(** X10.  When the capabilities dictionary has at least one key that
    [sources_list] keeps and every common attribute is found among those
    keys (in particular when there is no common attribute), [setup] raises
    [UnboundLocalError] at the first capability: it reads [catalog_item],
    which only the loop over the common attributes assigns.  The appliance
    is left with the data bound and an empty list of entities. *)
Theorem setup_reads_unbound_catalog_item
    (Catalog : dict catalog_value) (COMMON_ATTRIBUTES : list string)
    (icon_mapping : dict string) (d : ElectroluxLibraryEntity)
    (first : string) (others : list string) (self : Appliance.t) :
  sources_list d = Some (first :: others) ->
  forallb (fun ca => reported_in_capabilities (first :: others)
                       (get_entity_name ca) (get_category ca))
          COMMON_ATTRIBUTES = true ->
  setup Catalog COMMON_ATTRIBUTES icon_mapping d self
  = (Appliance.with_entities (Appliance.with_data self (Some d)) (Some []),
     Raise UnboundLocalError).
Proof.
  intros Hs Hfound. unfold setup. rewrite Hs.
  unfold Appliance.bindM at 1. cbn [Appliance.write].
  unfold Appliance.bindM at 1. cbn [setup_rebuild].
  unfold Appliance.bindM at 1. unfold setup_common.
  rewrite (SetupEdges.common_loop_all_found Catalog (first :: others)
             COMMON_ATTRIBUTES Hfound).
  unfold Appliance.bindM at 1. unfold setup_capabilities.
  unfold Appliance.bindM at 1. cbn [iterable Appliance.lift l_catalog_item
                                      l_entities fold_M].
  unfold Appliance.bindM at 1. unfold capability_step at 1.
  unfold Appliance.bindM at 1. cbn [bound_data Appliance.data
                                      Appliance.with_entities
                                      Appliance.with_data].
  unfold sources_list in Hs.
  destruct (capabilities d) as [caps|] eqn:Hc; [|discriminate].
  injection Hs as Hs.
  assert (Hin : In first (keys caps)).
  { assert (H : In first (first :: others)) by now left.
    rewrite <- Hs in H. apply filter_In in H. tauto. }
  destruct (SetupEdges.in_keys_lookup caps first Hin) as (v & Hv).
  unfold Appliance.bindM at 1. cbn [subscriptable Appliance.lift].
  unfold Appliance.bindM at 1. unfold getitem. rewrite Hv.
  unfold Appliance.bindM at 1. reflexivity.
Qed.

Lemma setup_reads_unbound_catalog_item_witness :
  snd (setup [] ["applianceState"] []
         (library (Some [("applianceState", door_info)]))
         (Appliance.init "Washer" "914550001" "AEG" "L7FEE"
            (state_of [("applianceState", VStr "RUNNING")])))
  = Raise UnboundLocalError.
Proof.
  rewrite (setup_reads_unbound_catalog_item [] ["applianceState"] []
             (library (Some [("applianceState", door_info)]))
             "applianceState" []); reflexivity.
Defined.

(** X11.  When the capabilities dictionary is [None] and the appliance has
    no state (a falsy one), [setup] raises [TypeError]: the list of
    capability names stays [None] and is iterated over.  The appliance is
    left with the data bound and an empty list of entities. *)
Theorem setup_without_capabilities_and_state
    (Catalog : dict catalog_value) (COMMON_ATTRIBUTES : list string)
    (icon_mapping : dict string) (d : ElectroluxLibraryEntity)
    (self : Appliance.t) :
  capabilities d = None ->
  truthy (Appliance.state self) = false ->
  setup Catalog COMMON_ATTRIBUTES icon_mapping d self
  = (Appliance.with_entities (Appliance.with_data self (Some d)) (Some []),
     Raise TypeError).
Proof.
  intros Hc Hst. unfold setup, sources_list. rewrite Hc.
  unfold Appliance.bindM at 1. cbn [Appliance.write].
  unfold Appliance.bindM at 1. unfold setup_rebuild.
  cbn [Appliance.state Appliance.with_entities Appliance.with_data].
  rewrite Hst.
  unfold Appliance.bindM at 1. unfold setup_common.
  destruct COMMON_ATTRIBUTES as [|ca cas].
  - cbn [fold_M Appliance.ret].
    unfold Appliance.bindM at 1. unfold setup_capabilities.
    unfold Appliance.bindM at 1. reflexivity.
  - cbn [fold_M]. unfold Appliance.bindM at 1. unfold common_step at 1.
    unfold Appliance.bindM at 1. reflexivity.
Qed.

Lemma setup_without_capabilities_and_state_witness :
  snd (setup [] ["connectivityState"] [] (library None)
         (Appliance.init "Washer" "914550001" "AEG" "L7FEE" VNone))
  = Raise TypeError.
Proof.
  rewrite (setup_without_capabilities_and_state [] ["connectivityState"] []
             (library None)); reflexivity.
Defined.

Module SetupInvariants.
Import Appliance Frame SetupFacts FurtherSpec.

(** Steps of [setup] keep whatever assignments to the capabilities keep. *)
Section Kept.
Context {X : Type} (f : t -> X).
Variable Catalog : dict catalog_value.
Variable icon_mapping : dict string.
Hypothesis set_capability_kept :
  forall path info, keeps f (set_capability path info).
Hypothesis setup_rebuild_kept :
  forall names, keeps f (setup_rebuild Catalog names).

Lemma common_step_kept (names : option (list string)) (loc : locals)
    (ca : string) :
  keeps f (common_step Catalog names loc ca).
Proof.
  unfold common_step.
  apply keeps_bind; [apply keeps_lift|]. intros ns.
  destruct (reported_in_capabilities ns _ _); [apply keeps_ret|].
  destruct (lookup Catalog (get_entity_name ca)) as [v|]; [|apply keeps_ret].
  destruct (catalog_truthy (Some v)); [|apply keeps_ret].
  apply keeps_bind; [apply keeps_lift|]. intros info.
  apply keeps_bind; [apply set_capability_kept|]. intros _.
  apply keeps_bind; [apply keeps_pure|]. intros; apply keeps_ret.
Qed.

Lemma enrich_kept (capability : string) (capability_info : pyval)
    (catalog_item : option catalog_value) :
  keeps f (enrich capability capability_info catalog_item).
Proof.
  unfold enrich.
  destruct catalog_item as [v|]; [|apply keeps_ret].
  destruct (catalog_truthy (Some v)); [|apply keeps_ret].
  destruct (is_none capability_info).
  - apply keeps_bind; [apply keeps_lift|]. intros info.
    apply keeps_bind; [apply keeps_lift|]. intros; apply keeps_ret.
  - apply keeps_bind; [apply keeps_lift|]. intros cinfo.
    apply keeps_bind.
    + destruct (truthy cinfo); [|apply keeps_ret].
      destruct cinfo as [|b|z|m ex|s|l|[|kv items]];
        try apply keeps_raise; try apply keeps_ret.
      destruct capability_info as [|b|z|m ex|s|l|ci];
        try apply keeps_raise.
      apply keeps_bind; [apply set_capability_kept|].
      intros; apply keeps_ret.
    + intros merged. apply keeps_bind; [apply keeps_lift|].
      intros; apply keeps_ret.
Qed.

Lemma capability_step_kept (catalog_item : option (option catalog_value))
    (acc : list (option ElectroluxEntity.t)) (capability : string) :
  keeps f (capability_step Catalog icon_mapping catalog_item acc capability).
Proof.
  unfold capability_step.
  apply keeps_bind; [apply keeps_pure|]. intros d.
  apply keeps_bind; [apply keeps_lift|]. intros caps.
  apply keeps_bind; [apply keeps_lift|]. intros capability_info.
  apply keeps_bind; [apply keeps_lift|]. intros item.
  apply keeps_bind; [apply enrich_kept|]. intros enriched.
  destruct (String.eqb capability "executeCommand").
  - apply keeps_bind; [apply keeps_lift|]. intros commands_keys.
    apply keeps_bind; [|intros; apply keeps_ret].
    now intros self.
  - apply keeps_bind; [apply keeps_pure|].
    intros [e|]; apply keeps_ret.
Qed.

(** The three loops of [setup], before [self.entities] is assigned. *)
Lemma loops_kept (COMMON_ATTRIBUTES : list string)
    (names0 : option (list string)) :
  keeps f (names <<- setup_rebuild Catalog names0 ;;
           loc <<- setup_common Catalog COMMON_ATTRIBUTES names ;;
           setup_capabilities Catalog icon_mapping names loc).
Proof.
  apply keeps_bind; [apply setup_rebuild_kept|]. intros names.
  apply keeps_bind.
  - unfold setup_common. apply keeps_fold_M. intros; apply common_step_kept.
  - intros loc. unfold setup_capabilities.
    apply keeps_bind; [apply keeps_lift|]. intros ns.
    apply keeps_fold_M. intros; apply capability_step_kept.
Qed.

End Kept.

Lemma set_capability_frame (path : string) (info : pyval) :
  keeps setup_frame (set_capability path info).
Proof.
  intros self. unfold set_capability, setup_frame.
  destruct (data self) as [d|] eqn:Hd; [destruct (capabilities d)|];
    cbn; rewrite ?Hd; reflexivity.
Qed.

Lemma setup_rebuild_frame (Catalog : dict catalog_value)
    (names : option (list string)) :
  keeps setup_frame (setup_rebuild Catalog names).
Proof.
  intros self. unfold setup_rebuild.
  destruct names as [ns|]; [reflexivity|].
  destruct (truthy (state self)); [|reflexivity].
  destruct (last_reported (state self)) as [reported|e]; [|reflexivity].
  destruct (truthy reported); [|reflexivity].
  destruct (rebuild_loop reported ([], []) Catalog) as [[caps ns]|e];
    [|reflexivity].
  unfold setup_frame.
  destruct (data self) as [d|] eqn:Hd; cbn; rewrite ?Hd; reflexivity.
Qed.

Lemma setup_rebuild_entities (Catalog : dict catalog_value)
    (names : option (list string)) :
  keeps entities (setup_rebuild Catalog names).
Proof.
  intros self. unfold setup_rebuild.
  destruct names as [ns|]; [reflexivity|].
  destruct (truthy (state self)); [|reflexivity].
  destruct (last_reported (state self)) as [reported|e]; [|reflexivity].
  destruct (truthy reported); [|reflexivity].
  destruct (rebuild_loop reported ([], []) Catalog) as [[caps ns]|e];
    [|reflexivity].
  now destruct (data self).
Qed.

(** [setup], as the three loops and the assignment that follows them. *)
Lemma setup_unfold (Catalog : dict catalog_value)
    (COMMON_ATTRIBUTES : list string) (icon_mapping : dict string)
    (d : ElectroluxLibraryEntity) (self : t) :
  setup Catalog COMMON_ATTRIBUTES icon_mapping d self
  = match (names <<- setup_rebuild Catalog (sources_list d) ;;
           loc <<- setup_common Catalog COMMON_ATTRIBUTES names ;;
           setup_capabilities Catalog icon_mapping names loc)
            (with_entities (with_data self (Some d)) (Some []))
    with
    | (self', Ok es) =>
        (with_entities self' (Some (fst (setup_entities es))),
         snd (setup_entities es))
    | (self', Raise e) => (self', Raise e)
    end.
Proof.
  unfold setup. unfold bindM at 1. cbn [write].
  set (self0 := with_entities (with_data self (Some d)) (Some [])).
  unfold bindM.
  destruct (setup_rebuild Catalog (sources_list d) self0)
    as [self1 [names|e]]; [|reflexivity].
  destruct (setup_common Catalog COMMON_ATTRIBUTES names self1)
    as [self2 [loc|e]]; [|reflexivity].
  destruct (setup_capabilities Catalog icon_mapping names loc self2)
    as [self3 [es|e]]; [|reflexivity].
  now destruct (setup_entities es).
Qed.

Lemma setup_entities_bound (es : list (option ElectroluxEntity.t)) :
  snd (setup_entities es) = Ok tt -> all_bound (fst (setup_entities es)).
Proof.
  induction es as [|[e|] es IH]; simpl.
  - constructor.
  - destruct (setup_entities es) as [es' r]. simpl in *. intros Hr.
    constructor; [now exists (ElectroluxEntity.setup e) | now apply IH].
  - discriminate.
Qed.

Lemma setup_entities_keeps (P : option ElectroluxEntity.t -> Prop)
    (es : list (option ElectroluxEntity.t)) :
  (forall e, P (Some e) -> P (Some (ElectroluxEntity.setup e))) ->
  Forall P es -> Forall P (fst (setup_entities es)).
Proof.
  intros HP. induction es as [|[e|] es IH]; simpl; intros H.
  - constructor.
  - inversion H; subst. destruct (setup_entities es) as [es' r]. simpl in *.
    constructor; auto.
  - exact H.
Qed.

End SetupInvariants.

(** X12.  Whatever its arguments and whether it returns or raises, [setup]
    leaves the state, the [own_capabilties] flag and the identity of the
    appliance as they were, binds [self.data] to an object with the name of
    the one it was given, and leaves a list in [self.entities]. *)
Theorem setup_frame_and_bindings
    (Catalog : dict catalog_value) (COMMON_ATTRIBUTES : list string)
    (icon_mapping : dict string) (d : ElectroluxLibraryEntity)
    (self : Appliance.t) :
  FurtherSpec.setup_frame
    (fst (setup Catalog COMMON_ATTRIBUTES icon_mapping d self))
  = (Appliance.state self, Appliance.own_capabilties self,
     Appliance.name self, Appliance.pnc_id self, Appliance.brand self,
     Appliance.model self, Some (get_name d))
  /\ exists es,
       Appliance.entities
         (fst (setup Catalog COMMON_ATTRIBUTES icon_mapping d self))
       = Some es.
Proof.
  rewrite SetupInvariants.setup_unfold.
  set (self0 := Appliance.with_entities
                  (Appliance.with_data self (Some d)) (Some [])).
  pose proof (SetupInvariants.loops_kept FurtherSpec.setup_frame Catalog
                icon_mapping SetupInvariants.set_capability_frame
                (SetupInvariants.setup_rebuild_frame Catalog)
                COMMON_ATTRIBUTES (sources_list d) self0) as Hf.
  pose proof (SetupInvariants.loops_kept Appliance.entities Catalog
                icon_mapping SetupFrame.set_capability_keeps_entities
                (SetupInvariants.setup_rebuild_entities Catalog)
                COMMON_ATTRIBUTES (sources_list d) self0) as He.
  destruct ((names <<- setup_rebuild Catalog (sources_list d) ;;
             loc <<- setup_common Catalog COMMON_ATTRIBUTES names ;;
             setup_capabilities Catalog icon_mapping names loc) self0)
    as [self' [es|e]]; cbn [fst] in *.
  - split; [|eexists; reflexivity]. exact Hf.
  - split; [exact Hf|]. exists []. exact He.
Qed.

Module SetupEntities.
Import Appliance Frame SetupFacts FurtherSpec.

(** A property of everything the loops of [setup] put in [entities]. *)
Section ForallEntities.
Variable Catalog : dict catalog_value.
Variable COMMON_ATTRIBUTES : list string.
Variable icon_mapping : dict string.
Variable P : option ElectroluxEntity.t -> Prop.
Hypothesis get_entity_P :
  forall self capability oe,
    get_entity Catalog self capability = Ok oe -> P oe.
Hypothesis buttons_P :
  forall self d capability capability_info device_class commands buttons,
    String.eqb capability "executeCommand" = true ->
    map_result (make_button icon_mapping self d (get_entity_name capability)
                  (get_category capability) capability_info device_class)
               commands = Ok buttons ->
    Forall P buttons.

Lemma common_step_P (names : option (list string)) (loc loc' : locals)
    (ca : string) (self self' : t) :
  Forall P (l_entities loc) ->
  common_step Catalog names loc ca self = (self', Ok loc') ->
  Forall P (l_entities loc').
Proof.
  intros HP H. unfold common_step in H.
  apply bindM_ok in H. destruct H as (self1 & ns & _ & H).
  destruct (reported_in_capabilities ns _ _);
    [unfold ret in H; now injection H as <- <-|].
  destruct (lookup Catalog (get_entity_name ca)) as [v|];
    [|unfold ret in H; now injection H as <- <-].
  destruct (catalog_truthy (Some v));
    [|unfold ret in H; now injection H as <- <-].
  apply bindM_ok in H. destruct H as (self2 & info & _ & H).
  apply bindM_ok in H. destruct H as (self3 & u & _ & H).
  apply bindM_ok in H. destruct H as (self4 & entity & He & H).
  unfold ret in H. injection H as <- <-. simpl.
  apply Forall_app. split; [exact HP|]. constructor; [|constructor].
  unfold call_get_entity in He. injection He as <- He.
  exact (get_entity_P self3 ca entity He).
Qed.

Lemma capability_step_P (catalog_item : option (option catalog_value))
    (acc acc' : list (option ElectroluxEntity.t)) (capability : string)
    (self self' : t) :
  Forall P acc ->
  capability_step Catalog icon_mapping catalog_item acc capability self
  = (self', Ok acc') ->
  Forall P acc'.
Proof.
  intros HP H. unfold capability_step in H.
  apply bindM_ok in H. destruct H as (self1 & d & _ & H).
  apply bindM_ok in H. destruct H as (self2 & cs & _ & H).
  apply bindM_ok in H. destruct H as (self3 & capability_info & _ & H).
  apply bindM_ok in H. destruct H as (self4 & item & _ & H).
  apply bindM_ok in H. destruct H as (self5 & enriched & _ & H).
  destruct (String.eqb capability "executeCommand") eqn:Ecmd.
  - apply bindM_ok in H. destruct H as (self6 & commands_keys & _ & H).
    apply bindM_ok in H. destruct H as (self7 & buttons & Hb & H).
    unfold ret in H. injection H as <- <-. injection Hb as <- Hb.
    apply Forall_app. split; [exact HP|].
    exact (buttons_P _ _ _ _ _ _ _ Ecmd Hb).
  - apply bindM_ok in H. destruct H as (self6 & entity & He & H).
    unfold call_get_entity in He. injection He as <- He.
    destruct entity as [e|]; unfold ret in H; injection H as <- <-.
    + apply Forall_app. split; [exact HP|]. constructor; [|constructor].
      exact (get_entity_P self5 capability (Some e) He).
    + exact HP.
Qed.

Lemma loops_P (names0 : option (list string)) (self self' : t)
    (es : list (option ElectroluxEntity.t)) :
  (names <<- setup_rebuild Catalog names0 ;;
   loc <<- setup_common Catalog COMMON_ATTRIBUTES names ;;
   setup_capabilities Catalog icon_mapping names loc) self = (self', Ok es) ->
  Forall P es.
Proof.
  intros H.
  apply bindM_ok in H. destruct H as (self1 & names & _ & H).
  apply bindM_ok in H. destruct H as (self2 & loc & Hc & H).
  assert (Hloc : Forall P (l_entities loc)).
  { unfold setup_common in Hc.
    refine (fold_M_invariant (fun loc => Forall P (l_entities loc))
              (common_step Catalog names) COMMON_ATTRIBUTES
              _ _ _ _ _ _ Hc); [|constructor].
    intros loc0 x s s' loc' _ HP Hs.
    exact (common_step_P names loc0 loc' x s s' HP Hs). }
  unfold setup_capabilities in H.
  apply bindM_ok in H. destruct H as (self3 & ns & _ & H).
  refine (fold_M_invariant (Forall P)
            (capability_step Catalog icon_mapping (l_catalog_item loc)) ns
            _ _ _ _ _ Hloc H).
  intros acc x s s' acc' _ HP Hs.
  exact (capability_step_P (l_catalog_item loc) acc acc' x s s' HP Hs).
Qed.

End ForallEntities.

Lemma get_entity_button_shape (Catalog : dict catalog_value) (self : t)
    (capability : string) (oe : option ElectroluxEntity.t) :
  get_entity Catalog self capability = Ok oe -> button_shape oe.
Proof.
  unfold get_entity. intros H.
  apply bind_ok in H. destruct H as (d & _ & H).
  apply bind_ok in H. destruct H as (entity_type & _ & H).
  apply bind_ok in H. destruct H as (caps & _ & H).
  apply bind_ok in H. destruct H as (capability_info & _ & H).
  apply bind_ok in H. destruct H as (device_class & _ & H).
  apply bind_ok in H. destruct H as (unit & _ & H).
  apply bind_ok in H. destruct H as (meta & _ & H).
  destruct entity_type as [[]|];
    try (injection H as <-; exact I);
    apply bind_ok in H; destruct H as (label & _ & H);
    injection H as <-; reflexivity.
Qed.

Lemma buttons_button_shape (icon_mapping : dict string) (self : t)
    (d : ElectroluxLibraryEntity) (capability : string)
    (capability_info device_class : pyval) (commands : list string) :
  forall buttons,
    String.eqb capability "executeCommand" = true ->
    map_result (make_button icon_mapping self d (get_entity_name capability)
                  (get_category capability) capability_info device_class)
               commands = Ok buttons ->
    Forall button_shape buttons.
Proof.
  intros buttons Hc. apply String.eqb_eq in Hc. subst capability.
  revert buttons.
  induction commands as [|command commands IH]; intros buttons H.
  - injection H as <-. constructor.
  - simpl in H. apply bind_ok in H. destruct H as (b & Hb & H).
    apply bind_ok in H. destruct H as (bs & Hbs & H). injection H as <-.
    constructor; [|now apply IH].
    unfold make_button in Hb. apply bind_ok in Hb.
    destruct Hb as (label & _ & Hb). injection Hb as <-.
    cbn. repeat split. discriminate.
Qed.

End SetupEntities.

(** X13.  In the list [setup] leaves, a button is an entity of
    ["executeCommand"] with the empty category that carries the command to
    send, and no entity of another kind carries a command. *)
Theorem setup_buttons_are_commands
    (Catalog : dict catalog_value) (COMMON_ATTRIBUTES : list string)
    (icon_mapping : dict string) (d : ElectroluxLibraryEntity)
    (self : Appliance.t) :
  exists es,
    Appliance.entities
      (fst (setup Catalog COMMON_ATTRIBUTES icon_mapping d self)) = Some es
    /\ Forall FurtherSpec.button_shape es.
Proof.
  rewrite SetupInvariants.setup_unfold.
  set (self0 := Appliance.with_entities
                  (Appliance.with_data self (Some d)) (Some [])).
  pose proof (SetupInvariants.loops_kept Appliance.entities Catalog
                icon_mapping SetupFrame.set_capability_keeps_entities
                (SetupInvariants.setup_rebuild_entities Catalog)
                COMMON_ATTRIBUTES (sources_list d) self0) as He.
  pose proof (SetupEntities.loops_P Catalog COMMON_ATTRIBUTES icon_mapping
                FurtherSpec.button_shape
                (SetupEntities.get_entity_button_shape Catalog)
                (SetupEntities.buttons_button_shape icon_mapping)
                (sources_list d) self0) as HP.
  destruct ((names <<- setup_rebuild Catalog (sources_list d) ;;
             loc <<- setup_common Catalog COMMON_ATTRIBUTES names ;;
             setup_capabilities Catalog icon_mapping names loc) self0)
    as [self' [es|e]]; cbn [fst] in *.
  - eexists. split; [reflexivity|].
    apply SetupInvariants.setup_entities_keeps; [|now apply (HP self')].
    intros e. exact (fun H => H).
  - exists []. split; [exact He | constructor].
Qed.

(** X14.  When [setup] returns, every element of [self.entities] is an
    entity (none is [None]) and each one has been bound to the data. *)
Theorem setup_binds_every_entity
    (Catalog : dict catalog_value) (COMMON_ATTRIBUTES : list string)
    (icon_mapping : dict string) (d : ElectroluxLibraryEntity)
    (self : Appliance.t) :
  snd (setup Catalog COMMON_ATTRIBUTES icon_mapping d self) = Ok tt ->
  exists es,
    Appliance.entities
      (fst (setup Catalog COMMON_ATTRIBUTES icon_mapping d self)) = Some es
    /\ FurtherSpec.all_bound es.
Proof.
  rewrite SetupInvariants.setup_unfold.
  destruct ((names <<- setup_rebuild Catalog (sources_list d) ;;
             loc <<- setup_common Catalog COMMON_ATTRIBUTES names ;;
             setup_capabilities Catalog icon_mapping names loc)
              (Appliance.with_entities
                 (Appliance.with_data self (Some d)) (Some [])))
    as [self' [es|e]]; cbn [fst snd]; [|discriminate].
  intros Hr. eexists. split; [reflexivity|].
  now apply SetupInvariants.setup_entities_bound.
Qed.

Lemma setup_binds_every_entity_witness :
  exists es,
    Appliance.entities
      (fst (setup (RebuildSpec.as_catalog sample_catalog)
              ["connectivityState"] [] (library None) sample_appliance))
    = Some es
    /\ FurtherSpec.all_bound es.
Proof.
  apply (setup_binds_every_entity (RebuildSpec.as_catalog sample_catalog)
           ["connectivityState"] [] (library None) sample_appliance).
  reflexivity.
Defined.

(** ** Updates *)

Module UpdateFacts.
Import Appliance Frame FurtherSpec.

Section Dicts.
Context {V : Type}.

Lemma set_same_id (d : dict V) (k : string) (v : V) :
  lookup d k = Some v -> set d k v = d.
Proof.
  induction d as [|[k' v'] d IH]; simpl; [discriminate|].
  destruct (String.eqb k' k) eqn:E.
  - now intros [= ->].
  - intros H. now rewrite IH.
Qed.

Lemma set_set (d : dict V) (k : string) (v v' : V) :
  set (set d k v) k v' = set d k v'.
Proof.
  induction d as [|[k' v0] d IH]; simpl.
  - now rewrite String.eqb_refl.
  - destruct (String.eqb k' k) eqn:E; simpl; rewrite E; [reflexivity|].
    now rewrite IH.
Qed.

Lemma keys_set_incl (d : dict V) (k k0 : string) (v : V) :
  In k0 (keys d) -> In k0 (keys (set d k v)).
Proof.
  induction d as [|[k' v'] d IH]; simpl; [tauto|].
  destruct (String.eqb k' k); simpl; tauto.
Qed.

Lemma keys_set_present (d : dict V) (k : string) (v v0 : V) :
  lookup d k = Some v0 -> keys (set d k v) = keys d.
Proof.
  induction d as [|[k' v'] d IH]; simpl; [discriminate|].
  destruct (String.eqb k' k) eqn:E; simpl; [reflexivity|].
  intros H. now rewrite (IH H).
Qed.

Lemma keys_update_incl (other : dict V) :
  forall (d : dict V) (k : string),
    In k (keys d) -> In k (keys (Py.update d other)).
Proof.
  unfold Py.update.
  induction other as [|[k0 v0] other IH]; intros d k H; simpl; [exact H|].
  apply IH. now apply keys_set_incl.
Qed.

Lemma in_lookup (d : dict V) (k : string) (v : V) :
  NoDup (keys d) -> In (k, v) d -> lookup d k = Some v.
Proof.
  induction d as [|[k' v'] d IH]; simpl; [tauto|].
  intros Hnd [H|H].
  - injection H as -> ->. now rewrite String.eqb_refl.
  - inversion Hnd as [|? ? Hnotin Hnd']; subst.
    destruct (String.eqb k' k) eqn:E; [|now apply IH].
    apply String.eqb_eq in E. subst k'. exfalso. apply Hnotin.
    change k with (fst (k, v)). now apply in_map.
Qed.

Lemma update_fixed (other : dict V) :
  forall d : dict V,
    (forall k v, In (k, v) other -> lookup d k = Some v) ->
    Py.update d other = d.
Proof.
  unfold Py.update.
  induction other as [|[k0 v0] other IH]; intros d H; simpl; [reflexivity|].
  rewrite (set_same_id d k0 v0) by (apply H; now left).
  apply IH. intros k v Hin. apply H. now right.
Qed.

Lemma update_idempotent (d other : dict V) :
  NoDup (keys other) ->
  Py.update (Py.update d other) other = Py.update d other.
Proof.
  intros Hnd. apply update_fixed. intros k v Hin.
  rewrite lookup_update by exact Hnd.
  now rewrite (in_lookup other k v Hnd Hin).
Qed.

End Dicts.

Lemma update_reported_data_state (Catalog : dict catalog_value)
    (reported_data : dict pyval) (self : t)
    (st properties local : dict pyval) :
  state self = VDict st ->
  lookup st "properties" = Some (VDict properties) ->
  lookup properties "reported" = Some (VDict local) ->
  state (fst (update_reported_data Catalog reported_data self))
  = merged_state st properties local reported_data.
Proof.
  intros Hst Hp Hr. unfold update_reported_data.
  rewrite <- (try_except_keeps state).
  unfold bindM at 1.
  rewrite (merge_reported_state reported_data self st properties local
             Hst Hp Hr).
  rewrite (keeps_bind state (update_missing_entities Catalog)
             (fun _ => update_all_entities)
             (update_missing_entities_keeps_state Catalog)
             (fun _ => update_all_entities_keeps_state)).
  reflexivity.
Qed.

End UpdateFacts.

(** X15.  [update] replaces the stored state by the status it is given,
    also when it raises; and it does raise, where [update_reported_data]
    would not: with no entity list assigned (and the re-scan switched off)
    it raises [AttributeError]. *)
Theorem update_replaces_state
    (Catalog : dict catalog_value) (appliance_status : pyval)
    (self : Appliance.t) :
  Appliance.state (fst (update Catalog appliance_status self))
  = appliance_status
  /\ (Appliance.own_capabilties self = false ->
      Appliance.entities self = None ->
      snd (update Catalog appliance_status self) = Raise AttributeError).
Proof.
  split.
  - unfold update. unfold Appliance.bindM at 1. cbn [Appliance.write].
    rewrite (Frame.keeps_bind Appliance.state
               (update_missing_entities Catalog)
               (fun _ => update_all_entities)
               (Frame.update_missing_entities_keeps_state Catalog)
               (fun _ => Frame.update_all_entities_keeps_state)).
    reflexivity.
  - intros Hown Hes. unfold update. unfold Appliance.bindM at 1.
    cbn [Appliance.write]. unfold Appliance.bindM at 1.
    unfold update_missing_entities at 1.
    cbn [Appliance.own_capabilties Appliance.with_state]. rewrite Hown.
    cbn [negb]. unfold update_all_entities.
    cbn [Appliance.entities Appliance.with_state]. now rewrite Hes.
Qed.

Lemma update_replaces_state_witness :
  snd (update [] (VDict [])
         (Appliance.init "Washer" "914550001" "AEG" "L7FEE" VNone))
  = Raise AttributeError.
Proof.
  apply (proj2 (update_replaces_state [] (VDict [])
                  (Appliance.init "Washer" "914550001" "AEG" "L7FEE" VNone)));
    reflexivity.
Defined.

Module ExtractFacts.
Import Appliance FurtherSpec.

Lemma update_entities_all (status : pyval)
    (es : list (option ElectroluxEntity.t)) :
  all_present es ->
  update_entities status es
  = (map (option_map (fun e => ElectroluxEntity.update e status)) es, Ok tt).
Proof.
  induction es as [|[e|] es IH]; intros H; [reflexivity| |].
  - inversion H; subst. simpl. now rewrite IH.
  - inversion H; subst. congruence.
Qed.

(** What [extract_value] reads in a state that has a non-empty reported
    dictionary. *)
Lemma extract_value_reported (e : ElectroluxEntity.t)
    (st properties reported : dict pyval) :
  ElectroluxEntity.appliance_status e = Some (VDict st) ->
  lookup st "properties" = Some (VDict properties) ->
  lookup properties "reported" = Some (VDict reported) ->
  reported <> [] ->
  extract_value e
  = if String.eqb (ElectroluxEntity.entity_source e) ""
    then Ok (get reported (ElectroluxEntity.entity_attr e) VNone)
    else
      let category := get reported (ElectroluxEntity.entity_source e) VNone in
      if truthy category
      then vget category (ElectroluxEntity.entity_attr e)
      else Ok VNone.
Proof.
  intros Hs Hp Hr Hne. unfold extract_value. rewrite Hs.
  assert (Ht : truthy (VDict st) = true)
    by (destruct st; [discriminate | reflexivity]).
  rewrite Ht. cbn [vget bind]. rewrite (get_of_lookup _ _ _ Hp).
  assert (Htp : truthy (VDict properties) = true)
    by (destruct properties; [discriminate | reflexivity]).
  rewrite Htp.
  change (truthy (VStr root_attribute)) with true. cbn iota.
  cbn [vget bind]. unfold root_attribute.
  rewrite (get_of_lookup _ _ _ Hr). cbn [bind].
  assert (Htr : truthy (VDict reported) = true)
    by (destruct reported; [congruence | reflexivity]).
  rewrite Htr. cbn [truthy vget bind].
  destruct (String.eqb (ElectroluxEntity.entity_source e) ""); reflexivity.
Qed.

End ExtractFacts.

(** X16.  After [update_reported_data], with the re-scan switched off and no
    [None] in the entity list, every entity reads the data that came in:
    [extract_value] of an entity without category whose attribute is a key
    of the incoming dictionary is the incoming value, and [extract_value] of
    an entity whose category is a key holding a non-empty dictionary is what
    that dictionary holds for the attribute ([None] if nothing). *)
Theorem entities_read_reported_data
    (Catalog : dict catalog_value) (reported_data : dict pyval)
    (self : Appliance.t) (st properties local : dict pyval)
    (es : list (option ElectroluxEntity.t)) :
  Appliance.own_capabilties self = false ->
  Appliance.state self = VDict st ->
  lookup st "properties" = Some (VDict properties) ->
  lookup properties "reported" = Some (VDict local) ->
  NoDup (keys reported_data) ->
  Appliance.entities self = Some es ->
  FurtherSpec.all_present es ->
  exists es',
    Appliance.entities
      (fst (update_reported_data Catalog reported_data self)) = Some es'
    /\ length es' = length es
    /\ forall e',
         In (Some e') es' ->
         (forall v,
             ElectroluxEntity.entity_source e' = "" ->
             lookup reported_data (ElectroluxEntity.entity_attr e') = Some v ->
             extract_value e' = Ok v)
         /\ (forall container,
                ElectroluxEntity.entity_source e' <> "" ->
                lookup reported_data (ElectroluxEntity.entity_source e')
                = Some (VDict container) ->
                container <> [] ->
                extract_value e'
                = Ok (get container (ElectroluxEntity.entity_attr e') VNone)).
Proof.
  intros Hown Hst Hp Hr Hnd Hes Hall.
  set (status := FurtherSpec.merged_state st properties local reported_data).
  exists (map (option_map (fun e => ElectroluxEntity.update e status)) es).
  assert (Hrun :
    update_reported_data Catalog reported_data self
    = (Appliance.with_entities (Appliance.with_state self status)
         (Some (map (option_map (fun e => ElectroluxEntity.update e status))
                    es)),
       Ok tt)).
  { unfold update_reported_data, Appliance.try_except.
    unfold Appliance.bindM at 1.
    rewrite (merge_reported_state reported_data self st properties local
               Hst Hp Hr).
    fold (FurtherSpec.merged_state st properties local reported_data).
    fold status. unfold Appliance.bindM at 1.
    unfold update_missing_entities at 1.
    cbn [Appliance.own_capabilties Appliance.with_state]. rewrite Hown.
    cbn [negb]. unfold update_all_entities.
    cbn [Appliance.entities Appliance.state Appliance.with_state].
    rewrite Hes, (ExtractFacts.update_entities_all status es Hall).
    reflexivity. }
  rewrite Hrun. cbn [fst Appliance.entities Appliance.with_entities].
  split; [reflexivity|]. split; [apply length_map|].
  intros e' Hin. apply in_map_iff in Hin. destruct Hin as (oe & He & _).
  destruct oe as [e|]; [|discriminate]. injection He as <-.
  assert (Hx := ExtractFacts.extract_value_reported
                  (ElectroluxEntity.update e status)
                  (set st "properties"
                     (VDict (set properties "reported"
                               (VDict (Py.update local reported_data)))))
                  (set properties "reported"
                     (VDict (Py.update local reported_data)))
                  (Py.update local reported_data) eq_refl
                  (lookup_set_same _ _ _) (lookup_set_same _ _ _)).
  cbn [ElectroluxEntity.update ElectroluxEntity.entity_source
         ElectroluxEntity.entity_attr] in *.
  split.
  - intros v Hsrc Hv.
    assert (Hl : lookup (Py.update local reported_data)
                   (ElectroluxEntity.entity_attr e) = Some v)
      by (rewrite lookup_update by exact Hnd; now rewrite Hv).
    rewrite Hx by (intros E; rewrite E in Hl; discriminate).
    rewrite Hsrc. cbn. unfold get. now rewrite Hl.
  - intros container Hsrc Hc Hne.
    assert (Hl : lookup (Py.update local reported_data)
                   (ElectroluxEntity.entity_source e) = Some (VDict container))
      by (rewrite lookup_update by exact Hnd; now rewrite Hc).
    rewrite Hx by (intros E; rewrite E in Hl; discriminate).
    apply String.eqb_neq in Hsrc. rewrite Hsrc. cbn zeta.
    unfold get at 1 2. rewrite Hl.
    destruct container; [congruence | reflexivity].
Qed.

Lemma entities_read_reported_data_witness :
  exists es',
    Appliance.entities
      (fst (update_reported_data (discovery_catalog None)
              [("applianceState", VStr "PAUSED")] (discovery_appliance false)))
    = Some es'
    /\ forall e',
         In (Some e') es' -> extract_value e' = Ok (VStr "PAUSED").
Proof.
  destruct (entities_read_reported_data (discovery_catalog None)
              [("applianceState", VStr "PAUSED")] (discovery_appliance false)
              [("properties",
                VDict [("reported", VDict [("applianceState", VStr "RUNNING")])])]
              [("reported", VDict [("applianceState", VStr "RUNNING")])]
              [("applianceState", VStr "RUNNING")]
              [Some state_entity])
    as (es' & Hes & Hlen & Hread); try reflexivity.
  - repeat constructor. simpl. tauto.
  - repeat constructor. discriminate.
  - exists es'. split; [exact Hes|]. intros e' Hin.
    destruct (Hread e' Hin) as [Htop _].
    assert (Hshape : ElectroluxEntity.entity_source e' = ""
                     /\ ElectroluxEntity.entity_attr e' = "applianceState").
    { vm_compute in Hes. injection Hes as <-. simpl in Hin.
      destruct Hin as [Hin|[]]. injection Hin as <-. split; reflexivity. }
    destruct Hshape as [Hsrc Hattr].
    apply Htop; [exact Hsrc | rewrite Hattr; reflexivity].
Defined.

(** X17.  Delivering the same data twice changes nothing more: the state
    after a second [update_reported_data] with the same dictionary is the
    state after the first. *)
Theorem update_reported_data_is_idempotent
    (Catalog : dict catalog_value) (reported_data : dict pyval)
    (self : Appliance.t) (st properties local : dict pyval) :
  Appliance.state self = VDict st ->
  lookup st "properties" = Some (VDict properties) ->
  lookup properties "reported" = Some (VDict local) ->
  NoDup (keys reported_data) ->
  Appliance.state
    (fst (update_reported_data Catalog reported_data
            (fst (update_reported_data Catalog reported_data self))))
  = Appliance.state (fst (update_reported_data Catalog reported_data self)).
Proof.
  intros Hst Hp Hr Hnd.
  pose proof (UpdateFacts.update_reported_data_state Catalog reported_data
                self st properties local Hst Hp Hr) as H1.
  rewrite (UpdateFacts.update_reported_data_state Catalog reported_data
             (fst (update_reported_data Catalog reported_data self))
             (set st "properties"
                (VDict (set properties "reported"
                          (VDict (Py.update local reported_data)))))
             (set properties "reported"
                (VDict (Py.update local reported_data)))
             (Py.update local reported_data) H1
             (lookup_set_same _ _ _) (lookup_set_same _ _ _)).
  rewrite H1. unfold FurtherSpec.merged_state.
  rewrite (UpdateFacts.update_idempotent local reported_data Hnd).
  now rewrite !UpdateFacts.set_set.
Qed.

Lemma update_reported_data_is_idempotent_witness :
  Appliance.state
    (fst (update_reported_data (discovery_catalog None) door_opened
            (fst (update_reported_data (discovery_catalog None) door_opened
                    (discovery_appliance true)))))
  = Appliance.state
      (fst (update_reported_data (discovery_catalog None) door_opened
              (discovery_appliance true))).
Proof.
  apply (update_reported_data_is_idempotent (discovery_catalog None)
           door_opened (discovery_appliance true)
           [("properties",
             VDict [("reported", VDict [("applianceState", VStr "RUNNING")])])]
           [("reported", VDict [("applianceState", VStr "RUNNING")])]
           [("applianceState", VStr "RUNNING")]);
    try reflexivity.
  repeat constructor. simpl. tauto.
Defined.

(** X18.  [update_reported_data] touches nothing but the reported
    dictionary: the state keeps its keys and every entry other than
    ["properties"], the properties keep their keys and every entry other
    than ["reported"], and no key of the reported dictionary is lost. *)
Theorem update_reported_data_frame
    (Catalog : dict catalog_value) (reported_data : dict pyval)
    (self : Appliance.t) (st properties local : dict pyval) :
  Appliance.state self = VDict st ->
  lookup st "properties" = Some (VDict properties) ->
  lookup properties "reported" = Some (VDict local) ->
  exists st' properties' local',
    Appliance.state (fst (update_reported_data Catalog reported_data self))
    = VDict st'
    /\ keys st' = keys st
    /\ (forall k, k <> "properties" -> lookup st' k = lookup st k)
    /\ lookup st' "properties" = Some (VDict properties')
    /\ keys properties' = keys properties
    /\ (forall k, k <> "reported" ->
                  lookup properties' k = lookup properties k)
    /\ lookup properties' "reported" = Some (VDict local')
    /\ (forall k, In k (keys local) -> In k (keys local')).
Proof.
  intros Hst Hp Hr.
  exists (set st "properties"
            (VDict (set properties "reported"
                      (VDict (Py.update local reported_data))))),
         (set properties "reported" (VDict (Py.update local reported_data))),
         (Py.update local reported_data).
  split; [exact (UpdateFacts.update_reported_data_state Catalog reported_data
                   self st properties local Hst Hp Hr)|].
  split; [exact (UpdateFacts.keys_set_present st "properties" _ _ Hp)|].
  split; [intros k Hk; now apply lookup_set_other|].
  split; [apply lookup_set_same|].
  split; [exact (UpdateFacts.keys_set_present properties "reported" _ _ Hr)|].
  split; [intros k Hk; now apply lookup_set_other|].
  split; [apply lookup_set_same|].
  intros k Hk. now apply UpdateFacts.keys_update_incl.
Qed.

Lemma update_reported_data_frame_witness :
  exists st',
    Appliance.state
      (fst (update_reported_data (discovery_catalog None) door_opened
              (discovery_appliance true))) = VDict st'
    /\ keys st' = ["properties"].
Proof.
  destruct (update_reported_data_frame (discovery_catalog None) door_opened
              (discovery_appliance true)
              [("properties",
                VDict [("reported", VDict [("applianceState", VStr "RUNNING")])])]
              [("reported", VDict [("applianceState", VStr "RUNNING")])]
              [("applianceState", VStr "RUNNING")] eq_refl eq_refl eq_refl)
    as (st' & p' & l' & Hs & Hk & _).
  exists st'. split; [exact Hs | exact Hk].
Defined.

Module ExtendFacts.
Import Appliance Frame FurtherSpec.

Lemma extended_refl (self : t) : entities_extended self self.
Proof.
  unfold entities_extended. destruct (entities self) as [es|]; [|reflexivity].
  exists []. now rewrite app_nil_r.
Qed.

Lemma extended_trans (a b c : t) :
  entities_extended a b -> entities_extended b c -> entities_extended a c.
Proof.
  unfold entities_extended.
  destruct (entities a) as [es|].
  - intros [added Hb]. rewrite Hb. intros [added' Hc].
    exists (added ++ added'). now rewrite app_assoc.
  - intros Hb. now rewrite Hb.
Qed.

Lemma extended_of_kept (a b : t) :
  entities b = entities a -> entities_extended a b.
Proof.
  intros H. unfold entities_extended. rewrite H.
  destruct (entities a) as [es|]; [|reflexivity].
  exists []. now rewrite app_nil_r.
Qed.

(** [m] only adds entities. *)
Lemma extends_bind {A B} (m : M A) (k : A -> M B) :
  (forall self, entities_extended self (fst (m self))) ->
  (forall a self, entities_extended self (fst (k a self))) ->
  forall self, entities_extended self (fst (bindM m k self)).
Proof.
  intros Hm Hk self. unfold bindM. specialize (Hm self).
  destruct (m self) as [self' [a|e]]; simpl in *; [|exact Hm].
  exact (extended_trans _ _ _ Hm (Hk a self')).
Qed.

Lemma extends_fold_M {A L} (body : L -> A -> M L) (xs : list A) :
  (forall loc x self, entities_extended self (fst (body loc x self))) ->
  forall loc self, entities_extended self (fst (fold_M body loc xs self)).
Proof.
  intros Hb. induction xs as [|x xs IH]; intros loc self; simpl.
  - apply extended_refl.
  - apply extends_bind; [apply Hb | intros; apply IH].
Qed.

Lemma extends_kept {A} (m : M A) :
  keeps entities m -> forall self, entities_extended self (fst (m self)).
Proof. intros H self. apply extended_of_kept. apply H. Qed.

Lemma append_entity_extends (e : ElectroluxEntity.t) (self : t) :
  entities_extended self (fst (append_entity e self)).
Proof.
  unfold append_entity, entities_extended.
  destruct (entities self) as [es|] eqn:E; simpl; [|exact E].
  now exists [Some e].
Qed.

Lemma missing_step_extends (Catalog : dict catalog_value) (reported : pyval)
    (key capability : string) (item : ElectroluxDevice.t) (self : t) :
  entities_extended self
    (fst (missing_step Catalog reported key capability item self)).
Proof.
  revert self. unfold missing_step.
  apply extends_bind; [apply extends_kept, keeps_lift|]. intros present.
  destruct present; [|apply extends_kept, keeps_ret].
  apply extends_bind; [apply extends_kept, keeps_pure|]. intros es.
  apply extends_bind; [apply extends_kept, keeps_lift|]. intros found.
  destruct found.
  - apply extends_bind;
      [apply extends_kept, SetupFrame.set_capability_keeps_entities|].
    intros; apply extends_kept, keeps_ret.
  - apply extends_bind; [apply extends_kept, keeps_pure|].
    intros [e|]; [|apply extends_kept, keeps_ret].
    apply extends_bind; [apply append_entity_extends|].
    intros; apply extends_kept, keeps_ret.
Qed.

End ExtendFacts.

(** X19.  The re-scan never takes an entity away and never reorders the
    list: whether [update_missing_entities] returns or raises, the entities
    that were there are still there, in place, followed by the ones it
    added; and the state is untouched. *)
Theorem update_missing_entities_only_adds
    (Catalog : dict catalog_value) (self : Appliance.t) :
  FurtherSpec.entities_extended self
    (fst (update_missing_entities Catalog self))
  /\ Appliance.state (fst (update_missing_entities Catalog self))
     = Appliance.state self.
Proof.
  split; [|apply Frame.update_missing_entities_keeps_state].
  unfold update_missing_entities.
  destruct (negb (Appliance.own_capabilties self));
    [apply ExtendFacts.extended_refl|].
  destruct (Appliance.state self) as [|b|z|m ex|s|l|st];
    try apply ExtendFacts.extended_refl.
  destruct (truthy (get st "properties" VNone));
    [|apply ExtendFacts.extended_refl].
  destruct (vget (get st "properties" VNone) "reported") as [reported|e];
    [|apply ExtendFacts.extended_refl].
  destruct (truthy reported); [|apply ExtendFacts.extended_refl].
  assert (H : FurtherSpec.entities_extended self
                (fst (fold_M (missing_key Catalog reported) "" Catalog self))).
  { apply ExtendFacts.extends_fold_M. intros capability entry. unfold missing_key.
    apply ExtendFacts.extends_bind;
      [apply ExtendFacts.extends_kept, Frame.keeps_lift|].
    intros items. apply ExtendFacts.extends_fold_M.
    intros; apply ExtendFacts.missing_step_extends. }
  destruct (fold_M (missing_key Catalog reported) "" Catalog self)
    as [self' [u|e]]; exact H.
Qed.

(** ** Reading values, identifiers, the collection of appliances *)

Module ValueFacts.
Import FurtherSpec.

Lemma subscript_inv (v : pyval) (k : string) (r : pyval) :
  subscript v k = Ok r -> exists d, v = VDict d /\ lookup d k = Some r.
Proof.
  destruct v as [|b|z|m ex|s|l|d]; try discriminate. simpl.
  unfold getitem. destruct (lookup d k) as [x|] eqn:E; [|discriminate].
  intros [= ->]. now exists d.
Qed.

Lemma str_inj (a b : string) : str a = str b -> a = b.
Proof.
  intros H. rewrite <- (string_of_list_ascii_of_string a),
              <- (string_of_list_ascii_of_string b). now rewrite H.
Qed.

(** The text up to the first ["-"] decides the split. *)
Lemma split_at_dash (a1 : chars) :
  forall a2 s1 s2 : chars,
    forallb not_dash a1 = true ->
    forallb not_dash a2 = true ->
    a1 ++ "-"%char :: s1 = a2 ++ "-"%char :: s2 ->
    a1 = a2 /\ s1 = s2.
Proof.
  induction a1 as [|c a1 IH]; intros a2 s1 s2 H1 H2 E.
  - destruct a2 as [|d a2]; simpl in E.
    + now injection E as ->.
    + injection E as <- _. simpl in H2. discriminate.
  - destruct a2 as [|d a2]; simpl in E, H1.
    + injection E as -> _. discriminate.
    + injection E as -> E. simpl in H2.
      apply andb_true_iff in H1. apply andb_true_iff in H2.
      destruct (IH a2 s1 s2) as [-> ->]; tauto.
Qed.

(** Equal identifiers come from equal attributes and categories. *)
Lemma unique_id_inj (entry_id : string) (e1 e2 : ElectroluxEntity.t) :
  ElectroluxEntity.pnc_id e1 = ElectroluxEntity.pnc_id e2 ->
  no_dash (ElectroluxEntity.entity_attr e1) = true ->
  no_dash (ElectroluxEntity.entity_attr e2) = true ->
  unique_id entry_id e1 = unique_id entry_id e2 ->
  ElectroluxEntity.entity_attr e1 = ElectroluxEntity.entity_attr e2
  /\ ElectroluxEntity.entity_source e1 = ElectroluxEntity.entity_source e2.
Proof.
  unfold unique_id, no_dash. intros Hp H1 H2 E.
  rewrite Hp in E. apply (f_equal list_ascii_of_string) in E.
  rewrite !PathFacts.str_app in E.
  apply app_inv_head in E.
  change (str "-") with ["-"%char] in E. cbn [app] in E.
  injection E as E.
  destruct (split_at_dash _ _ _ _ H1 H2 E) as [Ha Hs].
  split; [now apply str_inj|].
  apply str_inj.
  exact (app_inv_tail _ _ _ Hs).
Qed.

End ValueFacts.

(** X20.  Among the entities of one appliance and one configuration entry,
    [unique_id] tells apart any two that differ in attribute or category,
    provided the attributes contain no ["-"]. *)
Theorem unique_id_separates_entities
    (entry_id : string) (e1 e2 : ElectroluxEntity.t) :
  ElectroluxEntity.pnc_id e1 = ElectroluxEntity.pnc_id e2 ->
  FurtherSpec.no_dash (ElectroluxEntity.entity_attr e1) = true ->
  FurtherSpec.no_dash (ElectroluxEntity.entity_attr e2) = true ->
  ElectroluxEntity.entity_attr e1 <> ElectroluxEntity.entity_attr e2
  \/ ElectroluxEntity.entity_source e1 <> ElectroluxEntity.entity_source e2 ->
  unique_id entry_id e1 <> unique_id entry_id e2.
Proof.
  intros Hp H1 H2 Hdiff E.
  destruct (ValueFacts.unique_id_inj entry_id e1 e2 Hp H1 H2 E) as [Ha Hs].
  destruct Hdiff as [H|H]; contradiction.
Qed.

Lemma unique_id_separates_entities_witness :
  unique_id "entry" state_entity <> unique_id "entry" selected_entity.
Proof.
  apply (unique_id_separates_entities "entry" state_entity selected_entity);
    [reflexivity | reflexivity | reflexivity | right; discriminate].
Defined.

(** X21.  Where [get_value] of the data returns, [extract_value] of an
    entity that was updated with the same state returns the same for the
    entity's attribute and category. *)
Theorem extract_value_agrees_with_get_value
    (lib : ElectroluxLibraryEntity) (e : ElectroluxEntity.t) (v : pyval) :
  ElectroluxEntity.appliance_status e = Some (state lib) ->
  get_value lib (ElectroluxEntity.entity_attr e)
    (Some (ElectroluxEntity.entity_source e)) = Ok v ->
  extract_value e = Ok v.
Proof.
  intros Hs Hg. unfold get_value, reported_state in Hg.
  apply SetupFacts.bind_ok in Hg. destruct Hg as (reported & Hrep & Hg).
  apply SetupFacts.bind_ok in Hrep. destruct Hrep as (props & Hprops & Hrep).
  destruct (ValueFacts.subscript_inv _ _ _ Hprops) as (st & Est & Hp).
  destruct (ValueFacts.subscript_inv _ _ _ Hrep) as (p & -> & Hr).
  rewrite Est in Hs. unfold extract_value. rewrite Hs.
  assert (Ht : truthy (VDict st) = true)
    by (destruct st; [discriminate | reflexivity]).
  rewrite Ht. cbn [vget bind]. rewrite (get_of_lookup _ _ _ Hp).
  assert (Htp : truthy (VDict p) = true)
    by (destruct p; [discriminate | reflexivity]).
  rewrite Htp. change (truthy (VStr root_attribute)) with true. cbn iota.
  cbn [vget bind]. unfold root_attribute.
  rewrite (get_of_lookup _ _ _ Hr). cbn [bind].
  unfold category_truthy in Hg. cbn [truthy].
  destruct reported as [|b|z|m ex|s|l|r];
    try (destruct (negb (String.eqb (ElectroluxEntity.entity_source e) ""));
         cbn in Hg; discriminate Hg).
  destruct r as [|kv r].
  - cbn [truthy].
    destruct (negb (String.eqb (ElectroluxEntity.entity_source e) ""));
      cbn in Hg; congruence.
  - cbn [truthy].
    destruct (negb (String.eqb (ElectroluxEntity.entity_source e) ""));
      [|exact Hg].
    cbn [vget bind] in *.
    destruct (get (kv :: r) (ElectroluxEntity.entity_source e) VNone)
      as [|b|z|m ex|s|l|c]; cbn in Hg |- *; try discriminate Hg;
      try congruence.
    destruct c; cbn in Hg |- *; congruence.
Qed.

Lemma extract_value_agrees_with_get_value_witness :
  extract_value
    (ElectroluxEntity.update state_entity
       (state_of [("applianceState", VStr "RUNNING")]))
  = Ok (VStr "RUNNING").
Proof.
  apply (extract_value_agrees_with_get_value
           {| name := "Washer"; status := "enabled";
              state := state_of [("applianceState", VStr "RUNNING")];
              appliance_info := VNone; capabilities := None |}
           (ElectroluxEntity.update state_entity
              (state_of [("applianceState", VStr "RUNNING")])));
    reflexivity.
Defined.

(** X22.  [get_appliance] finds an appliance exactly for the identifiers
    that [get_appliance_ids] lists. *)
Theorem get_appliance_finds_listed_ids (self : Appliances) (pnc_id : string) :
  (exists appliance, get_appliance self pnc_id = Some appliance)
  <-> In pnc_id (get_appliance_ids self).
Proof.
  unfold get_appliance, get_appliance_ids. split.
  - intros [a H]. exact (lookup_in_keys _ _ _ H).
  - apply SetupEdges.in_keys_lookup.
Qed.

(** ** The merge of catalog fields into a capability *)

Module MergeFacts.

Lemma merge_info_cons (ci : dict pyval) (k : string) (item : pyval)
    (others : dict pyval) :
  merge_info ci ((k, item) :: others)
  = merge_info (if is_none (get ci k VNone) then set ci k item else ci) others.
Proof. reflexivity. Qed.

Lemma get_set_other (d : dict pyval) (k k0 : string) (v : pyval) :
  k0 <> k -> get (set d k v) k0 VNone = get d k0 VNone.
Proof. intros H. unfold get. now rewrite lookup_set_other. Qed.

End MergeFacts.

(** X23.  The merge that [setup] makes of the catalog's fields into a
    capability never replaces a field the capability has: a field that is
    there and not [None] keeps its value, and a field that is missing or
    [None] takes the catalog's value where the catalog has the field. *)
Theorem merge_info_fills_only_missing_fields
    (catalog_info : dict pyval) :
  forall (capability_info : dict pyval) (k : string),
    NoDup (keys catalog_info) ->
    lookup (merge_info capability_info catalog_info) k
    = if is_none (get capability_info k VNone)
      then match lookup catalog_info k with
           | Some item => Some item
           | None => lookup capability_info k
           end
      else lookup capability_info k.
Proof.
  induction catalog_info as [|[k0 item] others IH]; intros ci k Hnd.
  - cbn. now destruct (is_none (get ci k VNone)).
  - inversion Hnd as [|? ? Hnotin Hnd']; subst.
    rewrite MergeFacts.merge_info_cons, IH by exact Hnd'.
    cbn [lookup].
    destruct (String.eqb k0 k) eqn:E.
    + apply String.eqb_eq in E. subst k0.
      rewrite (lookup_not_in_keys others k Hnotin).
      destruct (is_none (get ci k VNone)) eqn:En.
      * unfold get at 1. rewrite lookup_set_same.
        now destruct (is_none item).
      * now rewrite En.
    + assert (Hne : k <> k0)
        by (intros ->; now rewrite String.eqb_refl in E).
      destruct (is_none (get ci k0 VNone)).
      * rewrite (MergeFacts.get_set_other ci k0 k item Hne).
        rewrite (lookup_set_other ci k0 k item Hne). reflexivity.
      * reflexivity.
Qed.

Lemma merge_info_fills_only_missing_fields_witness :
  lookup (merge_info [("access", VStr "read"); ("type", VNone)]
            [("access", VStr "readwrite"); ("type", VStr "string");
             ("max", VInt 90)]) "access" = Some (VStr "read")
  /\ lookup (merge_info [("access", VStr "read"); ("type", VNone)]
               [("access", VStr "readwrite"); ("type", VStr "string");
                ("max", VInt 90)]) "type" = Some (VStr "string").
Proof.
  split;
    rewrite (merge_info_fills_only_missing_fields
               [("access", VStr "readwrite"); ("type", VStr "string");
                ("max", VInt 90)]);
    try reflexivity;
    repeat constructor; simpl; intuition discriminate.
Defined.
